(** * ObstacleCameraPerception: the per-frame camera pipeline orchestrator

    A shallow embedding of
    [modules/perception/camera/app/obstacle_camera_perception.cc]:
    [Init], [InitLane], [InitCalibrationService], [SetCameraHeightAndPitch],
    [GetCalibrationService] and [Perception].

    The stage plugins (detector, tracker, transformer, ...) are virtual
    interfaces whose bodies live elsewhere; they are taken as type classes,
    one per interface.  Every call the orchestrator makes on a collaborator
    is appended to a ghost [trace], so that ordering properties can be
    stated.  C++ control effects are explicit: an early [return], the
    [std::out_of_range] thrown by [std::map::at], a failed [CHECK] (which
    aborts the process) and a dereference of a null or dangling pointer. *)

From stdpp Require Import gmap strings list fin_maps pretty.
From Stdlib Require Import ZArith.

Local Open Scope Z_scope.

(** ** Plain data *)

(** A [float] or [double] is carried around as its IEEE-754 bit pattern; the
    orchestrator never computes with one, it only copies them. *)
Definition float : Type := Z.

(** Heap locations: the targets of [shared_ptr] and raw pointers. *)
Definition loc : Type := positive.

Definition Vector3d : Type := float * float * float.
Definition Vector3f : Type := float * float * float.
Definition Matrix3f : Type := list float.
Definition Affine3d : Type := list float.
Definition LaneLine : Type := list float.

Module base.

Record CameraObjectSupplement := {
  sensor_name : string;
  box : list float
}.

(** [base::Object], restricted to the fields the camera pipeline reads or
    writes. *)
Record Object := {
  center : Vector3d;
  anchor_point : Vector3d;
  size : Vector3f;
  direction : Vector3f;
  polygon : list Vector3d;
  camera_supplement : CameraObjectSupplement
}.

Record BaseCameraModel := {
  get_width : Z;
  get_height : Z;
  get_intrinsic_params : Matrix3f
}.

Definition set_sensor_name (s : string) (o : Object) : Object :=
  {| center := center o; anchor_point := anchor_point o; size := size o;
     direction := direction o; polygon := polygon o;
     camera_supplement :=
       {| sensor_name := s; box := box (camera_supplement o) |} |}.

Definition set_anchor_point (p : Vector3d) (o : Object) : Object :=
  {| center := center o; anchor_point := p; size := size o;
     direction := direction o; polygon := polygon o;
     camera_supplement := camera_supplement o |}.

Definition set_polygon (ps : list Vector3d) (o : Object) : Object :=
  {| center := center o; anchor_point := anchor_point o; size := size o;
     direction := direction o; polygon := ps;
     camera_supplement := camera_supplement o |}.

End base.

(** The object heap: what the [base::ObjectPtr]s of a frame point into.  A
    null [shared_ptr] is a location outside the store. *)
Abbreviation ObjectStore := (gmap loc base.Object).

Record DataProvider := { sensor_name : string }.

(** The fields of [CameraFrame] that the stages populate. *)
Record Populated := {
  camera_k_matrix : Matrix3f;
  lane_objects : list LaneLine;
  detected_objects : list loc;
  tracked_objects : list loc;
  camera2world_pose : Affine3d
}.

(** [CameraFrame].  [frame_id], [data_provider] and [calibration_service] are
    handles set by the capture layer before [Perception] is called; a stage
    reads them and fills in the [populated] fields. *)
Record CameraFrame := {
  frame_id : Z;
  data_provider : DataProvider;
  calibration_service : option loc;
  populated : Populated
}.

Definition set_populated (p : Populated) (f : CameraFrame) : CameraFrame :=
  {| frame_id := frame_id f; data_provider := data_provider f;
     calibration_service := calibration_service f; populated := p |}.

Definition set_camera_k_matrix (k : Matrix3f) (f : CameraFrame) : CameraFrame :=
  set_populated
    {| camera_k_matrix := k;
       lane_objects := lane_objects (populated f);
       detected_objects := detected_objects (populated f);
       tracked_objects := tracked_objects (populated f);
       camera2world_pose := camera2world_pose (populated f) |} f.

(** ** Configuration ([app::PerceptionParam], a protobuf message)

    An optional sub-message is an [option]; a block that only wraps a
    [plugin_param] is identified with it. *)

Module app.

Record PluginParam := {
  name : string;
  root_dir : string;
  config_file : string
}.

(** What an accessor returns for a message that is not set. *)
Definition PluginParam_default : PluginParam :=
  {| name := EmptyString; root_dir := EmptyString; config_file := EmptyString |}.

Record DetectorParam := {
  plugin_param : PluginParam;
  camera_name : string
}.

Record LaneParam := {
  lane_detector_param : option PluginParam;
  lane_postprocessor_param : option PluginParam
}.

Record CalibrationServiceParam := {
  calibration_plugin_param : PluginParam;
  calibrator_method : string
}.

Record DebugParam := {
  track_out_file : option string;
  camera2world_out_file : option string;
  lane_out_dir : option string;
  calibration_out_dir : option string;
  detection_out_dir : option string;
  detect_feature_dir : option string;
  tracked_detection_out_dir : option string
}.

Definition DebugParam_default : DebugParam :=
  {| track_out_file := None; camera2world_out_file := None;
     lane_out_dir := None; calibration_out_dir := None;
     detection_out_dir := None; detect_feature_dir := None;
     tracked_detection_out_dir := None |}.

Record PerceptionParam := {
  gpu_id : Z;
  detector_param : list DetectorParam;
  tracker_param : option PluginParam;
  transformer_param : option PluginParam;
  postprocessor_param : option PluginParam;
  feature_param : option PluginParam;
  lane_param : option LaneParam;
  calibration_service_param : option CalibrationServiceParam;
  debug_param : option DebugParam;
  object_template_param : option PluginParam
}.

Definition PerceptionParam_default : PerceptionParam :=
  {| gpu_id := 0; detector_param := []; tracker_param := None;
     transformer_param := None; postprocessor_param := None;
     feature_param := None; lane_param := None;
     calibration_service_param := None; debug_param := None;
     object_template_param := None |}.

(** [has_debug_param()] and the accessor [debug_param()], which hands back
    the default instance when the block is not set. *)
Definition has_debug_param (p : PerceptionParam) : bool :=
  bool_decide (is_Some (debug_param p)).

Definition get_debug_param (p : PerceptionParam) : DebugParam :=
  default DebugParam_default (debug_param p).

End app.

(** ** Option structs handed to the plugins *)

Record BaseInitOptions := {
  root_dir : string;
  conf_file : string;
  gpu_id : Z
}.

(** The value of [gpu_id] in an options struct that [Init] leaves alone. *)
Definition default_gpu_id : Z := 0.

Module ObstacleDetectorInitOptions.
Record t := { base_options : BaseInitOptions;
              base_camera_model : option base.BaseCameraModel }.
End ObstacleDetectorInitOptions.

Module ObstacleTrackerInitOptions.
Record t := { base_options : BaseInitOptions;
              image_width : Z;
              image_height : Z }.
End ObstacleTrackerInitOptions.

Module LaneDetectorInitOptions.
Record t := { base_options : BaseInitOptions;
              base_camera_model : option base.BaseCameraModel }.
End LaneDetectorInitOptions.

Module LanePostprocessorInitOptions.
Record t := { base_options : BaseInitOptions;
              detect_config_root : string;
              detect_config_name : string }.
End LanePostprocessorInitOptions.

Module CalibrationServiceInitOptions.
Record t := { calibrator_working_sensor_name : string;
              name_intrinsic_map : gmap string Matrix3f;
              calibrator_method : string;
              image_height : Z;
              image_width : Z }.
End CalibrationServiceInitOptions.

Record ObstaclePostprocessorOptions := {
  do_refinement_with_calibration_service : bool
}.

Record CameraPerceptionInitOptions := {
  init_root_dir : string;
  init_conf_file : string;
  lane_calibration_working_sensor_name : string;
  use_cybertron_work_root : bool
}.

Record CameraPerceptionOptions := {}.

(** ** The calibration service

    The interface [BaseCalibrationService] and its implementations are not
    in this file; the file only calls [Init], [Update] and
    [SetCameraHeightAndPitch] on them. *)

(** Modelled from the spec: the state of a calibration service, which "owns
    the current best-known camera geometry corrections".  The corrections
    are the three quantities [SetCameraHeightAndPitch] takes. *)
Record Geometry := {
  name_camera_ground_height_map : gmap string float;
  name_camera_pitch_angle_diff_map : gmap string float;
  pitch_angle_calibrator_working_sensor : float
}.

(** Modelled from the spec: a calibration service keeps what it was
    initialized with (the intrinsics map, the calibration working sensor, the
    image dimensions) next to its geometry. *)
Record CalibrationService := {
  init_options : CalibrationServiceInitOptions.t;
  geometry : Geometry
}.

Abbreviation ServiceStore := (gmap loc CalibrationService).

(** Modelled from the spec: the numerical side of a calibration service,
    left open: how lane observations are turned into a new estimate, how an
    estimate is written into a frame, and whether a set of options is
    acceptable. *)
Module Calibrator.
Class t := {
  GetInstanceByName : string → option CalibrationService;
  accepts : CalibrationServiceInitOptions.t → bool;
  Calibrate : Geometry → CameraFrame → Geometry;
  Sync : Geometry → CameraFrame → Populated
}.
End Calibrator.

Section calibration_service.
Context `{!Calibrator.t}.

(** Modelled from the spec: [BaseCalibrationService::Init], whose
    implementation is not part of this file.  "Construct and initialize the
    Calibration State, supplying it the full sensor-to-intrinsics map, the
    designated calibration-working sensor identity, and image dimensions." *)
Definition CalibrationService_Init
    (svc : CalibrationService) (o : CalibrationServiceInitOptions.t)
    : bool * CalibrationService :=
  (Calibrator.accepts o, {| init_options := o; geometry := geometry svc |}).

(** Modelled from the spec: [BaseCalibrationService::Update], whose
    implementation is not part of this file.  The state is "mutated ...
    implicitly, once per frame, from fresh lane observations - but only when
    the frame's sensor identity equals a single configured calibration
    working sensor; for all other sensors its update call is a no-op refresh
    using previously stored state".  In both cases the frame is filled from
    the estimate that results. *)
Definition CalibrationService_Update
    (svc : CalibrationService) (frame : CameraFrame)
    : CalibrationService * Populated :=
  if decide (sensor_name (data_provider frame) =
             CalibrationServiceInitOptions.calibrator_working_sensor_name
               (init_options svc))
  then
    let g := Calibrator.Calibrate (geometry svc) frame in
    ({| init_options := init_options svc; geometry := g |},
     Calibrator.Sync g frame)
  else (svc, Calibrator.Sync (geometry svc) frame).

(** Modelled from the spec: [BaseCalibrationService::SetCameraHeightAndPitch],
    whose implementation is not part of this file: the "external operator
    correction entry point", which stores the measured corrections. *)
Definition CalibrationService_SetCameraHeightAndPitch
    (svc : CalibrationService)
    (heights pitch_diffs : gmap string float) (pitch : float)
    : CalibrationService :=
  {| init_options := init_options svc;
     geometry :=
       {| name_camera_ground_height_map := heights;
          name_camera_pitch_angle_diff_map := pitch_diffs;
          pitch_angle_calibrator_working_sensor := pitch |} |}.

End calibration_service.

(** ** Stage interfaces *)

(** A per-frame stage method: it reads the frame, the object heap and the
    calibration services, and reports a status together with its own next
    state, the fields it populated and the object heap it leaves.  A stage
    does not write the calibration services: their state is "mutated in two
    ways", by [Update] and by [SetCameraHeightAndPitch]. *)
Definition Stage (X : Type) : Type :=
  X → CameraFrame → ObjectStore → ServiceStore →
  bool * X * Populated * ObjectStore.

Module BaseObstacleDetector.
Class t (X : Type) := {
  GetInstanceByName : string → option X;
  Init : X → ObstacleDetectorInitOptions.t → bool * X;
  Detect : Stage X
}.
End BaseObstacleDetector.

Module BaseObstacleTracker.
Class t (X : Type) := {
  GetInstanceByName : string → option X;
  Init : X → ObstacleTrackerInitOptions.t → bool * X;
  Predict : Stage X;
  Associate2D : Stage X;
  Associate3D : Stage X;
  Track : Stage X
}.
End BaseObstacleTracker.

Module BaseObstacleTransformer.
Class t (X : Type) := {
  GetInstanceByName : string → option X;
  Init : X → BaseInitOptions → bool * X;
  Transform : Stage X
}.
End BaseObstacleTransformer.

Module BaseObstaclePostprocessor.
Class t (X : Type) := {
  GetInstanceByName : string → option X;
  Init : X → BaseInitOptions → bool * X;
  Process : ObstaclePostprocessorOptions → Stage X
}.
End BaseObstaclePostprocessor.

Module BaseFeatureExtractor.
Class t (X : Type) := {
  GetInstanceByName : string → option X;
  Init : X → BaseInitOptions → bool * X;
  Extract : Stage X
}.
End BaseFeatureExtractor.

Module BaseLaneDetector.
Class t (X : Type) := {
  GetInstanceByName : string → option X;
  Init : X → LaneDetectorInitOptions.t → bool * X;
  Detect : Stage X
}.
End BaseLaneDetector.

Module BaseLanePostprocessor.
Class t (X : Type) := {
  GetInstanceByName : string → option X;
  Init : X → LanePostprocessorInitOptions.t → bool * X;
  Process2D : Stage X;
  Process3D : Stage X
}.
End BaseLanePostprocessor.

(** Everything else [Init] reaches outside the class: the file system, the
    GPU binding, the sensor manager and the object template manager. *)
Module Platform.
Class t := {
  GetCybertronWorkRoot : string;
  GetAbsolutePath : string → string → string;
  GetProtoFromFile : string → option app.PerceptionParam;
  set_device_id : Z → bool;
  GetUndistortCameraModel : string → option base.BaseCameraModel;
  ObjectTemplateManager_Init : BaseInitOptions → bool
}.
End Platform.

(** ** The ghost trace *)

Inductive Call :=
  | CudaUtil_set_device_id (gpu : Z)
  | Detector_Init (camera : string) (o : ObstacleDetectorInitOptions.t)
  | Tracker_Init (o : ObstacleTrackerInitOptions.t)
  | Transformer_Init (o : BaseInitOptions)
  | Postprocessor_Init (o : BaseInitOptions)
  | Extractor_Init (o : BaseInitOptions)
  | LaneDetector_Init (o : LaneDetectorInitOptions.t)
  | LanePostprocessor_Init (o : LanePostprocessorInitOptions.t)
  | Calibration_Init (o : CalibrationServiceInitOptions.t)
  | TemplateManager_Init (o : BaseInitOptions)
  | Calibration_SetCameraHeightAndPitch
  | LaneDetector_Detect
  | LanePostprocessor_Process2D
  | Calibration_Update
  | LanePostprocessor_Process3D
  | WriteLanelines (enabled : bool) (save_path : string)
  | WriteCalibrationOutput (enabled : bool) (save_path : string)
  | Tracker_Predict
  | Detector_Detect (sensor : string)
  | WriteDetections_detected (enabled : bool) (save_path : string)
  | Extractor_Extract
  | WriteDetections_frame (enabled : bool) (save_path : string)
  | Tracker_Associate2D
  | Transformer_Transform
  | Postprocessor_Process (o : ObstaclePostprocessorOptions)
  | Tracker_Associate3D
  | Tracker_Track
  | WriteCamera2World
  | WriteTracking
  | WriteDetections_tracked (enabled : bool) (save_path : string).

(** One call on a collaborator: what was called, the frame and object heap
    it was handed (none during initialization), and the status it reported
    (none for a [void] call). *)
Record Event := {
  call : Call;
  handed : option (CameraFrame * ObjectStore);
  reported : option bool
}.

(** ** Control effects *)

Inductive Exit :=
  | Return (b : bool)
  | Throw_out_of_range
  | Check_failed
  | Undefined_behaviour.

Inductive Res (A : Type) :=
  | Val (a : A)
  | Stop (e : Exit).
Arguments Val {A} a.
Arguments Stop {A} e.


(** The floating-point side of [FillObjectPolygonFromBBox3D], left open:
    the position of each corner of the footprint of an object's box. *)
Module Footprint.
Class t := { corner : base.Object → nat → Vector3d }.
End Footprint.

(** ** The pipeline object *)

Section pipeline.

Context {Detector Tracker Transformer Postprocessor Extractor
         LaneDetector LanePostprocessor : Type}.
Context `{!BaseObstacleDetector.t Detector,
          !BaseObstacleTracker.t Tracker,
          !BaseObstacleTransformer.t Transformer,
          !BaseObstaclePostprocessor.t Postprocessor,
          !BaseFeatureExtractor.t Extractor,
          !BaseLaneDetector.t LaneDetector,
          !BaseLanePostprocessor.t LanePostprocessor}.
Context `{!Calibrator.t, !Platform.t, !Footprint.t}.

(** The data members of [ObstacleCameraPerception].  A smart pointer that
    owns a plugin is the plugin's state, or [None] when it is null; the
    calibration service is shared with the frames, so it lives in the
    service store. *)
Record ObstacleCameraPerception := {
  perception_param_ : app.PerceptionParam;
  name_intrinsic_map_ : gmap string Matrix3f;
  name_detector_map_ : gmap string (option Detector);
  tracker_ : option Tracker;
  transformer_ : option Transformer;
  obstacle_postprocessor_ : option Postprocessor;
  extractor_ : option Extractor;
  lane_detector_ : option LaneDetector;
  lane_postprocessor_ : option LanePostprocessor;
  calibration_service_ : option loc;
  lane_calibration_working_sensor_name_ : string;
  out_track_ : option string;
  out_pose_ : option string
}.

Definition set_perception_param_ (v : app.PerceptionParam) (self : ObstacleCameraPerception)
    : ObstacleCameraPerception :=
  {| perception_param_ := v;
     name_intrinsic_map_ := name_intrinsic_map_ self;
     name_detector_map_ := name_detector_map_ self;
     tracker_ := tracker_ self;
     transformer_ := transformer_ self;
     obstacle_postprocessor_ := obstacle_postprocessor_ self;
     extractor_ := extractor_ self;
     lane_detector_ := lane_detector_ self;
     lane_postprocessor_ := lane_postprocessor_ self;
     calibration_service_ := calibration_service_ self;
     lane_calibration_working_sensor_name_ := lane_calibration_working_sensor_name_ self;
     out_track_ := out_track_ self;
     out_pose_ := out_pose_ self |}.

Definition set_name_intrinsic_map_ (v : gmap string Matrix3f) (self : ObstacleCameraPerception)
    : ObstacleCameraPerception :=
  {| perception_param_ := perception_param_ self;
     name_intrinsic_map_ := v;
     name_detector_map_ := name_detector_map_ self;
     tracker_ := tracker_ self;
     transformer_ := transformer_ self;
     obstacle_postprocessor_ := obstacle_postprocessor_ self;
     extractor_ := extractor_ self;
     lane_detector_ := lane_detector_ self;
     lane_postprocessor_ := lane_postprocessor_ self;
     calibration_service_ := calibration_service_ self;
     lane_calibration_working_sensor_name_ := lane_calibration_working_sensor_name_ self;
     out_track_ := out_track_ self;
     out_pose_ := out_pose_ self |}.

Definition set_name_detector_map_ (v : gmap string (option Detector)) (self : ObstacleCameraPerception)
    : ObstacleCameraPerception :=
  {| perception_param_ := perception_param_ self;
     name_intrinsic_map_ := name_intrinsic_map_ self;
     name_detector_map_ := v;
     tracker_ := tracker_ self;
     transformer_ := transformer_ self;
     obstacle_postprocessor_ := obstacle_postprocessor_ self;
     extractor_ := extractor_ self;
     lane_detector_ := lane_detector_ self;
     lane_postprocessor_ := lane_postprocessor_ self;
     calibration_service_ := calibration_service_ self;
     lane_calibration_working_sensor_name_ := lane_calibration_working_sensor_name_ self;
     out_track_ := out_track_ self;
     out_pose_ := out_pose_ self |}.

Definition set_tracker_ (v : option Tracker) (self : ObstacleCameraPerception)
    : ObstacleCameraPerception :=
  {| perception_param_ := perception_param_ self;
     name_intrinsic_map_ := name_intrinsic_map_ self;
     name_detector_map_ := name_detector_map_ self;
     tracker_ := v;
     transformer_ := transformer_ self;
     obstacle_postprocessor_ := obstacle_postprocessor_ self;
     extractor_ := extractor_ self;
     lane_detector_ := lane_detector_ self;
     lane_postprocessor_ := lane_postprocessor_ self;
     calibration_service_ := calibration_service_ self;
     lane_calibration_working_sensor_name_ := lane_calibration_working_sensor_name_ self;
     out_track_ := out_track_ self;
     out_pose_ := out_pose_ self |}.

Definition set_transformer_ (v : option Transformer) (self : ObstacleCameraPerception)
    : ObstacleCameraPerception :=
  {| perception_param_ := perception_param_ self;
     name_intrinsic_map_ := name_intrinsic_map_ self;
     name_detector_map_ := name_detector_map_ self;
     tracker_ := tracker_ self;
     transformer_ := v;
     obstacle_postprocessor_ := obstacle_postprocessor_ self;
     extractor_ := extractor_ self;
     lane_detector_ := lane_detector_ self;
     lane_postprocessor_ := lane_postprocessor_ self;
     calibration_service_ := calibration_service_ self;
     lane_calibration_working_sensor_name_ := lane_calibration_working_sensor_name_ self;
     out_track_ := out_track_ self;
     out_pose_ := out_pose_ self |}.

Definition set_obstacle_postprocessor_ (v : option Postprocessor) (self : ObstacleCameraPerception)
    : ObstacleCameraPerception :=
  {| perception_param_ := perception_param_ self;
     name_intrinsic_map_ := name_intrinsic_map_ self;
     name_detector_map_ := name_detector_map_ self;
     tracker_ := tracker_ self;
     transformer_ := transformer_ self;
     obstacle_postprocessor_ := v;
     extractor_ := extractor_ self;
     lane_detector_ := lane_detector_ self;
     lane_postprocessor_ := lane_postprocessor_ self;
     calibration_service_ := calibration_service_ self;
     lane_calibration_working_sensor_name_ := lane_calibration_working_sensor_name_ self;
     out_track_ := out_track_ self;
     out_pose_ := out_pose_ self |}.

Definition set_extractor_ (v : option Extractor) (self : ObstacleCameraPerception)
    : ObstacleCameraPerception :=
  {| perception_param_ := perception_param_ self;
     name_intrinsic_map_ := name_intrinsic_map_ self;
     name_detector_map_ := name_detector_map_ self;
     tracker_ := tracker_ self;
     transformer_ := transformer_ self;
     obstacle_postprocessor_ := obstacle_postprocessor_ self;
     extractor_ := v;
     lane_detector_ := lane_detector_ self;
     lane_postprocessor_ := lane_postprocessor_ self;
     calibration_service_ := calibration_service_ self;
     lane_calibration_working_sensor_name_ := lane_calibration_working_sensor_name_ self;
     out_track_ := out_track_ self;
     out_pose_ := out_pose_ self |}.

Definition set_lane_detector_ (v : option LaneDetector) (self : ObstacleCameraPerception)
    : ObstacleCameraPerception :=
  {| perception_param_ := perception_param_ self;
     name_intrinsic_map_ := name_intrinsic_map_ self;
     name_detector_map_ := name_detector_map_ self;
     tracker_ := tracker_ self;
     transformer_ := transformer_ self;
     obstacle_postprocessor_ := obstacle_postprocessor_ self;
     extractor_ := extractor_ self;
     lane_detector_ := v;
     lane_postprocessor_ := lane_postprocessor_ self;
     calibration_service_ := calibration_service_ self;
     lane_calibration_working_sensor_name_ := lane_calibration_working_sensor_name_ self;
     out_track_ := out_track_ self;
     out_pose_ := out_pose_ self |}.

Definition set_lane_postprocessor_ (v : option LanePostprocessor) (self : ObstacleCameraPerception)
    : ObstacleCameraPerception :=
  {| perception_param_ := perception_param_ self;
     name_intrinsic_map_ := name_intrinsic_map_ self;
     name_detector_map_ := name_detector_map_ self;
     tracker_ := tracker_ self;
     transformer_ := transformer_ self;
     obstacle_postprocessor_ := obstacle_postprocessor_ self;
     extractor_ := extractor_ self;
     lane_detector_ := lane_detector_ self;
     lane_postprocessor_ := v;
     calibration_service_ := calibration_service_ self;
     lane_calibration_working_sensor_name_ := lane_calibration_working_sensor_name_ self;
     out_track_ := out_track_ self;
     out_pose_ := out_pose_ self |}.

Definition set_calibration_service_ (v : option loc) (self : ObstacleCameraPerception)
    : ObstacleCameraPerception :=
  {| perception_param_ := perception_param_ self;
     name_intrinsic_map_ := name_intrinsic_map_ self;
     name_detector_map_ := name_detector_map_ self;
     tracker_ := tracker_ self;
     transformer_ := transformer_ self;
     obstacle_postprocessor_ := obstacle_postprocessor_ self;
     extractor_ := extractor_ self;
     lane_detector_ := lane_detector_ self;
     lane_postprocessor_ := lane_postprocessor_ self;
     calibration_service_ := v;
     lane_calibration_working_sensor_name_ := lane_calibration_working_sensor_name_ self;
     out_track_ := out_track_ self;
     out_pose_ := out_pose_ self |}.

Definition set_lane_calibration_working_sensor_name_ (v : string) (self : ObstacleCameraPerception)
    : ObstacleCameraPerception :=
  {| perception_param_ := perception_param_ self;
     name_intrinsic_map_ := name_intrinsic_map_ self;
     name_detector_map_ := name_detector_map_ self;
     tracker_ := tracker_ self;
     transformer_ := transformer_ self;
     obstacle_postprocessor_ := obstacle_postprocessor_ self;
     extractor_ := extractor_ self;
     lane_detector_ := lane_detector_ self;
     lane_postprocessor_ := lane_postprocessor_ self;
     calibration_service_ := calibration_service_ self;
     lane_calibration_working_sensor_name_ := v;
     out_track_ := out_track_ self;
     out_pose_ := out_pose_ self |}.

Definition set_out_track_ (v : option string) (self : ObstacleCameraPerception)
    : ObstacleCameraPerception :=
  {| perception_param_ := perception_param_ self;
     name_intrinsic_map_ := name_intrinsic_map_ self;
     name_detector_map_ := name_detector_map_ self;
     tracker_ := tracker_ self;
     transformer_ := transformer_ self;
     obstacle_postprocessor_ := obstacle_postprocessor_ self;
     extractor_ := extractor_ self;
     lane_detector_ := lane_detector_ self;
     lane_postprocessor_ := lane_postprocessor_ self;
     calibration_service_ := calibration_service_ self;
     lane_calibration_working_sensor_name_ := lane_calibration_working_sensor_name_ self;
     out_track_ := v;
     out_pose_ := out_pose_ self |}.

Definition set_out_pose_ (v : option string) (self : ObstacleCameraPerception)
    : ObstacleCameraPerception :=
  {| perception_param_ := perception_param_ self;
     name_intrinsic_map_ := name_intrinsic_map_ self;
     name_detector_map_ := name_detector_map_ self;
     tracker_ := tracker_ self;
     transformer_ := transformer_ self;
     obstacle_postprocessor_ := obstacle_postprocessor_ self;
     extractor_ := extractor_ self;
     lane_detector_ := lane_detector_ self;
     lane_postprocessor_ := lane_postprocessor_ self;
     calibration_service_ := calibration_service_ self;
     lane_calibration_working_sensor_name_ := lane_calibration_working_sensor_name_ self;
     out_track_ := out_track_ self;
     out_pose_ := v |}.

(** A default-constructed pipeline object: empty maps, null pointers. *)
Definition ObstacleCameraPerception_new : ObstacleCameraPerception :=
  {| perception_param_ := app.PerceptionParam_default;
     name_intrinsic_map_ := ∅;
     name_detector_map_ := ∅;
     tracker_ := None;
     transformer_ := None;
     obstacle_postprocessor_ := None;
     extractor_ := None;
     lane_detector_ := None;
     lane_postprocessor_ := None;
     calibration_service_ := None;
     lane_calibration_working_sensor_name_ := EmptyString;
     out_track_ := None;
     out_pose_ := None |}.

(** The memory a member function runs against: the object itself, the two
    heaps, and the ghost trace. *)
Record Machine := {
  this : ObstacleCameraPerception;
  services : ServiceStore;
  objects : ObjectStore;
  trace : list Event
}.

Definition M (A : Type) : Type := Machine → Res A * Machine.

Definition ret {A} (a : A) : M A := λ m, (Val a, m).

Definition bind {A B} (c : M A) (k : A → M B) : M B :=
  λ m, match c m with
       | (Val a, m') => k a m'
       | (Stop e, m') => (Stop e, m')
       end.

Definition stop {A} (e : Exit) : M A := λ m, (Stop e, m).

Notation "x <- c ;; k" := (bind c (λ x, k))
  (at level 100, c at next level, right associativity,
   format "'[v' x  <-  c  ;; '/' k ']'").
Notation "c ;; k" := (bind c (λ _, k))
  (at level 100, right associativity,
   format "'[v' c  ;; '/' k ']'").

Definition get_this : M ObstacleCameraPerception := λ m, (Val (this m), m).

Definition modify_this (f : ObstacleCameraPerception → ObstacleCameraPerception)
    : M unit :=
  λ m, (Val tt, {| this := f (this m); services := services m;
                   objects := objects m; trace := trace m |}).

Definition log (e : Event) : M unit :=
  λ m, (Val tt, {| this := this m; services := services m;
                   objects := objects m; trace := trace m ++ [e] |}).

(** [CHECK(cond)]: a failed check aborts the process. *)
Definition CHECK (cond : bool) : M unit :=
  if cond then ret tt else stop Check_failed.

(** [std::map::at]: throws [std::out_of_range] for a missing key. *)
Definition at_ {V} (m : gmap string V) (k : string) : M V :=
  match m !! k with
  | Some v => ret v
  | None => stop Throw_out_of_range
  end.

(** [std::map::insert]: an existing entry is kept. *)
Definition map_insert {V} (k : string) (v : V) (m : gmap string V)
    : gmap string V :=
  match m !! k with
  | Some _ => m
  | None => <[k := v]> m
  end.

(** Dereferencing a smart pointer. *)
Definition deref {X} (p : option X) : M X :=
  match p with
  | Some x => ret x
  | None => stop Undefined_behaviour
  end.

(** A range-based [for] over a vector. *)
Fixpoint for_each {A} (body : A → M unit) (l : list A) : M unit :=
  match l with
  | [] => ret tt
  | x :: l' => body x ;; for_each body l'
  end.

(** [obj->... = ...] through an object pointer. *)
Definition update_object (p : loc) (f : base.Object → base.Object) : M unit :=
  λ m, match objects m !! p with
       | None => (Stop Undefined_behaviour, m)
       | Some o =>
           (Val tt, {| this := this m; services := services m;
                       objects := <[p := f o]> (objects m);
                       trace := trace m |})
       end.

(** A call that reports nothing the caller looks at. *)
Definition void (c : Call) (frame : option CameraFrame) : M unit :=
  λ m, log {| call := c; handed := (λ f, (f, objects m)) <$> frame;
              reported := None |} m.

(** A stage method called through one of the object's plugin pointers: the
    plugin's state, the frame and the object heap are updated in place and
    the status comes back to the caller. *)
Definition invoke {X} (ptr : option X)
    (store : option X → ObstacleCameraPerception → ObstacleCameraPerception)
    (method : Stage X) (c : Call) (frame : CameraFrame)
    : M (bool * CameraFrame) :=
  x <- deref ptr ;;
  λ m, let '(ok, x', p, objs) := method x frame (objects m) (services m) in
       (Val (ok, set_populated p frame),
        {| this := store (Some x') (this m);
           services := services m;
           objects := objs;
           trace := trace m ++ [{| call := c;
                                   handed := Some (frame, objects m);
                                   reported := Some ok |}] |}).

(** [if (!stage(frame)) { AERROR << ...; return false; }] *)
Definition or_return_false (c : M (bool * CameraFrame)) : M CameraFrame :=
  r <- c ;;
  if r.1 then ret r.2 else stop (Return false).

(** [frame->calibration_service->Update(frame)]: a [void] call through the
    raw pointer the frame carries. *)
Definition Update (frame : CameraFrame) : M CameraFrame :=
  l <- deref (calibration_service frame) ;;
  λ m, match services m !! l with
       | None => (Stop Undefined_behaviour, m)
       | Some svc =>
           let '(svc', p) := CalibrationService_Update svc frame in
           (Val (set_populated p frame),
            {| this := this m;
               services := <[l := svc']> (services m);
               objects := objects m;
               trace := trace m ++ [{| call := Calibration_Update;
                                       handed := Some (frame, objects m);
                                       reported := None |}] |})
       end.

(** Modelled from the spec: [FillObjectPolygonFromBBox3D], a helper of
    [camera/common/util] that is not part of this file.  "Derive its 2D/3D
    polygon footprint from its bounding geometry": the footprint of a box is
    its four corners. *)
Definition FillObjectPolygonFromBBox3D (o : base.Object) : base.Object :=
  base.set_polygon (Footprint.corner o <$> [0; 1; 2; 3]%nat) o.

Definition save_path (dir : option string) (frame : CameraFrame) : string :=
  default EmptyString dir +:+ "/" +:+ pretty (frame_id frame) +:+ ".txt".

(** ** [ObstacleCameraPerception::Init] *)

(** [CHECK(ptr != nullptr); CHECK(ptr->Init(options))] on a plugin pointer. *)
Definition check_init {X O} (ptr : option X)
    (store : option X → ObstacleCameraPerception → ObstacleCameraPerception)
    (init : X → O → bool * X) (o : O) (c : Call) : M unit :=
  CHECK (bool_decide (is_Some ptr)) ;;
  x <- deref ptr ;;
  let '(ok, x') := init x o in
  modify_this (store (Some x')) ;;
  log {| call := c; handed := None; reported := Some ok |} ;;
  CHECK ok.

Definition plugin_options (work_root : string) (plugin_param : app.PluginParam)
    (gpu : Z) : BaseInitOptions :=
  {| root_dir := Platform.GetAbsolutePath work_root (app.root_dir plugin_param);
     conf_file := app.config_file plugin_param;
     gpu_id := gpu |}.

(** The loop over [detector_param]; [model] is the loop-carried
    [base::BaseCameraModelPtr]. *)
Fixpoint Init_detectors (work_root : string) (gpu : Z)
    (params : list app.DetectorParam) (model : option base.BaseCameraModel)
    : M (option base.BaseCameraModel) :=
  match params with
  | [] => ret model
  | detector_param :: rest =>
      let plugin_param := app.plugin_param detector_param in
      let camera_name := app.camera_name detector_param in
      let model := Platform.GetUndistortCameraModel camera_name in
      pinhole <- deref model ;;
      modify_this (λ self, set_name_intrinsic_map_
                             (map_insert camera_name
                                (base.get_intrinsic_params pinhole)
                                (name_intrinsic_map_ self)) self) ;;
      let detector_init_options :=
        {| ObstacleDetectorInitOptions.base_options :=
             plugin_options work_root plugin_param gpu;
           ObstacleDetectorInitOptions.base_camera_model := model |} in
      let detector_ptr :=
        BaseObstacleDetector.GetInstanceByName (app.name plugin_param) in
      modify_this (λ self, set_name_detector_map_
                             (map_insert camera_name detector_ptr
                                (name_detector_map_ self)) self) ;;
      self <- get_this ;;
      detector <- at_ (name_detector_map_ self) camera_name ;;
      check_init detector
        (λ d self, set_name_detector_map_
                     (<[camera_name := d]> (name_detector_map_ self)) self)
        BaseObstacleDetector.Init detector_init_options
        (Detector_Init camera_name detector_init_options) ;;
      Init_detectors work_root gpu rest model
  end.

Definition InitLane (work_root : string)
    (model : option base.BaseCameraModel)
    (perception_param : app.PerceptionParam) : M unit :=
  CHECK (bool_decide (is_Some (app.lane_param perception_param))) ;;
  let lane_param :=
    default {| app.lane_detector_param := None;
               app.lane_postprocessor_param := None |}
            (app.lane_param perception_param) in
  CHECK (bool_decide (is_Some (app.lane_detector_param lane_param))) ;;
  let lane_detector_plugin_param :=
    default app.PluginParam_default (app.lane_detector_param lane_param) in
  let lane_detector_init_options :=
    {| LaneDetectorInitOptions.base_options :=
         plugin_options work_root lane_detector_plugin_param
                        (app.gpu_id perception_param);
       LaneDetectorInitOptions.base_camera_model := model |} in
  modify_this (set_lane_detector_
                 (BaseLaneDetector.GetInstanceByName
                    (app.name lane_detector_plugin_param))) ;;
  self <- get_this ;;
  check_init (lane_detector_ self) set_lane_detector_
    BaseLaneDetector.Init lane_detector_init_options
    (LaneDetector_Init lane_detector_init_options) ;;
  let lane_postprocessor_param :=
    default app.PluginParam_default
            (app.lane_postprocessor_param lane_param) in
  let postprocessor_init_options :=
    {| LanePostprocessorInitOptions.base_options :=
         plugin_options work_root lane_postprocessor_param default_gpu_id;
       LanePostprocessorInitOptions.detect_config_root :=
         Platform.GetAbsolutePath work_root
           (app.root_dir lane_detector_plugin_param);
       LanePostprocessorInitOptions.detect_config_name :=
         app.config_file lane_detector_plugin_param |} in
  modify_this (set_lane_postprocessor_
                 (BaseLanePostprocessor.GetInstanceByName
                    (app.name lane_postprocessor_param))) ;;
  self <- get_this ;;
  check_init (lane_postprocessor_ self) set_lane_postprocessor_
    BaseLanePostprocessor.Init postprocessor_init_options
    (LanePostprocessor_Init postprocessor_init_options).

(** [calibration_service_.reset(ptr)]: a new service object, when the
    registry made one, is placed at a fresh location of the service store. *)
Definition reset_calibration_service (ptr : option CalibrationService)
    : M unit :=
  λ m, match ptr with
       | None =>
           (Val tt, {| this := set_calibration_service_ None (this m);
                       services := services m; objects := objects m;
                       trace := trace m |})
       | Some svc =>
           let l := fresh (dom (services m)) in
           (Val tt, {| this := set_calibration_service_ (Some l) (this m);
                       services := <[l := svc]> (services m);
                       objects := objects m; trace := trace m |})
       end.

(** A member call on the service [calibration_service_] points to. *)
Definition with_calibration_service {A}
    (f : CalibrationService → A * CalibrationService) : M A :=
  self <- get_this ;;
  l <- deref (calibration_service_ self) ;;
  λ m, match services m !! l with
       | None => (Stop Undefined_behaviour, m)
       | Some svc =>
           let '(a, svc') := f svc in
           (Val a, {| this := this m; services := <[l := svc']> (services m);
                      objects := objects m; trace := trace m |})
       end.

Definition InitCalibrationService (work_root : string)
    (model : option base.BaseCameraModel)
    (perception_param : app.PerceptionParam) : M unit :=
  CHECK (bool_decide
           (is_Some (app.calibration_service_param perception_param))) ;;
  let calibration_service_param :=
    default {| app.calibration_plugin_param := app.PluginParam_default;
               app.calibrator_method := EmptyString |}
            (app.calibration_service_param perception_param) in
  self <- get_this ;;
  camera <- deref model ;;
  let calibration_service_init_options :=
    {| CalibrationServiceInitOptions.calibrator_working_sensor_name :=
         lane_calibration_working_sensor_name_ self;
       CalibrationServiceInitOptions.name_intrinsic_map :=
         name_intrinsic_map_ self;
       CalibrationServiceInitOptions.calibrator_method :=
         app.calibrator_method calibration_service_param;
       CalibrationServiceInitOptions.image_height := base.get_height camera;
       CalibrationServiceInitOptions.image_width := base.get_width camera |} in
  reset_calibration_service
    (Calibrator.GetInstanceByName
       (app.name (app.calibration_plugin_param calibration_service_param))) ;;
  self <- get_this ;;
  CHECK (bool_decide (is_Some (calibration_service_ self))) ;;
  ok <- with_calibration_service
          (λ svc, CalibrationService_Init svc
                    calibration_service_init_options) ;;
  log {| call := Calibration_Init calibration_service_init_options;
         handed := None; reported := Some ok |} ;;
  CHECK ok.

(** The first lines of [Init]: the work root and the configuration file. *)
Definition Init_work_root (options : CameraPerceptionInitOptions) : string :=
  if use_cybertron_work_root options
  then Platform.GetCybertronWorkRoot else EmptyString.

Definition Init_config_file (options : CameraPerceptionInitOptions) : string :=
  let config_file :=
    Platform.GetAbsolutePath (init_root_dir options) (init_conf_file options) in
  Platform.GetAbsolutePath (Init_work_root options) config_file.

(** The block of [Init] under the comment "Init feature_extractor". *)
Definition Init_feature_extractor (work_root : string)
    (param : app.PerceptionParam) : M unit :=
  match app.feature_param param with
  | None => modify_this (set_extractor_ None)
  | Some plugin_param =>
      let init_options :=
        plugin_options work_root plugin_param default_gpu_id in
      modify_this (set_extractor_
                     (BaseFeatureExtractor.GetInstanceByName
                        (app.name plugin_param))) ;;
      self <- get_this ;;
      check_init (extractor_ self) set_extractor_
        BaseFeatureExtractor.Init init_options (Extractor_Init init_options)
  end.

Definition Init (options : CameraPerceptionInitOptions) : M unit :=
  let work_root := Init_work_root options in
  let config_file := Init_config_file options in
  CHECK (bool_decide (is_Some (Platform.GetProtoFromFile config_file))) ;;
  let param :=
    default app.PerceptionParam_default
            (Platform.GetProtoFromFile config_file) in
  modify_this (set_perception_param_ param) ;;
  let gpu := app.gpu_id param in
  log {| call := CudaUtil_set_device_id gpu; handed := None;
         reported := Some (Platform.set_device_id gpu) |} ;;
  CHECK (Platform.set_device_id gpu) ;;
  (* Init detector *)
  CHECK (bool_decide (0 < length (app.detector_param param))%nat) ;;
  model <- Init_detectors work_root gpu (app.detector_param param) None ;;
  (* Init tracker *)
  CHECK (bool_decide (is_Some (app.tracker_param param))) ;;
  camera <- deref model ;;
  let plugin_param :=
    default app.PluginParam_default (app.tracker_param param) in
  let tracker_init_options :=
    {| ObstacleTrackerInitOptions.base_options :=
         plugin_options work_root plugin_param gpu;
       ObstacleTrackerInitOptions.image_width := base.get_width camera;
       ObstacleTrackerInitOptions.image_height := base.get_height camera |} in
  modify_this (set_tracker_
                 (BaseObstacleTracker.GetInstanceByName
                    (app.name plugin_param))) ;;
  self <- get_this ;;
  check_init (tracker_ self) set_tracker_ BaseObstacleTracker.Init
    tracker_init_options (Tracker_Init tracker_init_options) ;;
  (* Init transformer *)
  CHECK (bool_decide (is_Some (app.transformer_param param))) ;;
  let plugin_param :=
    default app.PluginParam_default (app.transformer_param param) in
  let transformer_init_options :=
    plugin_options work_root plugin_param default_gpu_id in
  modify_this (set_transformer_
                 (BaseObstacleTransformer.GetInstanceByName
                    (app.name plugin_param))) ;;
  self <- get_this ;;
  check_init (transformer_ self) set_transformer_
    BaseObstacleTransformer.Init transformer_init_options
    (Transformer_Init transformer_init_options) ;;
  (* Init obstacle postprocessor *)
  CHECK (bool_decide (is_Some (app.postprocessor_param param))) ;;
  let plugin_param :=
    default app.PluginParam_default (app.postprocessor_param param) in
  let obstacle_postprocessor_init_options :=
    plugin_options work_root plugin_param default_gpu_id in
  modify_this (set_obstacle_postprocessor_
                 (BaseObstaclePostprocessor.GetInstanceByName
                    (app.name plugin_param))) ;;
  self <- get_this ;;
  check_init (obstacle_postprocessor_ self) set_obstacle_postprocessor_
    BaseObstaclePostprocessor.Init obstacle_postprocessor_init_options
    (Postprocessor_Init obstacle_postprocessor_init_options) ;;
  (* Init feature_extractor *)
  Init_feature_extractor work_root param ;;
  modify_this (set_lane_calibration_working_sensor_name_
                 (lane_calibration_working_sensor_name options)) ;;
  (* InitLane *)
  InitLane work_root model param ;;
  (* Init calibration service *)
  InitCalibrationService work_root model param ;;
  (* Init debug_param *)
  (if app.has_debug_param param then
     let debug := app.get_debug_param param in
     match app.track_out_file debug with
     | Some file => modify_this (set_out_track_ (Some file))
     | None => ret tt
     end ;;
     match app.camera2world_out_file debug with
     | Some file => modify_this (set_out_pose_ (Some file))
     | None => ret tt
     end
   else ret tt) ;;
  (* Init object template *)
  match app.object_template_param param with
  | None => ret tt
  | Some plugin_param =>
      let init_options :=
        plugin_options work_root plugin_param default_gpu_id in
      let ok := Platform.ObjectTemplateManager_Init init_options in
      log {| call := TemplateManager_Init init_options; handed := None;
             reported := Some ok |} ;;
      CHECK ok
  end.

(** ** [SetCameraHeightAndPitch] and [GetCalibrationService] *)

Definition SetCameraHeightAndPitch
    (name_camera_ground_height_map : gmap string float)
    (name_camera_pitch_angle_diff_map : gmap string float)
    (pitch_angle_calibrator_working_sensor : float) : M unit :=
  self <- get_this ;;
  CHECK (bool_decide (is_Some (calibration_service_ self))) ;;
  with_calibration_service
    (λ svc, (tt, CalibrationService_SetCameraHeightAndPitch svc
                   name_camera_ground_height_map
                   name_camera_pitch_angle_diff_map
                   pitch_angle_calibrator_working_sensor)) ;;
  void Calibration_SetCameraHeightAndPitch None.

(** The out-parameter [*calibration_service] and the returned [bool]. *)
Definition GetCalibrationService : M (option loc * bool) :=
  self <- get_this ;;
  ret (calibration_service_ self, true).

(** ** [ObstacleCameraPerception::Perception] *)

(** The branch for a frame of the calibration working sensor. *)
Definition Perception_lane (frame : CameraFrame) : M CameraFrame :=
  self <- get_this ;;
  frame <- or_return_false
             (invoke (lane_detector_ self) set_lane_detector_
                     BaseLaneDetector.Detect LaneDetector_Detect frame) ;;
  self <- get_this ;;
  frame <- or_return_false
             (invoke (lane_postprocessor_ self) set_lane_postprocessor_
                     BaseLanePostprocessor.Process2D
                     LanePostprocessor_Process2D frame) ;;
  frame <- Update frame ;;
  self <- get_this ;;
  frame <- or_return_false
             (invoke (lane_postprocessor_ self) set_lane_postprocessor_
                     BaseLanePostprocessor.Process3D
                     LanePostprocessor_Process3D frame) ;;
  let param := perception_param_ self in
  let debug := app.get_debug_param param in
  void (WriteLanelines
          (app.has_debug_param param
           && bool_decide (is_Some (app.lane_out_dir debug)))
          (save_path (app.lane_out_dir debug) frame))
       (Some frame) ;;
  ret frame.

(** The obstacle stages, from [tracker_->Predict] to the end. *)
Definition Perception_obstacle (frame : CameraFrame) : M CameraFrame :=
  self <- get_this ;;
  let debug := app.get_debug_param (perception_param_ self) in
  let sensor := sensor_name (data_provider frame) in
  frame <- or_return_false
             (invoke (tracker_ self) set_tracker_
                     BaseObstacleTracker.Predict Tracker_Predict frame) ;;
  self <- get_this ;;
  detector <- at_ (name_detector_map_ self) sensor ;;
  frame <- or_return_false
             (invoke detector
                     (λ d self, set_name_detector_map_
                                  (<[sensor := d]> (name_detector_map_ self))
                                  self)
                     BaseObstacleDetector.Detect (Detector_Detect sensor)
                     frame) ;;
  void (WriteDetections_detected
          (bool_decide (is_Some (app.detection_out_dir debug)))
          (save_path (app.detection_out_dir debug) frame))
       (Some frame) ;;
  self <- get_this ;;
  frame <- match extractor_ self with
           | Some _ =>
               or_return_false
                 (invoke (extractor_ self) set_extractor_
                         BaseFeatureExtractor.Extract Extractor_Extract frame)
           | None => ret frame
           end ;;
  void (WriteDetections_frame
          (bool_decide (is_Some (app.detect_feature_dir debug)))
          (save_path (app.detect_feature_dir debug) frame))
       (Some frame) ;;
  for_each (λ p, update_object p (base.set_sensor_name sensor))
           (detected_objects (populated frame)) ;;
  self <- get_this ;;
  frame <- or_return_false
             (invoke (tracker_ self) set_tracker_
                     BaseObstacleTracker.Associate2D Tracker_Associate2D
                     frame) ;;
  self <- get_this ;;
  frame <- or_return_false
             (invoke (transformer_ self) set_transformer_
                     BaseObstacleTransformer.Transform Transformer_Transform
                     frame) ;;
  let obstacle_postprocessor_options :=
    {| do_refinement_with_calibration_service :=
         bool_decide (calibration_service frame ≠ None) |} in
  self <- get_this ;;
  frame <- or_return_false
             (invoke (obstacle_postprocessor_ self)
                     set_obstacle_postprocessor_
                     (BaseObstaclePostprocessor.Process
                        obstacle_postprocessor_options)
                     (Postprocessor_Process obstacle_postprocessor_options)
                     frame) ;;
  self <- get_this ;;
  frame <- or_return_false
             (invoke (tracker_ self) set_tracker_
                     BaseObstacleTracker.Associate3D Tracker_Associate3D
                     frame) ;;
  self <- get_this ;;
  frame <- or_return_false
             (invoke (tracker_ self) set_tracker_
                     BaseObstacleTracker.Track Tracker_Track frame) ;;
  void WriteCamera2World (Some frame) ;;
  void WriteTracking (Some frame) ;;
  void (WriteDetections_tracked
          (bool_decide (is_Some (app.tracked_detection_out_dir debug)))
          (save_path (app.tracked_detection_out_dir debug) frame))
       (Some frame) ;;
  for_each (λ p, update_object p
                   (λ obj, let obj := FillObjectPolygonFromBBox3D obj in
                           base.set_anchor_point (base.center obj) obj))
           (tracked_objects (populated frame)) ;;
  ret frame.

(** The whole member function.  Falling off the end ([Val]) is the final
    [return true]. *)
Definition Perception (options : CameraPerceptionOptions) (frame : CameraFrame)
    : M CameraFrame :=
  self <- get_this ;;
  let param := perception_param_ self in
  let debug := app.get_debug_param param in
  let sensor := sensor_name (data_provider frame) in
  log {| call := CudaUtil_set_device_id (app.gpu_id param); handed := None;
         reported := Some (Platform.set_device_id (app.gpu_id param)) |} ;;
  k <- at_ (name_intrinsic_map_ self) sensor ;;
  let frame := set_camera_k_matrix k frame in
  CHECK (bool_decide (calibration_service frame ≠ None)) ;;
  frame <- (if bool_decide (lane_calibration_working_sensor_name_ self = sensor)
            then Perception_lane frame
            else Update frame) ;;
  void (WriteCalibrationOutput
          (app.has_debug_param param
           && bool_decide (is_Some (app.calibration_out_dir debug)))
          (save_path (app.calibration_out_dir debug) frame))
       (Some frame) ;;
  Perception_obstacle frame.

(** What the caller of a [bool] member function observes. *)
Definition outcome {A} (r : Res A) : Exit :=
  match r with
  | Val _ => Return true
  | Stop e => e
  end.

End pipeline.

Notation "x <- c ;; k" := (bind c (λ x, k))
  (at level 100, c at next level, right associativity,
   format "'[v' x  <-  c  ;; '/' k ']'").
Notation "c ;; k" := (bind c (λ _, k))
  (at level 100, right associativity,
   format "'[v' c  ;; '/' k ']'").

(** ** Reading the trace *)

(** The events a run appended, given the trace before it and after it. *)
Definition events_since (before after : list Event) : list Event :=
  drop (length before) after.

Definition lane_call (c : Call) : bool :=
  match c with
  | LaneDetector_Detect | LanePostprocessor_Process2D
  | LanePostprocessor_Process3D => true
  | _ => false
  end.

Definition obstacle_call (c : Call) : bool :=
  match c with
  | Tracker_Predict | Detector_Detect _ | Extractor_Extract
  | Tracker_Associate2D | Transformer_Transform | Postprocessor_Process _
  | Tracker_Associate3D | Tracker_Track => true
  | _ => false
  end.

(** The stage calls whose status [Perception] tests. *)
Definition checked_call (c : Call) : bool := lane_call c || obstacle_call c.

(** A stage call, the calibration update included. *)
Definition stage_call (c : Call) : bool :=
  checked_call c || match c with Calibration_Update => true | _ => false end.

(** A tested stage call that reported failure. *)
Definition failed (e : Event) : bool :=
  checked_call (call e)
  && match reported e with Some false => true | _ => false end.

(** Nothing follows a failed stage call. *)
Fixpoint fail_fast (evs : list Event) : bool :=
  match evs with
  | [] => true
  | e :: rest =>
      if failed e then match rest with [] => true | _ => false end
      else fail_fast rest
  end.

Definition returned_false {A} (r : Res A) : bool :=
  match r with
  | Stop (Return false) => true
  | _ => false
  end.

(** The position of a call in the text of [Perception]. *)
Definition rank (c : Call) : nat :=
  match c with
  | LaneDetector_Detect => 1
  | LanePostprocessor_Process2D => 2
  | Calibration_Update => 3
  | LanePostprocessor_Process3D => 4
  | WriteLanelines _ _ => 5
  | WriteCalibrationOutput _ _ => 6
  | Tracker_Predict => 7
  | Detector_Detect _ => 8
  | WriteDetections_detected _ _ => 9
  | Extractor_Extract => 10
  | WriteDetections_frame _ _ => 11
  | Tracker_Associate2D => 12
  | Transformer_Transform => 13
  | Postprocessor_Process _ => 14
  | Tracker_Associate3D => 15
  | Tracker_Track => 16
  | WriteCamera2World => 17
  | WriteTracking => 18
  | WriteDetections_tracked _ _ => 19
  | _ => 0
  end%nat.

Fixpoint increasing (ns : list nat) : bool :=
  match ns with
  | a :: rest =>
      match rest with
      | b :: _ => (a <? b)%nat && increasing rest
      | [] => true
      end
  | [] => true
  end.

(** The calls of a run follow the text of [Perception]. *)
Definition in_order (evs : list Event) : bool :=
  increasing (rank ∘ call <$> evs).

(** Every calibration update of the lane branch is followed at once by the
    lane 3D postprocessing. *)
Fixpoint update_then_Process3D (evs : list Event) : bool :=
  match evs with
  | [] => true
  | e :: rest =>
      match call e with
      | Calibration_Update =>
          match rest with
          | e' :: _ =>
              match call e' with
              | LanePostprocessor_Process3D => true
              | _ => false
              end
          | [] => false
          end
      | _ => true
      end && update_then_Process3D rest
  end.

Definition unreported_update (e : Event) : bool :=
  match call e with
  | Calibration_Update =>
      match reported e with None => true | Some _ => false end
  | _ => true
  end.

(** A call of [Perception] is a failure point when some run, over some
    choice of plugins, returns [false] right after it. *)
Definition failure_point (c : Call) : Prop :=
  ∃ (Detector Tracker Transformer Postprocessor Extractor
     LaneDetector LanePostprocessor : Type)
    (_ : BaseObstacleDetector.t Detector)
    (_ : BaseObstacleTracker.t Tracker)
    (_ : BaseObstacleTransformer.t Transformer)
    (_ : BaseObstaclePostprocessor.t Postprocessor)
    (_ : BaseFeatureExtractor.t Extractor)
    (_ : BaseLaneDetector.t LaneDetector)
    (_ : BaseLanePostprocessor.t LanePostprocessor)
    (_ : Calibrator.t) (_ : Platform.t) (_ : Footprint.t)
    (options : CameraPerceptionOptions) (frame : CameraFrame)
    (m : @Machine Detector Tracker Transformer Postprocessor Extractor
                  LaneDetector LanePostprocessor),
    let run := Perception options frame m in
    run.1 = Stop (Return false) ∧
    call <$> last (events_since (trace m) (trace run.2)) = Some c.

(** A failure reported by the call [c] ends the run with [return false],
    nothing else being called after it. *)
Definition fails_the_frame (c : Call) : Prop :=
  ∀ (Detector Tracker Transformer Postprocessor Extractor
     LaneDetector LanePostprocessor : Type)
    `(!BaseObstacleDetector.t Detector)
    `(!BaseObstacleTracker.t Tracker)
    `(!BaseObstacleTransformer.t Transformer)
    `(!BaseObstaclePostprocessor.t Postprocessor)
    `(!BaseFeatureExtractor.t Extractor)
    `(!BaseLaneDetector.t LaneDetector)
    `(!BaseLanePostprocessor.t LanePostprocessor)
    `(!Calibrator.t) `(!Platform.t) `(!Footprint.t)
    (options : CameraPerceptionOptions) (frame : CameraFrame)
    (m : @Machine Detector Tracker Transformer Postprocessor Extractor
                  LaneDetector LanePostprocessor) e,
    let run := Perception options frame m in
    let evs := events_since (trace m) (trace run.2) in
    sensor_name (data_provider frame) =
      lane_calibration_working_sensor_name_ (this m) →
    e ∈ evs → call e = c → reported e = Some false →
    run.1 = Stop (Return false) ∧ last evs = Some e.

(** The four lane sub-stages of the working-sensor branch. *)
Definition lane_substages : list Call :=
  [LaneDetector_Detect; LanePostprocessor_Process2D; Calibration_Update;
   LanePostprocessor_Process3D].

(** The three of them whose status [Perception] tests. *)
Definition checked_lane_substages : list Call :=
  [LaneDetector_Detect; LanePostprocessor_Process2D;
   LanePostprocessor_Process3D].

(** "Each of the four lane sub-stages is a distinct failure point." *)
Definition each_lane_substage_is_a_failure_point : Prop :=
  ∀ c, c ∈ lane_substages → failure_point c ∧ fails_the_frame c.

(** In the lane branch the calibration update reports no status, and the
    lane 3D postprocessing is the next call whatever the update did. *)
Definition update_is_not_tested : Prop :=
  ∀ (Detector Tracker Transformer Postprocessor Extractor
     LaneDetector LanePostprocessor : Type)
    `(!BaseObstacleDetector.t Detector)
    `(!BaseObstacleTracker.t Tracker)
    `(!BaseObstacleTransformer.t Transformer)
    `(!BaseObstaclePostprocessor.t Postprocessor)
    `(!BaseFeatureExtractor.t Extractor)
    `(!BaseLaneDetector.t LaneDetector)
    `(!BaseLanePostprocessor.t LanePostprocessor)
    `(!Calibrator.t) `(!Platform.t) `(!Footprint.t)
    (options : CameraPerceptionOptions) (frame : CameraFrame)
    (m : @Machine Detector Tracker Transformer Postprocessor Extractor
                  LaneDetector LanePostprocessor) before e rest,
    let run := Perception options frame m in
    sensor_name (data_provider frame) =
      lane_calibration_working_sensor_name_ (this m) →
    events_since (trace m) (trace run.2) = before ++ e :: rest →
    call e = Calibration_Update →
    reported e = None ∧
    ∃ e' rest', rest = e' :: rest' ∧ call e' = LanePostprocessor_Process3D.

(** The camera model [Init] holds after its loop over the detector
    parameters: the one resolved in the last iteration. *)
Definition last_model `{!Platform.t} (params : list app.DetectorParam)
    (model : option base.BaseCameraModel) : option base.BaseCameraModel :=
  foldl (λ _ detector_param,
           Platform.GetUndistortCameraModel (app.camera_name detector_param))
        model params.

Definition detector_init_call (c : Call) : bool :=
  match c with
  | Detector_Init _ _ => true
  | _ => false
  end.

(** ** Reasoning about runs: weakest preconditions *)

Section wp.

Context {Detector Tracker Transformer Postprocessor Extractor
         LaneDetector LanePostprocessor : Type}.

Abbreviation Machine' :=
  (@Machine Detector Tracker Transformer Postprocessor Extractor
            LaneDetector LanePostprocessor).
Abbreviation M' :=
  (@M Detector Tracker Transformer Postprocessor Extractor
      LaneDetector LanePostprocessor).

Definition wp {A} (c : M' A) (Q : Res A → Machine' → Prop) (m : Machine')
    : Prop :=
  Q (c m).1 (c m).2.

Definition after {A B} (k : A → M' B) (Q : Res B → Machine' → Prop)
    : Res A → Machine' → Prop :=
  λ r m, match r with
         | Val a => wp (k a) Q m
         | Stop e => Q (Stop e) m
         end.

End wp.

(** ** A concrete installation

    Two cameras, "front_6mm" (the calibration working sensor) and
    "front_12mm", with scripted plugins: a plugin's state is the list of
    statuses its next calls report ([true] once the list is used up). *)

Module Scenario.

Definition Script : Type := list bool.

Definition status (s : Script) : bool := hd true s.

Definition registry (name : string) : option Script :=
  if decide (name = EmptyString) then None
  else if String.prefix "Failing" name then Some [false]
  else Some [].

Definition init {O} (s : Script) (_ : O) : bool * Script := (true, s).

Definition quiet : Stage Script :=
  λ s frame objs _, (status s, tl s, populated frame, objs).

Definition car : base.Object :=
  {| base.center := (10, 20, 30);
     base.anchor_point := (0, 0, 0);
     base.size := (4, 2, 1);
     base.direction := (1, 0, 0);
     base.polygon := [];
     base.camera_supplement := {| base.sensor_name := EmptyString; base.box := [] |} |}.

Definition pedestrian : base.Object :=
  {| base.center := (5, 6, 7);
     base.anchor_point := (9, 9, 9);
     base.size := (1, 1, 2);
     base.direction := (0, 1, 0);
     base.polygon := [];
     base.camera_supplement :=
       {| base.sensor_name := "stale"; base.box := [] |} |}.

(** The detector reports two objects, one of them twice. *)
Definition detect : Stage Script :=
  λ s frame objs _,
    (status s, tl s,
     {| camera_k_matrix := camera_k_matrix (populated frame);
        lane_objects := lane_objects (populated frame);
        detected_objects := [1; 2; 1]%positive;
        tracked_objects := tracked_objects (populated frame);
        camera2world_pose := camera2world_pose (populated frame) |},
     <[1%positive := car]> (<[2%positive := pedestrian]> objs)).

(** The tracker tracks the very objects that were detected. *)
Definition track : Stage Script :=
  λ s frame objs _,
    (status s, tl s,
     {| camera_k_matrix := camera_k_matrix (populated frame);
        lane_objects := lane_objects (populated frame);
        detected_objects := detected_objects (populated frame);
        tracked_objects := detected_objects (populated frame);
        camera2world_pose := camera2world_pose (populated frame) |},
     objs).

#[global] Instance detector : BaseObstacleDetector.t Script :=
  {| BaseObstacleDetector.GetInstanceByName := registry;
     BaseObstacleDetector.Init := init;
     BaseObstacleDetector.Detect := detect |}.

#[global] Instance tracker : BaseObstacleTracker.t Script :=
  {| BaseObstacleTracker.GetInstanceByName := registry;
     BaseObstacleTracker.Init := init;
     BaseObstacleTracker.Predict := quiet;
     BaseObstacleTracker.Associate2D := quiet;
     BaseObstacleTracker.Associate3D := quiet;
     BaseObstacleTracker.Track := track |}.

#[global] Instance transformer : BaseObstacleTransformer.t Script :=
  {| BaseObstacleTransformer.GetInstanceByName := registry;
     BaseObstacleTransformer.Init := init;
     BaseObstacleTransformer.Transform := quiet |}.

#[global] Instance postprocessor : BaseObstaclePostprocessor.t Script :=
  {| BaseObstaclePostprocessor.GetInstanceByName := registry;
     BaseObstaclePostprocessor.Init := init;
     BaseObstaclePostprocessor.Process := λ _, quiet |}.

#[global] Instance extractor : BaseFeatureExtractor.t Script :=
  {| BaseFeatureExtractor.GetInstanceByName := registry;
     BaseFeatureExtractor.Init := init;
     BaseFeatureExtractor.Extract := quiet |}.

#[global] Instance lane_detector : BaseLaneDetector.t Script :=
  {| BaseLaneDetector.GetInstanceByName := registry;
     BaseLaneDetector.Init := init;
     BaseLaneDetector.Detect := quiet |}.

#[global] Instance lane_postprocessor : BaseLanePostprocessor.t Script :=
  {| BaseLanePostprocessor.GetInstanceByName := registry;
     BaseLanePostprocessor.Init := init;
     BaseLanePostprocessor.Process2D := quiet;
     BaseLanePostprocessor.Process3D := quiet |}.

Definition uncalibrated : Geometry :=
  {| name_camera_ground_height_map := ∅;
     name_camera_pitch_angle_diff_map := ∅;
     pitch_angle_calibrator_working_sensor := 0 |}.

(** The calibrator takes the frame number for the new pitch angle. *)
#[global] Instance calibrator : Calibrator.t :=
  {| Calibrator.GetInstanceByName := λ name,
       if decide (name = "OnlineCalibrationService")
       then Some {| init_options :=
                      {| CalibrationServiceInitOptions.calibrator_working_sensor_name := EmptyString;
                         CalibrationServiceInitOptions.name_intrinsic_map := ∅;
                         CalibrationServiceInitOptions.calibrator_method := EmptyString;
                         CalibrationServiceInitOptions.image_height := 0;
                         CalibrationServiceInitOptions.image_width := 0 |};
                    geometry := uncalibrated |}
       else None;
     Calibrator.accepts := λ _, true;
     Calibrator.Calibrate := λ g frame,
       {| name_camera_ground_height_map := name_camera_ground_height_map g;
          name_camera_pitch_angle_diff_map :=
            name_camera_pitch_angle_diff_map g;
          pitch_angle_calibrator_working_sensor := frame_id frame |};
     Calibrator.Sync := λ g frame, populated frame |}.

Definition front_6mm : base.BaseCameraModel :=
  {| base.get_width := 1920; base.get_height := 1080;
     base.get_intrinsic_params := [2000; 0; 960; 0; 2000; 540; 0; 0; 1] |}.

Definition front_12mm : base.BaseCameraModel :=
  {| base.get_width := 1280; base.get_height := 720;
     base.get_intrinsic_params := [4000; 0; 640; 0; 4000; 360; 0; 0; 1] |}.

Definition plugin (name : string) : app.PluginParam :=
  {| app.name := name; app.root_dir := "data"; app.config_file := "config.pt" |}.

(** A configuration without a feature-extractor block. *)
Definition perception_param : app.PerceptionParam :=
  {| app.gpu_id := 0;
     app.detector_param :=
       [ {| app.plugin_param := plugin "YoloObstacleDetector";
            app.camera_name := "front_6mm" |};
         {| app.plugin_param := plugin "YoloObstacleDetector";
            app.camera_name := "front_12mm" |} ];
     app.tracker_param := Some (plugin "OMTObstacleTracker");
     app.transformer_param := Some (plugin "MultiCueObstacleTransformer");
     app.postprocessor_param :=
       Some (plugin "LocationRefinerObstaclePostprocessor");
     app.feature_param := None;
     app.lane_param :=
       Some {| app.lane_detector_param := Some (plugin "DenselineLaneDetector");
               app.lane_postprocessor_param :=
                 Some (plugin "DenselineLanePostprocessor") |};
     app.calibration_service_param :=
       Some {| app.calibration_plugin_param :=
                 plugin "OnlineCalibrationService";
               app.calibrator_method := "LaneLineCalibrator" |};
     app.debug_param := None;
     app.object_template_param := None |}.

#[global] Instance platform : Platform.t :=
  {| Platform.GetCybertronWorkRoot := "/apollo";
     Platform.GetAbsolutePath := λ prefix path,
       if String.prefix "/" path then path
       else if decide (prefix = EmptyString) then path
       else prefix +:+ "/" +:+ path;
     Platform.GetProtoFromFile := λ file,
       if decide (file = "/apollo/conf/perception.pt")
       then Some perception_param else None;
     Platform.set_device_id := λ _, true;
     Platform.GetUndistortCameraModel := λ camera,
       if decide (camera = "front_6mm") then Some front_6mm
       else if decide (camera = "front_12mm") then Some front_12mm
       else None;
     Platform.ObjectTemplateManager_Init := λ _, true |}.

#[global] Instance footprint : Footprint.t :=
  {| Footprint.corner := λ o _, base.center o |}.

Abbreviation Machine :=
  (@Machine Script Script Script Script Script Script Script).

Definition options : CameraPerceptionInitOptions :=
  {| init_root_dir := "conf";
     init_conf_file := "perception.pt";
     lane_calibration_working_sensor_name := "front_6mm";
     use_cybertron_work_root := true |}.

Definition fresh_machine : Machine :=
  {| this := ObstacleCameraPerception_new; services := ∅; objects := ∅;
     trace := [] |}.

(** The machine [Init] leaves behind, with a clean trace. *)
Definition ready : Machine :=
  let m := (Init options fresh_machine).2 in
  {| this := this m; services := services m; objects := objects m;
     trace := [] |}.

Definition with_this (f : ObstacleCameraPerception → ObstacleCameraPerception)
    (m : Machine) : Machine :=
  {| this := f (this m); services := services m; objects := objects m;
     trace := trace m |}.

(** A frame as the capture layer hands it over. *)
Definition frame (id : Z) (sensor : string) : CameraFrame :=
  {| frame_id := id;
     data_provider := {| sensor_name := sensor |};
     calibration_service := calibration_service_ (this ready);
     populated :=
       {| camera_k_matrix := []; lane_objects := []; detected_objects := [];
          tracked_objects := []; camera2world_pose := [] |} |}.

Definition no_options : CameraPerceptionOptions :=
  Build_CameraPerceptionOptions.

(** [ready], with the scripts of some plugins replaced. *)
Definition failing_lane_detector : Machine :=
  with_this (set_lane_detector_ (Some [false])) ready.

Definition failing_lane_2D : Machine :=
  with_this (set_lane_postprocessor_ (Some [false])) ready.

Definition failing_lane_3D : Machine :=
  with_this (set_lane_postprocessor_ (Some [true; false])) ready.

Definition failing_extractor : Machine :=
  with_this (set_extractor_ (Some [false])) ready.

Definition events (run : Res CameraFrame * Machine) : list Event :=
  events_since (trace ready) (trace run.2).

End Scenario.

(** ** What whole runs are compared with *)

(** ** Further readings of a run *)

(** The stage calls of a frame that [Perception] accepts: the lane branch
    or the bare calibration update, then the obstacle stages, with the
    extraction when there is an extractor. *)
Definition stages_of_an_accepted_frame (working : bool) (sensor : string)
    (extracts : bool) : list Call :=
  (if working
   then [LaneDetector_Detect; LanePostprocessor_Process2D; Calibration_Update;
         LanePostprocessor_Process3D]
   else [Calibration_Update])
  ++ [Tracker_Predict; Detector_Detect sensor]
  ++ (if extracts then [Extractor_Extract] else [])
  ++ [Tracker_Associate2D; Transformer_Transform;
      Postprocessor_Process
        {| do_refinement_with_calibration_service := true |};
      Tracker_Associate3D; Tracker_Track].

(** The two calls after which [Perception] goes through object pointers:
    the second [WriteDetections] (before the sensor names are set) and the
    third (before the polygons and anchor points are set). *)
Definition before_object_loop (c : Call) : bool :=
  match c with
  | WriteDetections_frame _ _ | WriteDetections_tracked _ _ => true
  | _ => false
  end.

Section initialized.

Context {Detector Tracker Transformer Postprocessor Extractor
         LaneDetector LanePostprocessor : Type}.

(** A pipeline object whose plugin pointers are all set: what a successful
    [Init] leaves.  The extractor is optional. *)
Definition initialized
    (self : @ObstacleCameraPerception Detector Tracker Transformer
              Postprocessor Extractor LaneDetector LanePostprocessor)
    : Prop :=
  is_Some (tracker_ self) ∧
  is_Some (transformer_ self) ∧
  is_Some (obstacle_postprocessor_ self) ∧
  is_Some (lane_detector_ self) ∧
  is_Some (lane_postprocessor_ self) ∧
  ∀ sensor, is_Some (name_intrinsic_map_ self !! sensor) →
            ∃ detector, name_detector_map_ self !! sensor = Some (Some detector).

End initialized.

(** What one iteration of the detector loop of [Init] does to the map of
    intrinsics, [std::map::insert] keeping an entry that is there. *)
Definition insert_intrinsics `{!Platform.t}
    (intrinsics : gmap string Matrix3f) (detector_param : app.DetectorParam)
    : gmap string Matrix3f :=
  match Platform.GetUndistortCameraModel (app.camera_name detector_param) with
  | Some pinhole =>
      map_insert (app.camera_name detector_param)
                 (base.get_intrinsic_params pinhole) intrinsics
  | None => intrinsics
  end.

(** The names of the configured cameras. *)
Definition cameras (params : list app.DetectorParam) : list string :=
  app.camera_name <$> params.

(** The call [Init] makes on the detector of one [detector_param] entry,
    reporting success. *)
Definition detector_init_event `{!Platform.t} (work_root : string) (gpu : Z)
    (detector_param : app.DetectorParam) : Event :=
  {| call :=
       Detector_Init (app.camera_name detector_param)
         {| ObstacleDetectorInitOptions.base_options :=
              plugin_options work_root (app.plugin_param detector_param) gpu;
            ObstacleDetectorInitOptions.base_camera_model :=
              Platform.GetUndistortCameraModel
                (app.camera_name detector_param) |};
     handed := None;
     reported := Some true |}.

(** No call but the last one of [evs] reported failure. *)
Definition stops_at_first_failure (evs : list Event) : Prop :=
  ∀ e, e ∈ evs → reported e = Some false → last evs = Some e.

(** The components that [Init] initializes. *)
Inductive Component :=
  | the_device
  | the_detector (camera : string)
  | the_tracker
  | the_transformer
  | the_postprocessor
  | the_extractor
  | the_lane_detector
  | the_lane_postprocessor
  | the_calibration_service
  | the_template_manager.

Definition initialized_by (c : Call) : option Component :=
  match c with
  | CudaUtil_set_device_id _ => Some the_device
  | Detector_Init camera _ => Some (the_detector camera)
  | Tracker_Init _ => Some the_tracker
  | Transformer_Init _ => Some the_transformer
  | Postprocessor_Init _ => Some the_postprocessor
  | Extractor_Init _ => Some the_extractor
  | LaneDetector_Init _ => Some the_lane_detector
  | LanePostprocessor_Init _ => Some the_lane_postprocessor
  | Calibration_Init _ => Some the_calibration_service
  | TemplateManager_Init _ => Some the_template_manager
  | _ => None
  end.

(** The components a configuration asks for, in the order of the blocks of
    [Init]. *)
Definition components (param : app.PerceptionParam) : list Component :=
  [the_device]
  ++ (the_detector <$> cameras (app.detector_param param))
  ++ [the_tracker; the_transformer; the_postprocessor]
  ++ match app.feature_param param with
     | Some _ => [the_extractor]
     | None => []
     end
  ++ [the_lane_detector; the_lane_postprocessor; the_calibration_service]
  ++ match app.object_template_param param with
     | Some _ => [the_template_manager]
     | None => []
     end.

(** The calls that write a debug file: the output functions that are
    handed a flag, when the flag is set. *)
Definition writes_a_file (c : Call) : bool :=
  match c with
  | WriteLanelines enabled _ | WriteCalibrationOutput enabled _
  | WriteDetections_detected enabled _ | WriteDetections_frame enabled _
  | WriteDetections_tracked enabled _ => enabled
  | _ => false
  end.

(** ** More scenarios *)

Module Cases.

Import Scenario.

(** A frame that carries no calibration service. *)
Definition unserviced_frame : CameraFrame :=
  {| frame_id := 4;
     data_provider := {| sensor_name := "front_6mm" |};
     calibration_service := None;
     populated := populated (frame 4 "front_6mm") |}.

(** A tracker whose initialization reports failure. *)
Definition broken_tracker : BaseObstacleTracker.t Script :=
  {| BaseObstacleTracker.GetInstanceByName := registry;
     BaseObstacleTracker.Init := λ s _, (false, s);
     BaseObstacleTracker.Predict := quiet;
     BaseObstacleTracker.Associate2D := quiet;
     BaseObstacleTracker.Associate3D := quiet;
     BaseObstacleTracker.Track := track |}.

(** The machine [Init] leaves behind, with the trace of [Init]. *)
Definition initialized_machine : Machine := (Init options fresh_machine).2.

End Cases.

(** * Proofs *)

(** ** Rules for running a member function step by step *)

Section rules.

Context {Detector Tracker Transformer Postprocessor Extractor
         LaneDetector LanePostprocessor : Type}.
Context `{!BaseObstacleDetector.t Detector,
          !BaseObstacleTracker.t Tracker,
          !BaseObstacleTransformer.t Transformer,
          !BaseObstaclePostprocessor.t Postprocessor,
          !BaseFeatureExtractor.t Extractor,
          !BaseLaneDetector.t LaneDetector,
          !BaseLanePostprocessor.t LanePostprocessor}.
Context `{!Calibrator.t, !Platform.t, !Footprint.t}.

Implicit Types m : @Machine Detector Tracker Transformer Postprocessor
                            Extractor LaneDetector LanePostprocessor.

Lemma wp_run {A} (c : M A) Q m r m' : wp c Q m → c m = (r, m') → Q r m'.
Proof. unfold wp. intros HQ E. by rewrite E in HQ. Qed.

Lemma wp_bind {A B} (c : M A) (k : A → M B) Q m :
  wp c (after k Q) m → wp (bind c k) Q m.
Proof. unfold wp, after, bind. by destruct (c m) as [[a|e] m1]. Qed.

Lemma wp_ret {A} (a : A) Q m : Q (Val a) m → wp (ret a) Q m.
Proof. done. Qed.

Lemma wp_stop {A} e (Q : Res A → _) m : Q (Stop e) m → wp (stop e) Q m.
Proof. done. Qed.

Lemma wp_get_this Q m : Q (Val (this m)) m → wp get_this Q m.
Proof. done. Qed.

Lemma wp_modify_this f Q m :
  Q (Val tt) {| this := f (this m); services := services m;
                objects := objects m; trace := trace m |} →
  wp (modify_this f) Q m.
Proof. done. Qed.

Lemma wp_log e Q m :
  Q (Val tt) {| this := this m; services := services m;
                objects := objects m; trace := trace m ++ [e] |} →
  wp (log e) Q m.
Proof. done. Qed.

Lemma wp_void c frame Q m :
  Q (Val tt) {| this := this m; services := services m; objects := objects m;
                trace := trace m ++ [{| call := c;
                                        handed := (λ f, (f, objects m)) <$> frame;
                                        reported := None |}] |} →
  wp (void c frame) Q m.
Proof. done. Qed.

Lemma wp_CHECK (b : bool) Q m :
  (b = false → Q (Stop Check_failed) m) → (b = true → Q (Val tt) m) →
  wp (CHECK b) Q m.
Proof. destruct b; unfold wp; simpl; auto. Qed.

Lemma wp_at {V} (map : gmap string V) k Q m :
  (map !! k = None → Q (Stop Throw_out_of_range) m) →
  (∀ v, map !! k = Some v → Q (Val v) m) →
  wp (at_ map k) Q m.
Proof. unfold wp, at_. destruct (map !! k); simpl; auto. Qed.

Lemma wp_deref {X} (p : option X) Q m :
  (p = None → Q (Stop Undefined_behaviour) m) →
  (∀ x, p = Some x → Q (Val x) m) →
  wp (deref p) Q m.
Proof. unfold wp, deref. destruct p; simpl; auto. Qed.

Lemma wp_invoke {X} (ptr : option X) store (method : Stage X) c frame Q m :
  (ptr = None → Q (Stop Undefined_behaviour) m) →
  (∀ x ok x' p objs,
     ptr = Some x →
     method x frame (objects m) (services m) = (ok, x', p, objs) →
     Q (Val (ok, set_populated p frame))
       {| this := store (Some x') (this m); services := services m;
          objects := objs;
          trace := trace m ++ [{| call := c; handed := Some (frame, objects m);
                                  reported := Some ok |}] |}) →
  wp (invoke ptr store method c frame) Q m.
Proof.
  intros Hnull Hcall. unfold wp, invoke, bind, deref.
  destruct ptr as [x|]; simpl; [|auto].
  destruct (method x frame (objects m) (services m)) as [[[ok x'] p] objs] eqn:E.
  simpl. eauto.
Qed.

Lemma wp_stage {X} (ptr : option X) store (method : Stage X) c frame Q m :
  (ptr = None → Q (Stop Undefined_behaviour) m) →
  (∀ x x' objs,
     ptr = Some x →
     Q (Stop (Return false))
       {| this := store (Some x') (this m); services := services m;
          objects := objs;
          trace := trace m ++ [{| call := c; handed := Some (frame, objects m);
                                  reported := Some false |}] |}) →
  (∀ x x' p objs,
     ptr = Some x →
     Q (Val (set_populated p frame))
       {| this := store (Some x') (this m); services := services m;
          objects := objs;
          trace := trace m ++ [{| call := c; handed := Some (frame, objects m);
                                  reported := Some true |}] |}) →
  wp (or_return_false (invoke ptr store method c frame)) Q m.
Proof.
  intros Hnull Hfalse Htrue. unfold or_return_false.
  apply wp_bind, wp_invoke; [done|].
  intros x [] x' p objs Hx _; simpl; unfold wp; simpl; eauto.
Qed.

Lemma wp_Update frame Q m :
  (calibration_service frame = None → Q (Stop Undefined_behaviour) m) →
  (∀ l, calibration_service frame = Some l → services m !! l = None →
        Q (Stop Undefined_behaviour) m) →
  (∀ l svc, calibration_service frame = Some l → services m !! l = Some svc →
     Q (Val (set_populated (CalibrationService_Update svc frame).2 frame))
       {| this := this m;
          services := <[l := (CalibrationService_Update svc frame).1]> (services m);
          objects := objects m;
          trace := trace m ++ [{| call := Calibration_Update;
                                  handed := Some (frame, objects m);
                                  reported := None |}] |}) →
  wp (Update frame) Q m.
Proof.
  intros Hnull Hdangling Hlive. unfold wp, Update, bind, deref.
  destruct (calibration_service frame) as [l|]; simpl; [|auto].
  destruct (services m !! l) as [svc|] eqn:E; simpl; [|eauto].
  specialize (Hlive l svc eq_refl E).
  by destruct (CalibrationService_Update svc frame).
Qed.


Lemma for_each_update_object (P : base.Object → Prop) f l m :
  (∀ o, P (f o)) →
  ∃ r objs,
    for_each (λ p, update_object p f) l m =
      (r, {| this := this m; services := services m; objects := objs;
             trace := trace m |}) ∧
    (∀ q o, objects m !! q = Some o → P o → ∃ o', objs !! q = Some o' ∧ P o') ∧
    (r = Stop Undefined_behaviour ∨
     r = Val tt ∧ ∀ p, p ∈ l → ∃ o, objs !! p = Some o ∧ P o).
Proof.
  intros HP. revert m. induction l as [|x l IH]; intros m.
  - exists (Val tt), (objects m). destruct m; simpl.
    split; [done|]. split; [eauto|]. right. split; [done|].
    intros p Hp. by apply elem_of_nil in Hp.
  - simpl. unfold bind, update_object at 1.
    destruct (objects m !! x) as [o|] eqn:Hx.
    + destruct (IH {| this := this m; services := services m;
                      objects := <[x := f o]> (objects m);
                      trace := trace m |}) as (r & objs & -> & Hkeep & Hr).
      simpl in *. exists r, objs. split; [by destruct r|].
      assert (Hkeep' : ∀ q o0, objects m !! q = Some o0 → P o0 →
                               ∃ o', objs !! q = Some o' ∧ P o').
      { intros q o0 Hq HPo. destruct (decide (q = x)) as [->|Hne].
        - apply (Hkeep x (f o)); [apply lookup_insert_eq | apply HP].
        - apply (Hkeep q o0); [by rewrite lookup_insert_ne | done]. }
      split; [done|].
      destruct Hr as [->|[-> Hall]]; [by left|right]. split; [done|].
      intros p Hp. apply elem_of_cons in Hp as [->|Hp]; [|by apply Hall].
      apply (Hkeep x (f o)); [apply lookup_insert_eq | apply HP].
    + exists (Stop Undefined_behaviour), (objects m). destruct m; simpl.
      split; [done|]. split; [eauto|]. by left.
Qed.

Lemma wp_for_each (P : base.Object → Prop) f l Q m :
  (∀ o, P (f o)) →
  (∀ objs, Q (Stop Undefined_behaviour)
             {| this := this m; services := services m; objects := objs;
                trace := trace m |}) →
  (∀ objs, (∀ p, p ∈ l → ∃ o, objs !! p = Some o ∧ P o) →
           Q (Val tt)
             {| this := this m; services := services m; objects := objs;
                trace := trace m |}) →
  wp (for_each (λ p, update_object p f) l) Q m.
Proof.
  intros HP Hub Hok. unfold wp.
  destruct (for_each_update_object P f l m HP) as (r & objs & -> & _ & Hr).
  simpl. destruct Hr as [->|[-> Hall]]; auto.
Qed.

Lemma wp_reset_calibration_service ptr Q m :
  (ptr = None →
   Q (Val tt) {| this := set_calibration_service_ None (this m);
                 services := services m; objects := objects m;
                 trace := trace m |}) →
  (∀ svc, ptr = Some svc →
     Q (Val tt) {| this := set_calibration_service_
                             (Some (fresh (dom (services m)))) (this m);
                   services := <[fresh (dom (services m)) := svc]> (services m);
                   objects := objects m; trace := trace m |}) →
  wp (reset_calibration_service ptr) Q m.
Proof. unfold wp, reset_calibration_service. destruct ptr; simpl; auto. Qed.

Lemma wp_with_calibration_service {A}
    (f : CalibrationService → A * CalibrationService) Q m :
  (calibration_service_ (this m) = None → Q (Stop Undefined_behaviour) m) →
  (∀ l, calibration_service_ (this m) = Some l → services m !! l = None →
        Q (Stop Undefined_behaviour) m) →
  (∀ l svc, calibration_service_ (this m) = Some l →
            services m !! l = Some svc →
     Q (Val (f svc).1)
       {| this := this m; services := <[l := (f svc).2]> (services m);
          objects := objects m; trace := trace m |}) →
  wp (with_calibration_service f) Q m.
Proof.
  intros Hnull Hdangling Hlive.
  unfold wp, with_calibration_service, bind, get_this, deref.
  destruct (calibration_service_ (this m)) as [l|]; simpl; [|auto].
  destruct (services m !! l) as [svc|] eqn:E; simpl; [|eauto].
  specialize (Hlive l svc eq_refl E). by destruct (f svc).
Qed.

Lemma wp_check_init {X O} (ptr : option X) store (init : X → O → bool * X)
    o c Q m :
  (ptr = None → Q (Stop Check_failed) m) →
  (∀ x, ptr = Some x →
     Q (Stop Check_failed)
       {| this := store (Some (init x o).2) (this m); services := services m;
          objects := objects m;
          trace := trace m ++ [{| call := c; handed := None;
                                  reported := Some false |}] |}) →
  (∀ x, ptr = Some x →
     Q (Val tt)
       {| this := store (Some (init x o).2) (this m); services := services m;
          objects := objects m;
          trace := trace m ++ [{| call := c; handed := None;
                                  reported := Some true |}] |}) →
  wp (check_init ptr store init o c) Q m.
Proof.
  intros Hnull Hfalse Htrue. unfold wp, check_init, bind, CHECK, deref.
  destruct ptr as [x|]; simpl; [|auto].
  specialize (Hfalse x eq_refl). specialize (Htrue x eq_refl).
  destruct (init x o) as [[] x']; simpl in *; auto.
Qed.

End rules.

Ltac wp_simpl :=
  cbn [after this services objects trace fst snd
       perception_param_ name_intrinsic_map_ name_detector_map_ tracker_
       transformer_ obstacle_postprocessor_ extractor_ lane_detector_
       lane_postprocessor_ calibration_service_
       lane_calibration_working_sensor_name_ out_track_ out_pose_
       set_perception_param_ set_name_intrinsic_map_ set_name_detector_map_
       set_tracker_ set_transformer_ set_obstacle_postprocessor_
       set_extractor_ set_lane_detector_ set_lane_postprocessor_
       set_calibration_service_ set_lane_calibration_working_sensor_name_
       set_out_track_ set_out_pose_
       frame_id data_provider calibration_service populated set_populated
       set_camera_k_matrix].

Ltac wp_simpl_all :=
  cbn [after this services objects trace fst snd
       perception_param_ name_intrinsic_map_ name_detector_map_ tracker_
       transformer_ obstacle_postprocessor_ extractor_ lane_detector_
       lane_postprocessor_ calibration_service_
       lane_calibration_working_sensor_name_ out_track_ out_pose_
       set_perception_param_ set_name_intrinsic_map_ set_name_detector_map_
       set_tracker_ set_transformer_ set_obstacle_postprocessor_
       set_extractor_ set_lane_detector_ set_lane_postprocessor_
       set_calibration_service_ set_lane_calibration_working_sensor_name_
       set_out_track_ set_out_pose_
       frame_id data_provider calibration_service populated set_populated
       set_camera_k_matrix] in *.

Ltac wp_step :=
  lazymatch goal with
  | |- wp (bind _ _) _ _ => apply wp_bind
  | |- wp get_this _ _ => apply wp_get_this
  | |- wp (modify_this _) _ _ => apply wp_modify_this
  | |- wp (log _) _ _ => apply wp_log
  | |- wp (void _ _) _ _ => apply wp_void
  | |- wp (ret _) _ _ => apply wp_ret
  | |- wp (stop _) _ _ => apply wp_stop
  | |- wp (CHECK _) _ _ => apply wp_CHECK; intros ?
  | |- wp (at_ _ _) _ _ => apply wp_at; [intros ?|intros ? ?]
  | |- wp (deref _) _ _ => apply wp_deref; [intros ?|intros ? ?]
  | |- wp (or_return_false (invoke _ _ _ _ _)) _ _ =>
      apply wp_stage; [intros ?|intros ? ? ? ?|intros ? ? ? ? ?]
  | |- wp (Update _) _ _ =>
      apply wp_Update; [intros ?|intros ? ? ?|intros ? ? ? ?]
  | |- wp (reset_calibration_service _) _ _ =>
      apply wp_reset_calibration_service; [intros ?|intros ? ?]
  | |- wp (with_calibration_service _) _ _ =>
      apply wp_with_calibration_service;
      [intros ?|intros ? ? ?|intros ? ? ? ?]
  | |- wp (check_init _ _ _ _ _) _ _ =>
      apply wp_check_init; [intros ?|intros ? ?|intros ? ?]
  | |- wp (if ?b then _ else _) _ _ => destruct b eqn:?
  | |- wp (match ?x with _ => _ end) _ _ => destruct x eqn:?
  end; wp_simpl.


(** ** Facts about traces *)

Lemma failed_spec e :
  failed e = true ↔ checked_call (call e) = true ∧ reported e = Some false.
Proof.
  unfold failed. rewrite andb_true_iff.
  destruct (reported e) as [[]|]; intuition congruence.
Qed.

Lemma fail_fast_last evs e :
  fail_fast evs = true → e ∈ evs → failed e = true → last evs = Some e.
Proof.
  induction evs as [|e0 rest IH]; intros Hff He Hfailed.
  - by apply elem_of_nil in He.
  - simpl in Hff. destruct (failed e0) eqn:H0.
    + destruct rest; [|done].
      apply list_elem_of_singleton in He as ->. done.
    + apply elem_of_cons in He as [->|He]; [congruence|].
      destruct rest as [|e1 rest']; [by apply elem_of_nil in He|].
      change (last (e0 :: e1 :: rest')) with (last (e1 :: rest')). auto.
Qed.

Lemma existsb_failed evs :
  existsb failed evs = true ↔ ∃ e, e ∈ evs ∧ failed e = true.
Proof.
  rewrite existsb_exists. split; intros (e & He & Hf); exists e;
    (split; [by apply list_elem_of_In|done]).
Qed.

Lemma increasing_last ns a n :
  increasing ns = true → last ns = Some a → n ∈ ns → (n ≤ a)%nat.
Proof.
  revert n. induction ns as [|x rest IH]; intros n Hinc Hlast Hn.
  - by apply elem_of_nil in Hn.
  - destruct rest as [|b rest'].
    + apply list_elem_of_singleton in Hn. simpl in Hlast. simplify_eq. lia.
    + simpl in Hinc. apply andb_true_iff in Hinc as [Hlt Hinc].
      apply Nat.ltb_lt in Hlt.
      change (last (x :: b :: rest')) with (last (b :: rest')) in Hlast.
      apply elem_of_cons in Hn as [->|Hn]; [|by apply IH].
      assert (b ≤ a)%nat by (apply IH; [done..|left]). lia.
Qed.

Lemma in_order_last evs e e' :
  in_order evs = true → last evs = Some e → e' ∈ evs →
  (rank (call e') ≤ rank (call e))%nat.
Proof.
  unfold in_order. intros Hinc Hlast He'.
  apply (increasing_last (rank ∘ call <$> evs)); [done| |].
  - by rewrite fmap_last, Hlast.
  - by apply (list_elem_of_fmap_2 (rank ∘ call)).
Qed.

Lemma obstacle_call_rank c : obstacle_call c = true → (7 ≤ rank c)%nat.
Proof. destruct c; simpl; (discriminate || lia). Qed.

Lemma update_then_Process3D_spec evs pre e post :
  update_then_Process3D evs = true →
  evs = pre ++ e :: post → call e = Calibration_Update →
  ∃ e' post', post = e' :: post' ∧ call e' = LanePostprocessor_Process3D.
Proof.
  revert evs. induction pre as [|x pre IH]; intros evs Hall -> Hcall.
  - simpl in Hall. rewrite Hcall in Hall.
    destruct post as [|e' post']; [done|].
    exists e', post'. split; [done|]. by destruct (call e').
  - simpl in Hall. apply andb_true_iff in Hall as [_ Hall]. by eapply IH.
Qed.

(** ** The protocol of [Perception] *)

(** The loops over object pointers: [wp_loop P] establishes [P] for every
    object the loop went over. *)
Ltac wp_loop P :=
  lazymatch goal with
  | |- wp (for_each _ _) _ _ =>
      apply (wp_for_each P); [|intros ?|intros ? ?]; wp_simpl
  end.

Ltac wp_run_through :=
  repeat first [wp_step | wp_loop (λ _ : base.Object, True); [done|..]].

(** Bring the new events of a leaf into the form of an explicit list. *)
Ltac new_events :=
  unfold events_since; rewrite <- ?app_assoc, drop_app_length;
  cbn [app].

(** Go through an explicit list of events, one obligation per event. *)
Ltac each_event tac :=
  repeat (apply List.Forall_cons; [cbn [call reported handed]; tac|]);
  try apply List.Forall_nil.

Section perception.

Context {Detector Tracker Transformer Postprocessor Extractor
         LaneDetector LanePostprocessor : Type}.
Context `{!BaseObstacleDetector.t Detector,
          !BaseObstacleTracker.t Tracker,
          !BaseObstacleTransformer.t Transformer,
          !BaseObstaclePostprocessor.t Postprocessor,
          !BaseFeatureExtractor.t Extractor,
          !BaseLaneDetector.t LaneDetector,
          !BaseLanePostprocessor.t LanePostprocessor}.
Context `{!Calibrator.t, !Platform.t, !Footprint.t}.

Implicit Types m : @Machine Detector Tracker Transformer Postprocessor
                            Extractor LaneDetector LanePostprocessor.

(** Every run makes its calls in the order of the text, stops at the first
    stage that reports failure, and returns [false] exactly then. *)
Lemma Perception_protocol options frame m r m' :
  Perception options frame m = (r, m') →
  let evs := events_since (trace m) (trace m') in
  trace m' = trace m ++ evs ∧
  in_order evs = true ∧
  fail_fast evs = true ∧
  existsb failed evs = returned_false r.
Proof.
  apply (wp_run _ (λ r m',
    let evs := events_since (trace m) (trace m') in
    trace m' = trace m ++ evs ∧ in_order evs = true ∧
    fail_fast evs = true ∧ existsb failed evs = returned_false r)).
  unfold Perception, Perception_lane, Perception_obstacle.
  wp_run_through.
  all: new_events; repeat split; reflexivity.
Qed.

(** Claim C9.  In every run of [Perception], every call of the obstacle
    postprocessor is handed [do_refinement_with_calibration_service = true]:
    the flag is [frame->calibration_service != nullptr], and a frame with a
    null calibration service was stopped by the [CHECK] at the start. *)
Theorem postprocessor_always_refines_with_calibration_service
    options frame m r m' :
  Perception options frame m = (r, m') →
  ∀ e o, e ∈ events_since (trace m) (trace m') →
         call e = Postprocessor_Process o →
         do_refinement_with_calibration_service o = true.
Proof.
  intros Hrun e o He.
  cut (Forall (λ e, ∀ o, call e = Postprocessor_Process o →
                         do_refinement_with_calibration_service o = true)
              (events_since (trace m) (trace m'))).
  { intros HF. exact (proj1 (Forall_forall _ _) HF e He o). }
  clear e o He. revert Hrun.
  apply (wp_run _ (λ r m',
    Forall (λ e, ∀ o, call e = Postprocessor_Process o →
                      do_refinement_with_calibration_service o = true)
           (events_since (trace m) (trace m')))).
  unfold Perception, Perception_lane, Perception_obstacle.
  wp_run_through.
  all: new_events.
  all: repeat (apply List.Forall_cons;
               [cbn [call]; intros o Ho; try discriminate Ho|]);
       try apply List.Forall_nil.
  all: injection Ho as <-; done.
Qed.

(** Claim C6.  Whenever [Perception] calls the 2D association, every pointer
    of the frame's [detected_objects] it hands over points to an object whose
    camera supplement carries the sensor name of the frame. *)
Theorem detections_are_stamped_before_association options frame m r m' :
  Perception options frame m = (r, m') →
  ∀ e, e ∈ events_since (trace m) (trace m') →
       call e = Tracker_Associate2D →
       ∃ frame_handed objs,
         handed e = Some (frame_handed, objs) ∧
         data_provider frame_handed = data_provider frame ∧
         ∀ p, p ∈ detected_objects (populated frame_handed) →
              ∃ obj, objs !! p = Some obj ∧
                     base.sensor_name (base.camera_supplement obj) =
                       sensor_name (data_provider frame).
Proof.
  intros Hrun e He.
  cut (Forall (λ e, call e = Tracker_Associate2D →
         ∃ frame_handed objs,
           handed e = Some (frame_handed, objs) ∧
           data_provider frame_handed = data_provider frame ∧
           ∀ p, p ∈ detected_objects (populated frame_handed) →
                ∃ obj, objs !! p = Some obj ∧
                       base.sensor_name (base.camera_supplement obj) =
                         sensor_name (data_provider frame))
         (events_since (trace m) (trace m'))).
  { intros HF. exact (proj1 (Forall_forall _ _) HF e He). }
  clear e He. revert Hrun.
  apply (wp_run _ (λ r m', Forall _ (events_since (trace m) (trace m')))).
  unfold Perception, Perception_lane, Perception_obstacle.
  repeat wp_step.
  all: try wp_loop (λ obj, base.sensor_name (base.camera_supplement obj) =
                           sensor_name (data_provider frame)).
  all: try done.
  all: wp_run_through.
  all: new_events.
  all: each_event ltac:(intros Hcall; try discriminate Hcall).
  all: eexists _, _; split; [reflexivity|]; split; [reflexivity|]; assumption.
Qed.

(** Claim C5.  After a run of [Perception] that returns [true], every
    pointer in the frame's [tracked_objects] points to an object whose
    anchor point equals its center and whose polygon is not empty.  The
    polygon is the one [FillObjectPolygonFromBBox3D], modelled from the spec,
    writes. *)
Theorem tracked_objects_are_anchored_at_their_center
    options frame m frame' m' :
  Perception options frame m = (Val frame', m') →
  ∀ p, p ∈ tracked_objects (populated frame') →
       ∃ obj, objects m' !! p = Some obj ∧
              base.anchor_point obj = base.center obj ∧
              base.polygon obj ≠ [].
Proof.
  revert frame'.
  cut (∀ r, Perception options frame m = (r, m') →
            ∀ frame', r = Val frame' →
            ∀ p, p ∈ tracked_objects (populated frame') →
                 ∃ obj, objects m' !! p = Some obj ∧
                        base.anchor_point obj = base.center obj ∧
                        base.polygon obj ≠ []).
  { intros Hcut frame' Hrun. by apply (Hcut _ Hrun). }
  intros r. revert r m'.
  intros r m'.
  apply (wp_run _ (λ r m', ∀ frame', r = Val frame' →
            ∀ p, p ∈ tracked_objects (populated frame') →
                 ∃ obj, objects m' !! p = Some obj ∧
                        base.anchor_point obj = base.center obj ∧
                        base.polygon obj ≠ [])).
  unfold Perception, Perception_lane, Perception_obstacle.
  repeat wp_step.
  all: try wp_loop (λ _ : base.Object, True).
  all: try done.
  all: repeat wp_step.
  all: try wp_loop (λ obj, base.anchor_point obj = base.center obj ∧
                           base.polygon obj ≠ []).
  all: try done.
  all: repeat wp_step.
  all: intros frame' Hval; try discriminate Hval.
  all: injection Hval as <-; assumption.
Qed.

(** A stage that reports failure ends the run with [return false]. *)
Lemma Perception_stage_failure options frame m r m' e :
  Perception options frame m = (r, m') →
  e ∈ events_since (trace m) (trace m') →
  failed e = true →
  r = Stop (Return false) ∧ last (events_since (trace m) (trace m')) = Some e.
Proof.
  intros Hrun He Hfailed.
  destruct (Perception_protocol _ _ _ _ _ Hrun) as (_ & _ & Hff & Hex).
  split; [|by apply fail_fast_last].
  assert (Hr : returned_false r = true).
  { rewrite <- Hex. apply existsb_failed. eauto. }
  destruct r as [|[[]| | |]]; done.
Qed.

Lemma Perception_return_false options frame m m' :
  Perception options frame m = (Stop (Return false), m') →
  ∃ e, last (events_since (trace m) (trace m')) = Some e ∧ failed e = true.
Proof.
  intros Hrun.
  destruct (Perception_protocol _ _ _ _ _ Hrun) as (_ & _ & Hff & Hex).
  apply existsb_failed in Hex as (e & He & Hfailed).
  exists e. split; [by apply fail_fast_last|done].
Qed.

(** Claim C2.  For a frame of the calibration working sensor, when the lane
    detection reports failure [Perception] returns [false], the lane
    detection is the last call of the run, and no obstacle stage (tracker
    prediction, detection, extraction, association, transform,
    postprocessing, tracking) is called in it. *)
Theorem lane_detection_failure_precedes_obstacle_stages
    options frame m r m' :
  Perception options frame m = (r, m') →
  sensor_name (data_provider frame) =
    lane_calibration_working_sensor_name_ (this m) →
  ∀ e, e ∈ events_since (trace m) (trace m') →
       call e = LaneDetector_Detect →
       reported e = Some false →
       r = Stop (Return false) ∧
       last (events_since (trace m) (trace m')) = Some e ∧
       Forall (λ e', obstacle_call (call e') = false)
              (events_since (trace m) (trace m')).
Proof.
  intros Hrun _ e He Hcall Hreported.
  assert (Hfailed : failed e = true).
  { apply failed_spec. by rewrite Hcall. }
  destruct (Perception_stage_failure _ _ _ _ _ _ Hrun He Hfailed)
    as [-> Hlast].
  split; [done|]. split; [done|].
  destruct (Perception_protocol _ _ _ _ _ Hrun) as (_ & Horder & _).
  apply Forall_forall. intros e' He'.
  pose proof (in_order_last _ _ _ Horder Hlast He') as Hrank.
  rewrite Hcall in Hrank. simpl in Hrank.
  destruct (obstacle_call (call e')) eqn:Hobstacle; [|done].
  apply obstacle_call_rank in Hobstacle. lia.
Qed.

Lemma CalibrationService_Update_other_sensor svc frame :
  sensor_name (data_provider frame) ≠
    CalibrationServiceInitOptions.calibrator_working_sensor_name
      (init_options svc) →
  (CalibrationService_Update svc frame).1 = svc.
Proof. intros Hne. unfold CalibrationService_Update. by case_decide. Qed.

(** Claim C1.  For a frame whose sensor differs from the calibration working
    sensor, [Perception] calls none of the lane stages; the corrected
    geometry of every calibration service is the same after the run as
    before it; and, when the frame passes the two entry guards (its sensor
    has intrinsics, its calibration service is live), the calibration update
    is the first call after the device binding and the only update of the
    run.  The calibration service is the one modelled from the spec, set up
    for the working sensor of this pipeline, as [Init] leaves it. *)
Theorem other_sensor_skips_lane_stages options frame m r m' :
  Perception options frame m = (r, m') →
  sensor_name (data_provider frame) ≠
    lane_calibration_working_sensor_name_ (this m) →
  (∀ l svc, calibration_service frame = Some l →
            services m !! l = Some svc →
            CalibrationServiceInitOptions.calibrator_working_sensor_name
              (init_options svc) =
              lane_calibration_working_sensor_name_ (this m)) →
  let evs := events_since (trace m) (trace m') in
  Forall (λ e, lane_call (call e) = false) evs ∧
  (∀ l, geometry <$> services m' !! l = geometry <$> services m !! l) ∧
  (is_Some (name_intrinsic_map_ (this m) !! sensor_name (data_provider frame)) →
   (∃ l, calibration_service frame = Some l ∧ is_Some (services m !! l)) →
   ∃ e0 e1 rest,
     evs = e0 :: e1 :: rest ∧
     call e0 = CudaUtil_set_device_id (app.gpu_id (perception_param_ (this m))) ∧
     call e1 = Calibration_Update ∧
     Forall (λ e, call e ≠ Calibration_Update) rest).
Proof.
  intros Hrun Hother Hservice. revert Hrun.
  apply (wp_run _ (λ r m',
    let evs := events_since (trace m) (trace m') in
    Forall (λ e, lane_call (call e) = false) evs ∧
    (∀ l, geometry <$> services m' !! l = geometry <$> services m !! l) ∧
    (is_Some (name_intrinsic_map_ (this m) !! sensor_name (data_provider frame)) →
     (∃ l, calibration_service frame = Some l ∧ is_Some (services m !! l)) →
     ∃ e0 e1 rest,
       evs = e0 :: e1 :: rest ∧
       call e0 = CudaUtil_set_device_id (app.gpu_id (perception_param_ (this m))) ∧
       call e1 = Calibration_Update ∧
       Forall (λ e, call e ≠ Calibration_Update) rest))).
  unfold Perception, Perception_obstacle.
  repeat (first [wp_step | wp_loop (λ _ : base.Object, True); [done|..]];
          try (exfalso;
               match goal with
               | Hb : bool_decide (_ = _) = true |- _ =>
                   apply bool_decide_eq_true in Hb; congruence
               end)).
  all: new_events.
  all: split; [each_event ltac:(reflexivity)|split].
  all: try (intros l0; reflexivity).
  all: try (intros l0;
            rewrite CalibrationService_Update_other_sensor;
            [ by rewrite insert_id
            | cbn [data_provider set_camera_k_matrix set_populated];
              by erewrite Hservice by eassumption ]).
  all: intros Hknown (l0 & Hl0 & Hlive).
  all: try (first
         [ eexists _, _, _; split; [reflexivity|];
           split; [reflexivity|]; split; [reflexivity|];
           each_event ltac:(discriminate)
         | exfalso; wp_simpl_all;
           destruct Hknown, Hlive;
           repeat match goal with
                  | Hb : bool_decide _ = false |- _ =>
                      apply bool_decide_eq_false in Hb
                  end;
           first [ congruence
                 | match goal with Hn : ¬ _ |- _ => apply Hn; congruence end ] ]).
Qed.


(** Claim C3.  For a frame whose sensor has no entry in the sensor to
    intrinsics map, [Perception] ends with the [std::out_of_range] of
    [std::map::at] before any stage is called, the pipeline object and both
    heaps being left as they were; a run in which a stage reports failure
    ends with [return false], a different outcome. *)
Theorem unknown_sensor_is_rejected_at_frame_start options frame m :
  name_intrinsic_map_ (this m) !! sensor_name (data_provider frame) = None →
  let run := Perception options frame m in
  run.1 = Stop Throw_out_of_range ∧
  Forall (λ e, stage_call (call e) = false)
         (events_since (trace m) (trace run.2)) ∧
  this run.2 = this m ∧ services run.2 = services m ∧
  objects run.2 = objects m ∧
  ∀ frame' m0 r' m0' e,
    Perception options frame' m0 = (r', m0') →
    e ∈ events_since (trace m0) (trace m0') →
    failed e = true →
    r' = Stop (Return false) ∧ r' ≠ run.1.
Proof.
  intros Hunknown.
  assert (Hrun : Perception options frame m =
    (Stop Throw_out_of_range,
     {| this := this m; services := services m; objects := objects m;
        trace := trace m ++
          [{| call := CudaUtil_set_device_id
                        (app.gpu_id (perception_param_ (this m)));
              handed := None;
              reported := Some (Platform.set_device_id
                                  (app.gpu_id (perception_param_ (this m)))) |}]
     |})).
  { unfold Perception, bind, get_this, log, at_. simpl.
    by rewrite Hunknown. }
  simpl. rewrite Hrun. simpl. split; [done|]. split.
  { new_events. each_event ltac:(reflexivity). }
  do 3 (split; [done|]).
  intros frame' m0 r' m0' e Hrun' He Hfailed.
  destruct (Perception_stage_failure _ _ _ _ _ _ Hrun' He Hfailed) as [-> _].
  done.
Qed.

(** With no extractor, no extraction is attempted and the pipeline stays
    without one. *)
Lemma Perception_without_extractor options frame m r m' :
  Perception options frame m = (r, m') →
  extractor_ (this m) = None →
  extractor_ (this m') = None ∧
  Forall (λ e, call e ≠ Extractor_Extract)
         (events_since (trace m) (trace m')).
Proof.
  intros Hrun Hnone. revert Hrun.
  apply (wp_run _ (λ r m',
    extractor_ (this m') = None ∧
    Forall (λ e, call e ≠ Extractor_Extract)
           (events_since (trace m) (trace m')))).
  unfold Perception, Perception_lane, Perception_obstacle.
  repeat (first [wp_step | wp_loop (λ _ : base.Object, True); [done|..]];
          try congruence).
  all: new_events; (split; [done|]); each_event ltac:(discriminate).
Qed.

(** With an extractor, a run that returns [true] has run the extraction. *)
Lemma Perception_with_extractor options frame m frame' m' :
  Perception options frame m = (Val frame', m') →
  is_Some (extractor_ (this m)) →
  ∃ e, e ∈ events_since (trace m) (trace m') ∧
       call e = Extractor_Extract ∧ reported e = Some true.
Proof.
  intros Hrun [x Hx].
  pose (extracted := λ e : Event,
          match call e, reported e with
          | Extractor_Extract, Some true => true
          | _, _ => false
          end).
  cut (existsb extracted (events_since (trace m) (trace m')) = true).
  { intros (e & He & Hextracted)%existsb_exists.
    exists e. split; [by apply list_elem_of_In|].
    unfold extracted in Hextracted.
    by destruct (call e), (reported e) as [[]|]. }
  cut (∀ r, Perception options frame m = (r, m') → r = Val frame' →
            existsb extracted (events_since (trace m) (trace m')) = true).
  { intros Hcut. by apply (Hcut _ Hrun). }
  clear Hrun. intros r Hrun. revert Hrun.
  apply (wp_run _ (λ r m', r = Val frame' →
    existsb extracted (events_since (trace m) (trace m')) = true)).
  unfold Perception, Perception_lane, Perception_obstacle.
  repeat (first [wp_step | wp_loop (λ _ : base.Object, True); [done|..]];
          try congruence).
  all: intros Hval; try discriminate Hval.
  all: new_events; reflexivity.
Qed.

(** In the lane branch the calibration update reports nothing and the lane
    3D postprocessing is called right after it. *)
Lemma Perception_update_in_lane_branch options frame m r m' :
  Perception options frame m = (r, m') →
  sensor_name (data_provider frame) =
    lane_calibration_working_sensor_name_ (this m) →
  update_then_Process3D (events_since (trace m) (trace m')) = true ∧
  forallb unreported_update (events_since (trace m) (trace m')) = true.
Proof.
  intros Hrun Hsame. revert Hrun.
  apply (wp_run _ (λ r m',
    update_then_Process3D (events_since (trace m) (trace m')) = true ∧
    forallb unreported_update (events_since (trace m) (trace m')) = true)).
  unfold Perception, Perception_lane, Perception_obstacle.
  repeat (first [wp_step | wp_loop (λ _ : base.Object, True); [done|..]];
          try congruence;
          try (exfalso;
               match goal with
               | Hb : bool_decide (_ = _) = false |- _ =>
                   apply bool_decide_eq_false in Hb; congruence
               end)).
  all: new_events; split; reflexivity.
Qed.

End perception.

(** ** [Init] *)

Section init.

Context {Detector Tracker Transformer Postprocessor Extractor
         LaneDetector LanePostprocessor : Type}.
Context `{!BaseObstacleDetector.t Detector,
          !BaseObstacleTracker.t Tracker,
          !BaseObstacleTransformer.t Transformer,
          !BaseObstaclePostprocessor.t Postprocessor,
          !BaseFeatureExtractor.t Extractor,
          !BaseLaneDetector.t LaneDetector,
          !BaseLanePostprocessor.t LanePostprocessor}.
Context `{!Calibrator.t, !Platform.t, !Footprint.t}.

Implicit Types m : @Machine Detector Tracker Transformer Postprocessor
                            Extractor LaneDetector LanePostprocessor.

Lemma last_model_last params model detector_param :
  last params = Some detector_param →
  last_model params model =
    Platform.GetUndistortCameraModel (app.camera_name detector_param).
Proof.
  intros (init & ->)%last_Some. unfold last_model. by rewrite foldl_app.
Qed.

(** The loop over the detector parameters appends detector initializations
    only and hands back the camera model of the last iteration. *)
Lemma wp_Init_detectors work_root gpu params model Q m :
  (∀ e m1 evs, trace m1 = trace m ++ evs →
               Forall (λ e, detector_init_call (call e) = true) evs →
               Q (Stop e) m1) →
  (∀ m1 evs, trace m1 = trace m ++ evs →
             Forall (λ e, detector_init_call (call e) = true) evs →
             Q (Val (last_model params model)) m1) →
  wp (Init_detectors work_root gpu params model) Q m.
Proof.
  revert model m. induction params as [|detector_param rest IH];
    intros model m Hstop Hval.
  - simpl. apply wp_ret. apply (Hval m []); [by rewrite app_nil_r|done].
  - simpl. repeat wp_step.
    all: try (eapply (Hstop _ _ []); [by rewrite app_nil_r|done]).
    + eapply (Hstop _ _ [_]); [done|]. by repeat constructor.
    + apply IH.
      * intros e m1 evs Htrace Hevs. eapply (Hstop _ _ (_ :: evs)).
        { rewrite Htrace. cbn [trace]. by rewrite <- app_assoc. }
        by constructor.
      * intros m1 evs Htrace Hevs. eapply (Hval _ (_ :: evs)).
        { rewrite Htrace. cbn [trace]. by rewrite <- app_assoc. }
        by constructor.
Qed.

Ltac wp_step_init :=
  first
    [ wp_step
    | lazymatch goal with
      | |- wp (Init_detectors _ _ _ _) _ _ =>
          apply wp_Init_detectors;
          [intros ? ? ? ? ?|intros ? ? ? ?]; wp_simpl
      end ].

(** Bring the new events of a leaf of [Init] into the form of a list. *)
Ltac init_events :=
  wp_simpl_all;
  repeat match goal with
         | Ht : trace ?m1 = _ |- _ => rewrite Ht; clear Ht
         end;
  unfold events_since; rewrite <- ?app_assoc;
  first [rewrite drop_app_length | rewrite drop_all];
  cbn [app].

(** What the checks before the tracker block establish. *)
Lemma last_camera_resolved options camera :
  bool_decide (is_Some (Platform.GetProtoFromFile (Init_config_file options)))
    = true →
  bool_decide
    (0 < length (app.detector_param
                   (default app.PerceptionParam_default
                      (Platform.GetProtoFromFile (Init_config_file options)))))%nat
    = true →
  last_model
    (app.detector_param
       (default app.PerceptionParam_default
          (Platform.GetProtoFromFile (Init_config_file options)))) None
    = Some camera →
  ∃ param detector_param,
    Platform.GetProtoFromFile (Init_config_file options) = Some param ∧
    last (app.detector_param param) = Some detector_param ∧
    Platform.GetUndistortCameraModel (app.camera_name detector_param) =
      Some camera.
Proof.
  intros [param Hparam]%bool_decide_eq_true Hlen%bool_decide_eq_true Hmodel.
  rewrite Hparam in Hlen, Hmodel. simpl in Hlen, Hmodel.
  destruct (last (app.detector_param param)) as [detector_param|] eqn:Hlast.
  - exists param, detector_param. split; [done|]. split; [done|].
    by rewrite <- (last_model_last (app.detector_param param) None).
  - apply last_None in Hlast. rewrite Hlast in Hlen. simpl in Hlen. lia.
Qed.

(** Claim C8.  Every initialization of the tracker that [Init] makes is
    handed the image width and height of the camera model resolved for the
    last entry of [detector_param], and an [Init] that returns [true] has
    initialized the tracker. *)
Theorem tracker_is_sized_by_the_last_camera options m r m' :
  Init options m = (r, m') →
  (∀ e o, e ∈ events_since (trace m) (trace m') →
     call e = Tracker_Init o →
     ∃ param detector_param camera,
       Platform.GetProtoFromFile (Init_config_file options) = Some param ∧
       last (app.detector_param param) = Some detector_param ∧
       Platform.GetUndistortCameraModel (app.camera_name detector_param) =
         Some camera ∧
       ObstacleTrackerInitOptions.image_width o = base.get_width camera ∧
       ObstacleTrackerInitOptions.image_height o = base.get_height camera) ∧
  (r = Val tt →
   is_Some (tracker_ (this m')) ∧
   ∃ e o, e ∈ events_since (trace m) (trace m') ∧
          call e = Tracker_Init o ∧ reported e = Some true).
Proof.
  intros Hrun.
  cut (Forall (λ e, ∀ o, call e = Tracker_Init o →
     ∃ param detector_param camera,
       Platform.GetProtoFromFile (Init_config_file options) = Some param ∧
       last (app.detector_param param) = Some detector_param ∧
       Platform.GetUndistortCameraModel (app.camera_name detector_param) =
         Some camera ∧
       ObstacleTrackerInitOptions.image_width o = base.get_width camera ∧
       ObstacleTrackerInitOptions.image_height o = base.get_height camera)
     (events_since (trace m) (trace m')) ∧
  (r = Val tt →
   is_Some (tracker_ (this m')) ∧
   ∃ e o, e ∈ events_since (trace m) (trace m') ∧
          call e = Tracker_Init o ∧ reported e = Some true)).
  { intros [HF Hok]. split; [|done].
    intros e o He. exact (proj1 (Forall_forall _ _) HF e He o). }
  revert Hrun.
  apply (wp_run _ (λ r m',
  Forall (λ e, ∀ o, call e = Tracker_Init o →
     ∃ param detector_param camera,
       Platform.GetProtoFromFile (Init_config_file options) = Some param ∧
       last (app.detector_param param) = Some detector_param ∧
       Platform.GetUndistortCameraModel (app.camera_name detector_param) =
         Some camera ∧
       ObstacleTrackerInitOptions.image_width o = base.get_width camera ∧
       ObstacleTrackerInitOptions.image_height o = base.get_height camera)
     (events_since (trace m) (trace m')) ∧
  (r = Val tt →
   is_Some (tracker_ (this m')) ∧
   ∃ e o, e ∈ events_since (trace m) (trace m') ∧
          call e = Tracker_Init o ∧ reported e = Some true))).
  unfold Init, Init_feature_extractor, InitLane, InitCalibrationService.
  repeat wp_step_init.
  all: init_events.
  all: split;
    [ repeat first
        [ apply List.Forall_nil
        | apply List.Forall_cons;
          [cbn [call]; intros o Ho; try discriminate Ho|]
        | apply Forall_app_2;
          [ eapply Forall_impl; [eassumption|];
            intros ev Hev o Ho; cbv beta in Hev; by rewrite Ho in Hev |]
        | eapply Forall_impl; [eassumption|];
          intros ev Hev o Ho; cbv beta in Hev; by rewrite Ho in Hev ]
    | intros Hval; try discriminate Hval ].
  all: repeat match goal with
              | Ha : last_model ?l None = Some ?a,
                Hb : last_model ?l None = Some ?b |- _ =>
                  rewrite Ha in Hb; injection Hb as <-
              end.
  all: try (injection Ho as <-;
            edestruct last_camera_resolved
              as (param & detector_param & Hparam & Hlast & Hcamera);
            [eassumption..|];
            eexists param, detector_param, _;
            split; [exact Hparam|]; split; [exact Hlast|];
            split; [exact Hcamera|]; split; reflexivity).
  all: wp_simpl; split; [by eexists|].
  all: eexists _, _; split;
    [ apply list_elem_of_further, (proj2 (elem_of_app _ _ _)); right;
      apply list_elem_of_here
    | split; reflexivity ].
Qed.

(** Without a feature block the extractor step of [Init] cannot fail. *)
Lemma Init_feature_extractor_absent work_root param m :
  app.feature_param param = None →
  Init_feature_extractor work_root param m =
    (Val tt, {| this := set_extractor_ None (this m); services := services m;
                objects := objects m; trace := trace m |}).
Proof. intros Hnone. unfold Init_feature_extractor. by rewrite Hnone. Qed.

Lemma Init_without_feature_param options param m r m' :
  Platform.GetProtoFromFile (Init_config_file options) = Some param →
  app.feature_param param = None →
  Init options m = (r, m') →
  Forall (λ e, ∀ o, call e ≠ Extractor_Init o)
         (events_since (trace m) (trace m')) ∧
  (r = Val tt → extractor_ (this m') = None).
Proof.
  intros Hparam Hnone.
  apply (wp_run _ (λ r m',
    Forall (λ e, ∀ o, call e ≠ Extractor_Init o)
           (events_since (trace m) (trace m')) ∧
    (r = Val tt → extractor_ (this m') = None))).
  unfold Init, Init_feature_extractor, InitLane, InitCalibrationService.
  rewrite Hparam. cbn [default from_option id]. rewrite Hnone.
  repeat wp_step_init.
  all: init_events.
  all: split;
    [ repeat first
        [ apply List.Forall_nil
        | apply List.Forall_cons; [cbn [call]; intros o; discriminate|]
        | apply Forall_app_2;
          [ eapply Forall_impl; [eassumption|];
            intros ev Hev o Ho; cbv beta in Hev; by rewrite Ho in Hev |]
        | eapply Forall_impl; [eassumption|];
          intros ev Hev o Ho; cbv beta in Hev; by rewrite Ho in Hev ]
    | intros Hval; try discriminate Hval; reflexivity ].
Qed.

(** Claim C7.  With no feature-extractor block in the configuration, the
    extractor step of [Init] cannot fail and calls no plugin, and an [Init]
    that returns [true] leaves [extractor_] null.  With [extractor_] null,
    [Perception] never calls the extraction, leaves [extractor_] null, and
    returns [false] only when a stage that was called reported failure.
    With an extractor, an extraction that reports failure makes
    [Perception] return [false] at once, and a run that returns [true] has
    run the extraction. *)
Theorem missing_feature_extractor_is_skipped :
  (∀ work_root param m,
     app.feature_param param = None →
     Init_feature_extractor work_root param m =
       (Val tt, {| this := set_extractor_ None (this m);
                   services := services m; objects := objects m;
                   trace := trace m |})) ∧
  (∀ options param m r m',
     Platform.GetProtoFromFile (Init_config_file options) = Some param →
     app.feature_param param = None →
     Init options m = (r, m') →
     (∀ e o, e ∈ events_since (trace m) (trace m') →
             call e ≠ Extractor_Init o) ∧
     (r = Val tt → extractor_ (this m') = None)) ∧
  (∀ options frame m r m',
     extractor_ (this m) = None →
     Perception options frame m = (r, m') →
     extractor_ (this m') = None ∧
     (∀ e, e ∈ events_since (trace m) (trace m') →
           call e ≠ Extractor_Extract) ∧
     (r = Stop (Return false) →
      ∃ e, last (events_since (trace m) (trace m')) = Some e ∧
           failed e = true ∧ call e ≠ Extractor_Extract)) ∧
  (∀ options frame m r m' e,
     Perception options frame m = (r, m') →
     e ∈ events_since (trace m) (trace m') →
     call e = Extractor_Extract → reported e = Some false →
     r = Stop (Return false) ∧
     last (events_since (trace m) (trace m')) = Some e) ∧
  (∀ options frame m frame' m',
     is_Some (extractor_ (this m)) →
     Perception options frame m = (Val frame', m') →
     ∃ e, e ∈ events_since (trace m) (trace m') ∧
          call e = Extractor_Extract ∧ reported e = Some true).
Proof.
  split; [exact Init_feature_extractor_absent|].
  split.
  { intros options param m r m' Hparam Hnone Hrun.
    destruct (Init_without_feature_param _ _ _ _ _ Hparam Hnone Hrun)
      as [Hevents Hextractor].
    split; [|done]. intros e o He.
    exact (proj1 (Forall_forall _ _) Hevents e He o). }
  split.
  { intros options frame m r m' Hnone Hrun.
    destruct (Perception_without_extractor _ _ _ _ _ Hrun Hnone)
      as [Hstill Hevents].
    pose proof (proj1 (Forall_forall _ _) Hevents) as Hnever.
    split; [done|]. split; [done|].
    intros ->. destruct (Perception_return_false _ _ _ _ Hrun)
      as (e & Hlast & Hfailed).
    exists e. split; [done|]. split; [done|].
    apply Hnever. by apply last_Some_elem_of. }
  split.
  { intros options frame m r m' e Hrun He Hcall Hreported.
    apply (Perception_stage_failure _ _ _ _ _ _ Hrun He).
    apply failed_spec. by rewrite Hcall. }
  intros options frame m frame' m' Hsome Hrun.
  by apply (Perception_with_extractor _ _ _ _ _ Hrun).
Qed.

(** After a successful [Init] the service the pipeline owns is live and is
    configured with the pipeline's calibration working sensor. *)
Lemma Init_configures_calibration_service options m m' :
  Init options m = (Val tt, m') →
  ∃ l svc,
    calibration_service_ (this m') = Some l ∧
    services m' !! l = Some svc ∧
    CalibrationServiceInitOptions.calibrator_working_sensor_name
      (init_options svc) = lane_calibration_working_sensor_name_ (this m') ∧
    lane_calibration_working_sensor_name_ (this m') =
      lane_calibration_working_sensor_name options.
Proof.
  cut (∀ r, Init options m = (r, m') → r = Val tt →
    ∃ l svc,
      calibration_service_ (this m') = Some l ∧
      services m' !! l = Some svc ∧
      CalibrationServiceInitOptions.calibrator_working_sensor_name
        (init_options svc) = lane_calibration_working_sensor_name_ (this m') ∧
      lane_calibration_working_sensor_name_ (this m') =
        lane_calibration_working_sensor_name options).
  { intros Hcut Hrun. by apply (Hcut _ Hrun). }
  intros r.
  apply (wp_run _ (λ r m', r = Val tt →
    ∃ l svc,
      calibration_service_ (this m') = Some l ∧
      services m' !! l = Some svc ∧
      CalibrationServiceInitOptions.calibrator_working_sensor_name
        (init_options svc) = lane_calibration_working_sensor_name_ (this m') ∧
      lane_calibration_working_sensor_name_ (this m') =
        lane_calibration_working_sensor_name options)).
  unfold Init, Init_feature_extractor, InitLane, InitCalibrationService.
  repeat wp_step_init.
  all: intros Hval; try discriminate Hval.
  all: wp_simpl_all; eexists _, _; (split; [eassumption|]);
       split; [apply lookup_insert_eq|split; reflexivity].
Qed.

(** Claim C10.  [GetCalibrationService] returns [true] in every state and
    hands back [calibration_service_] as it is; on a pipeline object on which
    [Init] has not run, that is the null pointer. *)
Theorem GetCalibrationService_always_returns_true :
  (∀ m, GetCalibrationService m =
          (Val (calibration_service_ (this m), true), m)) ∧
  (∀ svcs objs evs,
     let m : @Machine Detector Tracker Transformer Postprocessor Extractor
                      LaneDetector LanePostprocessor :=
       {| this := ObstacleCameraPerception_new; services := svcs;
          objects := objs; trace := evs |} in
     GetCalibrationService m = (Val (None, true), m)).
Proof. split; reflexivity. Qed.

End init.

(** ** The lane sub-stages as failure points *)

Lemma Calibration_Update_is_no_failure_point :
  ¬ failure_point Calibration_Update.
Proof.
  intros (D & T & X & P & E & L & LP & ? & ? & ? & ? & ? & ? & ? & ? & ? & ?
          & options & frame & m & Hfalse & Hlast).
  simpl in Hfalse, Hlast.
  destruct (Perception options frame m) as [r m'] eqn:Hrun.
  simpl in Hfalse, Hlast. subst r.
  destruct (Perception_return_false _ _ _ _ Hrun) as (e & He & Hfailed).
  rewrite He in Hlast. simpl in Hlast. injection Hlast as Hcall.
  apply failed_spec in Hfailed as [Hchecked _].
  by rewrite Hcall in Hchecked.
Qed.

Lemma checked_stage_fails_the_frame c :
  checked_call c = true → fails_the_frame c.
Proof.
  intros Hchecked D T X P E L LP ? ? ? ? ? ? ? ? ? ? options frame m e.
  simpl. intros _ He Hcall Hreported.
  apply (Perception_stage_failure options frame m); [apply surjective_pairing|done|].
  apply failed_spec. by rewrite Hcall.
Qed.

Lemma checked_lane_substages_are_failure_points c :
  c ∈ checked_lane_substages → failure_point c.
Proof.
  unfold checked_lane_substages. rewrite !elem_of_cons, elem_of_nil.
  intros [->|[->|[->|[]]]].
  - exists Scenario.Script, Scenario.Script, Scenario.Script, Scenario.Script,
      Scenario.Script, Scenario.Script, Scenario.Script, _, _, _, _, _, _, _,
      _, _, _, Scenario.no_options, (Scenario.frame 1 "front_6mm"),
      Scenario.failing_lane_detector.
    split; vm_compute; reflexivity.
  - exists Scenario.Script, Scenario.Script, Scenario.Script, Scenario.Script,
      Scenario.Script, Scenario.Script, Scenario.Script, _, _, _, _, _, _, _,
      _, _, _, Scenario.no_options, (Scenario.frame 1 "front_6mm"),
      Scenario.failing_lane_2D.
    split; vm_compute; reflexivity.
  - exists Scenario.Script, Scenario.Script, Scenario.Script, Scenario.Script,
      Scenario.Script, Scenario.Script, Scenario.Script, _, _, _, _, _, _, _,
      _, _, _, Scenario.no_options, (Scenario.frame 1 "front_6mm"),
      Scenario.failing_lane_3D.
    split; vm_compute; reflexivity.
Qed.

(** Claim C4, as stated, fails: the calibration update is one of the four
    lane sub-stages and no run returns [false] right after it. *)
Lemma calibration_update_is_not_a_failure_point :
  ¬ each_lane_substage_is_a_failure_point.
Proof.
  intros Hclaim.
  destruct (Hclaim Calibration_Update) as [Hpoint _].
  { unfold lane_substages. do 2 apply list_elem_of_further.
    apply list_elem_of_here. }
  by apply Calibration_Update_is_no_failure_point.
Qed.

(** Claim C4, amended.  Lane detection, lane 2D postprocessing and lane 3D
    postprocessing are failure points: each has a run that returns [false]
    right after it, and in every run a failure it reports makes
    [Perception] return [false] with nothing called after it.  The
    calibration update between them is no failure point: its call reports
    no status and the lane 3D postprocessing is always the next call. *)
Theorem checked_lane_substages_fail_the_frame :
  (∀ c, c ∈ checked_lane_substages → failure_point c ∧ fails_the_frame c) ∧
  ¬ failure_point Calibration_Update ∧
  update_is_not_tested.
Proof.
  split.
  { intros c Hc. split; [by apply checked_lane_substages_are_failure_points|].
    apply checked_stage_fails_the_frame.
    revert Hc. unfold checked_lane_substages.
    rewrite !elem_of_cons, elem_of_nil. by intros [->|[->|[->|[]]]]. }
  split; [exact Calibration_Update_is_no_failure_point|].
  intros D T X P E L LP ? ? ? ? ? ? ? ? ? ? options frame m before e rest.
  simpl. intros Hsame Hevents Hcall.
  destruct (Perception_update_in_lane_branch options frame m _ _
              (surjective_pairing _) Hsame) as [Hnext Hunreported].
  split.
  - rewrite Hevents in Hunreported.
    rewrite forallb_app in Hunreported. simpl in Hunreported.
    apply andb_true_iff in Hunreported as [_ Hunreported].
    apply andb_true_iff in Hunreported as [Hunreported _].
    unfold unreported_update in Hunreported. rewrite Hcall in Hunreported.
    by destruct (reported e).
  - by apply (update_then_Process3D_spec _ before e rest Hnext).
Qed.

(** ** The claims on the concrete installation *)

Module Witness.

Import Scenario.

Ltac event n := apply (list_elem_of_lookup_2 _ n); vm_compute; reflexivity.

Lemma other_sensor_skips_lane_stages_witness :
  let run := Perception no_options (frame 2 "front_12mm") ready in
  Forall (λ e, lane_call (call e) = false) (events run) ∧
  (∀ l, geometry <$> services run.2 !! l = geometry <$> services ready !! l) ∧
  ∃ e0 e1 rest, events run = e0 :: e1 :: rest ∧ call e1 = Calibration_Update.
Proof.
  intros run.
  destruct (other_sensor_skips_lane_stages no_options (frame 2 "front_12mm")
              ready run.1 run.2 (surjective_pairing _))
    as (Hlane & Hgeometry & Hfirst).
  - vm_compute. discriminate.
  - intros l svc Hl Hsvc. vm_compute in Hl. injection Hl as <-.
    vm_compute in Hsvc. injection Hsvc as <-. vm_compute. reflexivity.
  - split; [exact Hlane|]. split; [exact Hgeometry|].
    destruct Hfirst as (e0 & e1 & rest & Hevents & _ & Hcall & _).
    + vm_compute. eexists. reflexivity.
    + exists 1%positive. split; [reflexivity|]. vm_compute. eexists. reflexivity.
    + exists e0, e1, rest. split; [exact Hevents|exact Hcall].
Defined.

Lemma lane_detection_failure_precedes_obstacle_stages_witness :
  let run := Perception no_options (frame 1 "front_6mm") failing_lane_detector in
  run.1 = Stop (Return false) ∧
  Forall (λ e, obstacle_call (call e) = false)
         (events_since (trace failing_lane_detector) (trace run.2)).
Proof.
  intros run.
  edestruct (lane_detection_failure_precedes_obstacle_stages no_options
               (frame 1 "front_6mm") failing_lane_detector run.1 run.2
               (surjective_pairing _))
    as (Hfalse & _ & Hnone).
  - vm_compute. reflexivity.
  - event 1%nat.
  - reflexivity.
  - reflexivity.
  - split; [exact Hfalse|exact Hnone].
Defined.

Lemma unknown_sensor_is_rejected_at_frame_start_witness :
  (Perception no_options (frame 3 "rear_6mm") ready).1 =
    Stop Throw_out_of_range.
Proof.
  refine (proj1 (unknown_sensor_is_rejected_at_frame_start no_options
                   (frame 3 "rear_6mm") ready _)).
  vm_compute. reflexivity.
Defined.

Lemma checked_lane_substages_fail_the_frame_witness :
  failure_point LaneDetector_Detect ∧ fails_the_frame LaneDetector_Detect.
Proof.
  apply (proj1 checked_lane_substages_fail_the_frame).
  apply list_elem_of_here.
Defined.

Lemma tracked_objects_are_anchored_at_their_center_witness :
  let run := Perception no_options (frame 1 "front_6mm") ready in
  ∃ obj, objects run.2 !! 1%positive = Some obj ∧
         base.anchor_point obj = base.center obj ∧ base.polygon obj ≠ [].
Proof.
  intros run.
  eapply (tracked_objects_are_anchored_at_their_center no_options
            (frame 1 "front_6mm") ready _ run.2).
  - vm_compute. reflexivity.
  - vm_compute. apply list_elem_of_here.
Defined.

Lemma detections_are_stamped_before_association_witness :
  let run := Perception no_options (frame 1 "front_6mm") ready in
  ∃ e frame_handed objs,
    e ∈ events run ∧ call e = Tracker_Associate2D ∧
    handed e = Some (frame_handed, objs) ∧
    ∀ p, p ∈ detected_objects (populated frame_handed) →
         ∃ obj, objs !! p = Some obj ∧
                base.sensor_name (base.camera_supplement obj) = "front_6mm".
Proof.
  intros run.
  cut (∃ e, e ∈ events run ∧ call e = Tracker_Associate2D).
  { intros (e & He & Hcall).
    destruct (detections_are_stamped_before_association no_options
                (frame 1 "front_6mm") ready run.1 run.2
                (surjective_pairing _) e He Hcall)
      as (frame_handed & objs & Hhanded & _ & Hstamped).
    exists e, frame_handed, objs.
    split; [exact He|]. split; [exact Hcall|]. split; [exact Hhanded|].
    exact Hstamped. }
  eexists. split; [event 11%nat|reflexivity].
Defined.

Lemma missing_feature_extractor_is_skipped_witness :
  let init := Init options fresh_machine in
  let run := Perception no_options (frame 1 "front_6mm") ready in
  let bad := Perception no_options (frame 1 "front_6mm") failing_extractor in
  init.1 = Val tt ∧ extractor_ (this init.2) = None ∧
  outcome run.1 = Return true ∧
  (∀ e, e ∈ events run → call e ≠ Extractor_Extract) ∧
  bad.1 = Stop (Return false).
Proof.
  intros init run bad.
  destruct (@missing_feature_extractor_is_skipped
              Script Script Script Script Script Script Script
              _ _ _ _ _ _ _ _ _ _)
    as (_ & Hinit & Hskip & Hfail & _).
  split; [vm_compute; reflexivity|]. split.
  { refine (proj2 (Hinit options perception_param fresh_machine init.1 init.2
                     _ _ (surjective_pairing _)) _).
    - vm_compute. reflexivity.
    - reflexivity.
    - vm_compute. reflexivity. }
  split; [vm_compute; reflexivity|]. split.
  { refine (proj1 (proj2 (Hskip no_options (frame 1 "front_6mm") ready
                            run.1 run.2 _ (surjective_pairing _)))).
    vm_compute. reflexivity. }
  eapply proj1, (Hfail no_options (frame 1 "front_6mm") failing_extractor
                   bad.1 bad.2).
  - apply surjective_pairing.
  - event 10%nat.
  - reflexivity.
  - reflexivity.
Defined.

Lemma tracker_is_sized_by_the_last_camera_witness :
  let init := Init options fresh_machine in
  ∃ e o, e ∈ events_since (trace fresh_machine) (trace init.2) ∧
         call e = Tracker_Init o ∧
         ObstacleTrackerInitOptions.image_width o = 1280%Z ∧
         ObstacleTrackerInitOptions.image_height o = 720%Z.
Proof.
  intros init.
  cut (∃ e o, e ∈ events_since (trace fresh_machine) (trace init.2) ∧
              call e = Tracker_Init o).
  { intros (e & o & He & Hcall).
    destruct (proj1 (tracker_is_sized_by_the_last_camera options
                       fresh_machine init.1 init.2 (surjective_pairing _))
                    e o He Hcall)
      as (param & detector_param & camera & Hparam & Hlast & Hcamera
          & Hwidth & Hheight).
    vm_compute in Hparam. injection Hparam as <-.
    vm_compute in Hlast. injection Hlast as <-.
    vm_compute in Hcamera. injection Hcamera as <-.
    exists e, o. split; [exact He|]. split; [exact Hcall|].
    split; [exact Hwidth|exact Hheight]. }
  eexists _, _. split; [event 3%nat|reflexivity].
Defined.

Lemma postprocessor_always_refines_with_calibration_service_witness :
  let run := Perception no_options (frame 1 "front_6mm") ready in
  ∃ e o, e ∈ events run ∧ call e = Postprocessor_Process o ∧
         do_refinement_with_calibration_service o = true.
Proof.
  intros run.
  cut (∃ e o, e ∈ events run ∧ call e = Postprocessor_Process o).
  { intros (e & o & He & Hcall). exists e, o.
    split; [exact He|]. split; [exact Hcall|].
    exact (postprocessor_always_refines_with_calibration_service no_options
             (frame 1 "front_6mm") ready run.1 run.2
             (surjective_pairing _) e o He Hcall). }
  eexists _, _. split; [event 13%nat|reflexivity].
Defined.

End Witness.

(** * Further properties of [Perception] and [Init] *)

(** * Further properties of the pipeline *)

Lemma increasing_lookup ns i j a b :
  increasing ns = true → (i < j)%nat →
  ns !! i = Some a → ns !! j = Some b → (a < b)%nat.
Proof.
  revert i j a. induction ns as [|x rest IH]; intros i j a Hinc Hij Hi Hj.
  - done.
  - destruct j as [|j]; [lia|]. simpl in Hj.
    assert (Hrest : increasing rest = true).
    { simpl in Hinc. destruct rest; [done|].
      by apply andb_true_iff in Hinc as [_ ?]. }
    destruct i as [|i].
    + simpl in Hi. injection Hi as ->.
      destruct rest as [|y rest']; [done|].
      simpl in Hinc. apply andb_true_iff in Hinc as [Hlt _].
      apply Nat.ltb_lt in Hlt.
      destruct j as [|j].
      * simpl in Hj. injection Hj as ->. done.
      * assert (y < b)%nat; [|lia].
        apply (IH 0%nat (S j) y); [done|lia|done|done].
    + simpl in Hi. apply (IH i j a); [done|lia|done|done].
Qed.

Section perception_extra.

Context {Detector Tracker Transformer Postprocessor Extractor
         LaneDetector LanePostprocessor : Type}.
Context `{!BaseObstacleDetector.t Detector,
          !BaseObstacleTracker.t Tracker,
          !BaseObstacleTransformer.t Transformer,
          !BaseObstaclePostprocessor.t Postprocessor,
          !BaseFeatureExtractor.t Extractor,
          !BaseLaneDetector.t LaneDetector,
          !BaseLanePostprocessor.t LanePostprocessor}.
Context `{!Calibrator.t, !Platform.t, !Footprint.t}.

Implicit Types m : @Machine Detector Tracker Transformer Postprocessor
                            Extractor LaneDetector LanePostprocessor.

(** Property X1.  [Perception] returns [false] exactly when one of the
    stage calls whose status it tests reported failure; such a call is the
    last call of the run; and a run only appends to the record of calls. *)
Theorem Perception_returns_false_exactly_on_stage_failure
    options frame m r m' :
  Perception options frame m = (r, m') →
  let evs := events_since (trace m) (trace m') in
  (r = Stop (Return false) ↔ ∃ e, e ∈ evs ∧ failed e = true) ∧
  (∀ e, e ∈ evs → failed e = true → last evs = Some e) ∧
  trace m' = trace m ++ evs.
Proof.
  intros Hrun evs.
  destruct (Perception_protocol _ _ _ _ _ Hrun) as (Htrace & _ & Hff & Hex).
  split; [|split; [|done]].
  - rewrite <- existsb_failed. fold evs in Hex. rewrite Hex.
    destruct r as [|[[]| | |]]; simpl; split; congruence.
  - intros e He Hfailed. by apply fail_fast_last.
Qed.

(** Property X2.  The calls of a run of [Perception] are made in the order
    of the program text: of two calls of one run, the later one stands
    further down in the text, so no call is made twice for one frame. *)
Theorem Perception_calls_follow_the_text options frame m r m' i j e e' :
  Perception options frame m = (r, m') →
  (i < j)%nat →
  events_since (trace m) (trace m') !! i = Some e →
  events_since (trace m) (trace m') !! j = Some e' →
  (rank (call e) < rank (call e'))%nat.
Proof.
  intros Hrun Hij Hi Hj.
  destruct (Perception_protocol _ _ _ _ _ Hrun) as (_ & Horder & _).
  unfold in_order in Horder.
  apply (increasing_lookup _ i j _ _ Horder Hij).
  - by rewrite list_lookup_fmap, Hi.
  - by rewrite list_lookup_fmap, Hj.
Qed.

(** Property X3.  A frame for which [Perception] returns [true] went
    through every stage, each exactly once and in this order: the three lane
    stages around the calibration update when the frame comes from the
    calibration working sensor, the calibration update alone otherwise; then
    prediction, detection by the detector of the frame's sensor, feature
    extraction when there is an extractor, 2D association, transformation,
    postprocessing with refinement by the calibration service, 3D
    association and tracking. *)
Theorem accepted_frame_went_through_every_stage options frame m frame' m' :
  Perception options frame m = (Val frame', m') →
  List.filter stage_call (call <$> events_since (trace m) (trace m')) =
    stages_of_an_accepted_frame
      (bool_decide (lane_calibration_working_sensor_name_ (this m) =
                    sensor_name (data_provider frame)))
      (sensor_name (data_provider frame))
      (bool_decide (is_Some (extractor_ (this m)))).
Proof.
  cut (∀ r, Perception options frame m = (r, m') → r = Val frame' →
    List.filter stage_call (call <$> events_since (trace m) (trace m')) =
    stages_of_an_accepted_frame
      (bool_decide (lane_calibration_working_sensor_name_ (this m) =
                    sensor_name (data_provider frame)))
      (sensor_name (data_provider frame))
      (bool_decide (is_Some (extractor_ (this m))))).
  { intros Hcut Hrun. by apply (Hcut _ Hrun). }
  intros r.
  apply (wp_run _ (λ r m', r = Val frame' →
    List.filter stage_call (call <$> events_since (trace m) (trace m')) =
    stages_of_an_accepted_frame
      (bool_decide (lane_calibration_working_sensor_name_ (this m) =
                    sensor_name (data_provider frame)))
      (sensor_name (data_provider frame))
      (bool_decide (is_Some (extractor_ (this m)))))).
  unfold Perception, Perception_lane, Perception_obstacle.
  repeat (first [wp_step | wp_loop (λ _ : base.Object, True); [done|..]];
          try congruence).
  all: intros Hval; try discriminate Hval.
  all: new_events.
  all: repeat match goal with
              | Hb : bool_decide _ = _ |- _ => rewrite Hb; clear Hb
              | Ho : extractor_ (this _) = _ |- _ => rewrite Ho; clear Ho
              end.
  all: reflexivity.
Qed.

(** Property X4.  A frame of a known sensor that carries no calibration
    service is refused by the [CHECK] at the start of [Perception]: no stage
    is called, and the pipeline, the calibration services and the objects
    are left as they were. *)
Theorem frame_without_calibration_service_is_refused options frame m :
  is_Some (name_intrinsic_map_ (this m) !! sensor_name (data_provider frame)) →
  calibration_service frame = None →
  let run := Perception options frame m in
  run.1 = Stop Check_failed ∧
  Forall (λ e, stage_call (call e) = false)
         (events_since (trace m) (trace run.2)) ∧
  this run.2 = this m ∧ services run.2 = services m ∧
  objects run.2 = objects m.
Proof.
  intros [k Hk] Hnull.
  assert (Hrun : Perception options frame m =
    (Stop Check_failed,
     {| this := this m; services := services m; objects := objects m;
        trace := trace m ++
          [{| call := CudaUtil_set_device_id
                        (app.gpu_id (perception_param_ (this m)));
              handed := None;
              reported := Some (Platform.set_device_id
                                  (app.gpu_id (perception_param_ (this m)))) |}]
     |})).
  { unfold Perception, bind, get_this, log, at_, CHECK. simpl.
    rewrite Hk. simpl. by rewrite Hnull. }
  simpl. rewrite Hrun. simpl. split; [done|]. split; [|done].
  new_events. each_event ltac:(reflexivity).
Qed.

(** Property X5.  Whatever its outcome, [Perception] leaves the
    configuration, the map of intrinsics, the set of cameras that have a
    detector, the calibration working sensor, the pointer to the calibration
    service and the set of live services as they were, and a pipeline whose
    plugins were all there still has them all. *)
Theorem Perception_keeps_the_pipeline options frame m r m' :
  Perception options frame m = (r, m') →
  perception_param_ (this m') = perception_param_ (this m) ∧
  name_intrinsic_map_ (this m') = name_intrinsic_map_ (this m) ∧
  dom (name_detector_map_ (this m')) = dom (name_detector_map_ (this m)) ∧
  lane_calibration_working_sensor_name_ (this m') =
    lane_calibration_working_sensor_name_ (this m) ∧
  calibration_service_ (this m') = calibration_service_ (this m) ∧
  dom (services m') = dom (services m) ∧
  (initialized (this m) → initialized (this m')).
Proof.
  apply (wp_run _ (λ r m',
    perception_param_ (this m') = perception_param_ (this m) ∧
    name_intrinsic_map_ (this m') = name_intrinsic_map_ (this m) ∧
    dom (name_detector_map_ (this m')) = dom (name_detector_map_ (this m)) ∧
    lane_calibration_working_sensor_name_ (this m') =
      lane_calibration_working_sensor_name_ (this m) ∧
    calibration_service_ (this m') = calibration_service_ (this m) ∧
    dom (services m') = dom (services m) ∧
    (initialized (this m) → initialized (this m')))).
  unfold Perception, Perception_lane, Perception_obstacle.
  repeat (first [wp_step | wp_loop (λ _ : base.Object, True); [done|..]];
          try congruence).
  all: wp_simpl_all.
  all: split; [reflexivity|]; split; [reflexivity|]; split;
         [try reflexivity; by apply dom_insert_lookup_L|];
       split; [reflexivity|]; split; [reflexivity|]; split;
         [try reflexivity; by apply dom_insert_lookup_L|].
  all: unfold initialized; wp_simpl; try done.
  all: intros (Htracker & Htransformer & Hpost & Hlane & Hlanepost & Hmap).
  all: repeat split; try done.
  all: intros sensor Hsensor; destruct (Hmap sensor Hsensor) as [d Hd].
  all: try (by exists d).
  all: match goal with
       | |- ∃ _, <[?k:=_]> _ !! _ = _ =>
           destruct (decide (k = sensor)) as [->|Hne];
           [ eexists; apply lookup_insert_eq
           | exists d; by rewrite lookup_insert_ne ]
       end.
Qed.

(** Property X6.  When every camera that has intrinsics also has an entry
    in the detector map, [std::out_of_range] leaves [Perception] only from
    the lookup of the intrinsics at the start of the frame: the sensor of the
    frame is not configured, and no stage has been called. *)
Theorem out_of_range_is_thrown_at_frame_start_only options frame m r m' :
  (∀ sensor, is_Some (name_intrinsic_map_ (this m) !! sensor) →
             is_Some (name_detector_map_ (this m) !! sensor)) →
  Perception options frame m = (r, m') →
  r = Stop Throw_out_of_range →
  name_intrinsic_map_ (this m) !! sensor_name (data_provider frame) = None ∧
  Forall (λ e, stage_call (call e) = false)
         (events_since (trace m) (trace m')).
Proof.
  intros Hkeys.
  apply (wp_run _ (λ r m', r = Stop Throw_out_of_range →
    name_intrinsic_map_ (this m) !! sensor_name (data_provider frame) = None ∧
    Forall (λ e, stage_call (call e) = false)
           (events_since (trace m) (trace m')))).
  unfold Perception, Perception_lane, Perception_obstacle.
  repeat (first [wp_step | wp_loop (λ _ : base.Object, True); [done|..]];
          try congruence).
  all: intros Hthrow; try discriminate Hthrow.
  all: try (split; [assumption|]; new_events; each_event ltac:(reflexivity)).
  all: exfalso;
       match goal with
       | Hk : name_intrinsic_map_ _ !! ?s = Some _,
         Hd : name_detector_map_ _ !! ?s = None |- _ =>
           destruct (Hkeys s) as [d Hsome]; [by eexists|]; congruence
       end.
Qed.

(** How [Perception] can end on a pipeline that has been initialized. *)
Lemma Perception_of_an_initialized_pipeline options frame m r m' :
  initialized (this m) →
  is_Some (name_intrinsic_map_ (this m) !! sensor_name (data_provider frame)) →
  (∃ l, calibration_service frame = Some l ∧ is_Some (services m !! l)) →
  Perception options frame m = (r, m') →
  (∃ frame', r = Val frame') ∨
  r = Stop (Return false) ∨
  (r = Stop Undefined_behaviour ∧
   ∃ e, last (events_since (trace m) (trace m')) = Some e ∧
        before_object_loop (call e) = true).
Proof.
  intros (Htracker & Htransformer & Hpost & Hlane & Hlanepost & Hmap)
         Hknown (l & Hl & Hlive).
  destruct (Hmap _ Hknown) as [d Hd].
  destruct Htracker as [? Htracker], Htransformer as [? Htransformer],
    Hpost as [? Hpost], Hlane as [? Hlane], Hlanepost as [? Hlanepost],
    Hknown as [? Hknown], Hlive as [? Hlive].
  apply (wp_run _ (λ r m',
    (∃ frame', r = Val frame') ∨
    r = Stop (Return false) ∨
    (r = Stop Undefined_behaviour ∧
     ∃ e, last (events_since (trace m) (trace m')) = Some e ∧
          before_object_loop (call e) = true))).
  unfold Perception, Perception_lane, Perception_obstacle.
  repeat (first [wp_step | wp_loop (λ _ : base.Object, True); [done|..]];
          try (exfalso; wp_simpl_all; congruence)).
  all: try (left; by eexists).
  all: try (right; left; reflexivity).
  all: try (right; right; split; [reflexivity|]; new_events;
            eexists; split; reflexivity).
  exfalso.
  match goal with
  | Hnull : _ |- _ => rewrite Hl in Hnull; done
  end.
Qed.

(** Property X7.  On a pipeline whose plugins are all there, a frame of a
    configured sensor that carries a live calibration service never makes
    [Perception] throw or fail a [CHECK]: the run returns [true], or returns
    [false], or dereferences an object pointer of the frame that points to
    no object, in one of the two loops over the objects of the frame, right
    after the debug output that precedes the loop. *)
Theorem failure_modes_of_an_initialized_pipeline options frame m r m' :
  initialized (this m) →
  is_Some (name_intrinsic_map_ (this m) !! sensor_name (data_provider frame)) →
  (∃ l, calibration_service frame = Some l ∧ is_Some (services m !! l)) →
  Perception options frame m = (r, m') →
  (∃ frame', r = Val frame') ∨
  r = Stop (Return false) ∨
  (r = Stop Undefined_behaviour ∧
   ∃ e, last (events_since (trace m) (trace m')) = Some e ∧
        before_object_loop (call e) = true).
Proof. exact (Perception_of_an_initialized_pipeline options frame m r m'). Qed.

(** Property X8.  [Perception] touches no detector but the one of the
    sensor of the frame, and no calibration service but the one the frame
    carries. *)
Theorem Perception_touches_only_what_the_frame_names options frame m r m' :
  Perception options frame m = (r, m') →
  (∀ sensor, sensor ≠ sensor_name (data_provider frame) →
     name_detector_map_ (this m') !! sensor =
       name_detector_map_ (this m) !! sensor) ∧
  (∀ l, calibration_service frame ≠ Some l →
     services m' !! l = services m !! l).
Proof.
  apply (wp_run _ (λ r m',
    (∀ sensor, sensor ≠ sensor_name (data_provider frame) →
       name_detector_map_ (this m') !! sensor =
         name_detector_map_ (this m) !! sensor) ∧
    (∀ l, calibration_service frame ≠ Some l →
       services m' !! l = services m !! l))).
  unfold Perception, Perception_lane, Perception_obstacle.
  repeat (first [wp_step | wp_loop (λ _ : base.Object, True); [done|..]];
          try congruence).
  all: wp_simpl_all.
  all: split;
    [ intros sensor Hsensor; rewrite ?lookup_insert_ne by done; reflexivity
    | intros l' Hl'; rewrite ?lookup_insert_ne by congruence; reflexivity ].
Qed.

(** Property X9.  When the configuration has no debug block, no output
    function is handed a set flag: [Perception] writes no lane, calibration
    or detection file. *)
Theorem without_a_debug_block_no_file_is_written options frame m r m' e :
  app.debug_param (perception_param_ (this m)) = None →
  Perception options frame m = (r, m') →
  e ∈ events_since (trace m) (trace m') →
  writes_a_file (call e) = false.
Proof.
  intros Hnone Hrun. revert e. apply Forall_forall. revert Hrun.
  apply (wp_run _ (λ r m',
    Forall (λ e, writes_a_file (call e) = false)
           (events_since (trace m) (trace m')))).
  unfold Perception, Perception_lane, Perception_obstacle.
  repeat (first [wp_step | wp_loop (λ _ : base.Object, True); [done|..]];
          try congruence).
  all: new_events; unfold app.has_debug_param, app.get_debug_param;
       rewrite ?Hnone.
  all: each_event ltac:(reflexivity).
Qed.

End perception_extra.

(** ** [std::map::insert] *)

Lemma map_insert_lookup_eq {V} k (v : V) (m : gmap string V) :
  is_Some (map_insert k v m !! k).
Proof.
  unfold map_insert. destruct (m !! k) eqn:E; [by rewrite E|].
  rewrite lookup_insert_eq. by eexists.
Qed.

Lemma map_insert_lookup_ne {V} k k' (v : V) (m : gmap string V) :
  k ≠ k' → map_insert k v m !! k' = m !! k'.
Proof.
  intros Hne. unfold map_insert. destruct (m !! k); [done|].
  by rewrite lookup_insert_ne.
Qed.

Lemma map_insert_keeps {V} k k' (v x : V) (m : gmap string V) :
  m !! k' = Some x → map_insert k v m !! k' = Some x.
Proof.
  intros Hx. unfold map_insert. destruct (m !! k) eqn:E; [done|].
  rewrite lookup_insert_ne; [done|]. intros ->. congruence.
Qed.

Lemma map_insert_fresh {V} k (v : V) (m : gmap string V) :
  m !! k = None → map_insert k v m !! k = Some v.
Proof. intros E. unfold map_insert. rewrite E. apply lookup_insert_eq. Qed.

Lemma dom_map_insert {V} k (v : V) (m : gmap string V) :
  dom (map_insert k v m) = {[k]} ∪ dom m.
Proof.
  unfold map_insert. destruct (m !! k) eqn:E; [|by rewrite dom_insert_L].
  apply elem_of_dom_2 in E. symmetry.
  by apply subseteq_union_1_L, singleton_subseteq_l.
Qed.

(** ** Runs that stop at the first failure *)

Lemma stops_at_first_failure_nil : stops_at_first_failure [].
Proof. intros e He. by apply elem_of_nil in He. Qed.

Lemma stops_at_first_failure_singleton e : stops_at_first_failure [e].
Proof. intros e' He' _. by apply list_elem_of_singleton in He' as ->. Qed.

Lemma stops_at_first_failure_app xs ys :
  Forall (λ e, reported e = Some true) xs →
  stops_at_first_failure ys → stops_at_first_failure (xs ++ ys).
Proof.
  intros Hxs Hys e He Hfalse. apply elem_of_app in He as [He|He].
  - pose proof (proj1 (Forall_forall _ _) Hxs e He) as Htrue.
    cbv beta in Htrue. congruence.
  - specialize (Hys e He Hfalse). destruct ys as [|y ys]; [done|].
    by rewrite last_app_cons, <- Hys.
Qed.

Lemma stops_at_first_failure_success xs :
  Forall (λ e, reported e = Some true) xs → stops_at_first_failure xs.
Proof.
  intros Hxs. rewrite <- (app_nil_r xs).
  by apply stops_at_first_failure_app, stops_at_first_failure_nil.
Qed.

Lemma stops_at_first_failure_cons x ys :
  reported x = Some true →
  stops_at_first_failure ys → stops_at_first_failure (x :: ys).
Proof.
  intros Hx. apply (stops_at_first_failure_app [x]). by constructor.
Qed.

Lemma detector_init_events_report_success `{!Platform.t} work_root gpu params :
  Forall (λ e, reported e = Some true)
         (detector_init_event work_root gpu <$> params).
Proof. apply Forall_fmap, Forall_true. done. Qed.

(** ** The map of intrinsics that the detector loop builds *)

Section intrinsics.
Context `{!Platform.t}.

Lemma insert_intrinsics_other intrinsics params k :
  k ∉ cameras params →
  foldl insert_intrinsics intrinsics params !! k = intrinsics !! k.
Proof.
  revert intrinsics. induction params as [|detector_param rest IH];
    intros intrinsics Hk; [done|].
  unfold cameras in Hk. simpl in Hk.
  apply not_elem_of_cons in Hk as [Hne Hrest].
  simpl. rewrite (IH _ Hrest). unfold insert_intrinsics.
  destruct (Platform.GetUndistortCameraModel _); [|done].
  by apply map_insert_lookup_ne.
Qed.

Lemma insert_intrinsics_keeps intrinsics params k v :
  intrinsics !! k = Some v →
  foldl insert_intrinsics intrinsics params !! k = Some v.
Proof.
  revert intrinsics. induction params as [|detector_param rest IH];
    intros intrinsics Hk; [done|].
  simpl. apply IH. unfold insert_intrinsics.
  destruct (Platform.GetUndistortCameraModel _); [|done].
  by apply map_insert_keeps.
Qed.

Lemma insert_intrinsics_new intrinsics params k :
  Forall (λ detector_param,
            is_Some (Platform.GetUndistortCameraModel
                       (app.camera_name detector_param))) params →
  k ∈ cameras params → intrinsics !! k = None →
  ∃ pinhole,
    Platform.GetUndistortCameraModel k = Some pinhole ∧
    foldl insert_intrinsics intrinsics params !! k =
      Some (base.get_intrinsic_params pinhole).
Proof.
  revert intrinsics. induction params as [|detector_param rest IH];
    intros intrinsics Hall Hk Hnone.
  { by apply elem_of_nil in Hk. }
  apply Forall_cons in Hall as [[pinhole Hmodel] Hrest].
  simpl. unfold insert_intrinsics at 2. rewrite Hmodel.
  destruct (decide (k = app.camera_name detector_param)) as [->|Hne].
  - exists pinhole. split; [done|].
    by apply insert_intrinsics_keeps, map_insert_fresh.
  - apply IH; [done| |by rewrite map_insert_lookup_ne].
    unfold cameras in Hk. simpl in Hk.
    by apply elem_of_cons in Hk as [->|Hk].
Qed.

Lemma insert_intrinsics_covers intrinsics params k :
  Forall (λ detector_param,
            is_Some (Platform.GetUndistortCameraModel
                       (app.camera_name detector_param))) params →
  k ∈ cameras params →
  is_Some (foldl insert_intrinsics intrinsics params !! k).
Proof.
  intros Hall Hk. destruct (intrinsics !! k) as [v|] eqn:Hv.
  - exists v. by apply insert_intrinsics_keeps.
  - destruct (insert_intrinsics_new _ _ _ Hall Hk Hv) as (? & _ & ->).
    by eexists.
Qed.

End intrinsics.

(** ** More about [Init] *)

Section init_extra.

Context {Detector Tracker Transformer Postprocessor Extractor
         LaneDetector LanePostprocessor : Type}.
Context `{!BaseObstacleDetector.t Detector,
          !BaseObstacleTracker.t Tracker,
          !BaseObstacleTransformer.t Transformer,
          !BaseObstaclePostprocessor.t Postprocessor,
          !BaseFeatureExtractor.t Extractor,
          !BaseLaneDetector.t LaneDetector,
          !BaseLanePostprocessor.t LanePostprocessor}.
Context `{!Calibrator.t, !Platform.t, !Footprint.t}.

Implicit Types m : @Machine Detector Tracker Transformer Postprocessor
                            Extractor LaneDetector LanePostprocessor.

(** The loop over the detector parameters, in full: how it can stop, and
    what it has done when it comes to its end. *)
Lemma wp_Init_detectors_full work_root gpu params model Q m :
  (∀ m1 initialized_ tail,
     trace m1 =
       trace m ++ (detector_init_event work_root gpu <$> initialized_) ++ tail →
     stops_at_first_failure tail →
     Forall (λ e, detector_init_call (call e) = true) tail →
     Q (Stop Check_failed) m1) →
  (∀ m1 initialized_ detector_param,
     trace m1 =
       trace m ++ (detector_init_event work_root gpu <$> initialized_) →
     detector_param ∈ params →
     Platform.GetUndistortCameraModel (app.camera_name detector_param)
       = None →
     Q (Stop Undefined_behaviour) m1) →
  (∀ m1 detectors,
     this m1 =
       set_name_intrinsic_map_
         (foldl insert_intrinsics (name_intrinsic_map_ (this m)) params)
         (set_name_detector_map_ detectors (this m)) →
     services m1 = services m →
     objects m1 = objects m →
     trace m1 = trace m ++ (detector_init_event work_root gpu <$> params) →
     Forall (λ detector_param,
               is_Some (Platform.GetUndistortCameraModel
                          (app.camera_name detector_param))) params →
     dom detectors =
       dom (name_detector_map_ (this m)) ∪ list_to_set (cameras params) →
     (∀ k, k ∈ cameras params → ∃ d, detectors !! k = Some (Some d)) →
     (∀ k, k ∉ cameras params →
           detectors !! k = name_detector_map_ (this m) !! k) →
     Q (Val (last_model params model)) m1) →
  wp (Init_detectors work_root gpu params model) Q m.
Proof.
  revert model m. induction params as [|detector_param rest IH];
    intros model m Hcheck Hnull Hval.
  - simpl. apply wp_ret.
    apply (Hval m (name_detector_map_ (this m))); try done.
    + by destruct (this m).
    + by rewrite app_nil_r.
    + unfold cameras. simpl. apply set_eq. intros k.
      rewrite elem_of_union, elem_of_empty. tauto.
    + intros k Hk. by apply elem_of_nil in Hk.
  - simpl. repeat wp_step.
    + apply (Hnull _ [] detector_param);
        [by rewrite app_nil_r|apply list_elem_of_here|done].
    + exfalso.
      destruct (map_insert_lookup_eq (app.camera_name detector_param)
                  (BaseObstacleDetector.GetInstanceByName
                     (app.name (app.plugin_param detector_param)))
                  (name_detector_map_ (this m))) as [? Hsome].
      congruence.
    + apply (Hcheck _ [] []);
        [by rewrite !app_nil_r|apply stops_at_first_failure_nil|done].
    + eapply (Hcheck _ [] [_]);
        [done|apply stops_at_first_failure_singleton|by repeat constructor].
    + apply IH.
      * intros m1 initialized_ tail Htrace Htail Hdetector.
        apply (Hcheck _ (detector_param :: initialized_) tail); [|done..].
        rewrite Htrace. cbn [trace]. by rewrite <- app_assoc.
      * intros m1 initialized_ dp Htrace Hdp Hnone.
        apply (Hnull _ (detector_param :: initialized_) dp); [| |done].
        { rewrite Htrace. cbn [trace]. by rewrite <- app_assoc. }
        by apply list_elem_of_further.
      * intros m1 detectors Hthis Hservices Hobjects Htrace Hmodels
               Hdom Hnew Hold.
        wp_simpl_all.
        eapply (Hval m1 detectors).
        -- rewrite Hthis. cbn [foldl].
           match goal with
           | Hm : Platform.GetUndistortCameraModel _ = Some ?pinhole |- _ =>
               replace (insert_intrinsics (name_intrinsic_map_ (this m))
                          detector_param)
                 with (map_insert (app.camera_name detector_param)
                         (base.get_intrinsic_params pinhole)
                         (name_intrinsic_map_ (this m)))
                 by (unfold insert_intrinsics; by rewrite Hm)
           end.
           reflexivity.
        -- done.
        -- done.
        -- rewrite Htrace. by rewrite <- app_assoc.
        -- constructor; [by eexists|done].
        -- rewrite Hdom, dom_insert_L, dom_map_insert.
           unfold cameras. simpl. apply set_eq. intros k.
           rewrite !elem_of_union, !elem_of_singleton. tauto.
        -- intros k Hk. unfold cameras in Hk. simpl in Hk.
           destruct (decide (k ∈ cameras rest)) as [Hin|Hout];
             [by apply Hnew|].
           apply elem_of_cons in Hk as [->|Hk]; [|done].
           rewrite (Hold _ Hout), lookup_insert_eq. by eexists.
        -- intros k Hk. unfold cameras in Hk. simpl in Hk.
           apply not_elem_of_cons in Hk as [Hne Hout].
           rewrite (Hold _ Hout), lookup_insert_ne by done.
           by apply map_insert_lookup_ne.
Qed.

Ltac wp_step_Init :=
  first
    [ wp_step
    | lazymatch goal with
      | |- wp (Init_detectors _ _ _ _) _ _ =>
          apply wp_Init_detectors_full;
          [ intros m1 initialized_ tail Htrace Htail Hdetector
          | intros m1 initialized_ missing Htrace Hmissing Hnomodel
          | intros m1 detectors Hthis Hservices Hobjects Htrace Hmodels
                   Hdom Hnew Hold ];
          wp_simpl
      end ].

Ltac wp_Init :=
  unfold Init, Init_feature_extractor, InitLane, InitCalibrationService;
  repeat wp_step_Init.

(** Bring the new events of a leaf of [Init] into the form of a list. *)
Ltac Init_events :=
  wp_simpl_all;
  repeat match goal with
         | Ht : trace ?m1 = _ |- _ => rewrite Ht; clear Ht
         end;
  unfold events_since; rewrite <- ?app_assoc;
  first [rewrite drop_app_length | rewrite drop_all];
  cbn [app];
  repeat match goal with
         | Hc : ?b = _ |- context [Some ?b] => rewrite Hc
         end.

Ltac Init_stops_at_first_failure :=
  repeat first
    [ apply stops_at_first_failure_nil
    | assumption
    | apply stops_at_first_failure_singleton
    | apply stops_at_first_failure_cons; [reflexivity|]
    | apply stops_at_first_failure_app;
      [apply detector_init_events_report_success|]
    | apply stops_at_first_failure_success,
            detector_init_events_report_success ].

Ltac Init_reports_success :=
  repeat first
    [ apply List.Forall_nil
    | apply List.Forall_cons; [reflexivity|]
    | apply Forall_app_2; [apply detector_init_events_report_success|]
    | apply detector_init_events_report_success ].

(** Property X10.  [Init] stops at the first initialization that reports
    failure: a call of [Init] that reported [false] is the last call of the
    run, and the run ends in a failed [CHECK]. *)
Theorem Init_aborts_at_the_first_failed_initialization options m r m' e :
  Init options m = (r, m') →
  e ∈ events_since (trace m) (trace m') →
  reported e = Some false →
  r = Stop Check_failed ∧ last (events_since (trace m) (trace m')) = Some e.
Proof.
  intros Hrun.
  cut (stops_at_first_failure (events_since (trace m) (trace m')) ∧
       (r = Stop Check_failed ∨
        Forall (λ e, reported e = Some true)
               (events_since (trace m) (trace m')))).
  { intros [Hlast Hr] He Hfalse. split; [|by apply Hlast].
    destruct Hr as [Hr|Hall]; [done|].
    pose proof (proj1 (Forall_forall _ _) Hall e He) as Htrue.
    cbv beta in Htrue. congruence. }
  revert Hrun.
  apply (wp_run _ (λ r m',
    stops_at_first_failure (events_since (trace m) (trace m')) ∧
    (r = Stop Check_failed ∨
     Forall (λ e, reported e = Some true)
            (events_since (trace m) (trace m'))))).
  wp_Init.
  all: Init_events.
  all: split; [Init_stops_at_first_failure|].
  all: try (left; reflexivity).
  all: right; Init_reports_success.
Qed.

(** The checks of [Init] on optional blocks of the configuration, turned
    into equations on the configuration. *)
Ltac Init_config :=
  repeat match goal with
         | Hc : bool_decide (is_Some ?x) = true |- _ =>
             apply bool_decide_eq_true in Hc as [? Hc];
             try rewrite Hc in *; cbn [default from_option id] in *
         end.

Lemma last_model_resolved params model :
  params ≠ [] →
  Forall (λ detector_param,
            is_Some (Platform.GetUndistortCameraModel
                       (app.camera_name detector_param))) params →
  is_Some (last_model params model).
Proof.
  intros Hne Hall. destruct (last params) as [detector_param|] eqn:Hlast.
  - rewrite (last_model_last _ _ _ Hlast).
    apply (proj1 (Forall_forall _ _) Hall), last_Some_elem_of, Hlast.
  - by apply last_None in Hlast.
Qed.

(** The leaves of [Init] that cannot be reached: after the loop the last
    camera model is there, and the calibration service that was just
    placed in the store is live. *)
Ltac Init_impossible :=
  exfalso; wp_simpl_all;
  first
    [ congruence
    | match goal with
      | Hlen : bool_decide (0 < length ?params)%nat = true,
        Hall : Forall _ ?params,
        Hnone : last_model ?params None = None |- _ =>
          apply bool_decide_eq_true in Hlen;
          destruct (last_model_resolved params None) as [? Hsome];
          [ intros Hnil; rewrite Hnil in Hlen; simpl in Hlen; lia
          | exact Hall
          | congruence ]
      end
    | repeat match goal with
             | Hl : @eq (option loc) (Some _) (Some _) |- _ =>
                 injection Hl as Hl; subst
             end;
      match goal with
      | Hnone : <[?l := _]> _ !! ?l = None |- _ =>
          rewrite lookup_insert_eq in Hnone; discriminate Hnone
      end ].

(** Property X11.  [Init] never returns [false] and never throws: it
    returns [true], or fails a [CHECK], or dereferences a null camera model,
    the last only when the platform has no undistorted camera model for one
    of the configured cameras. *)
Theorem Init_returns_true_or_does_not_return options m r m' :
  Init options m = (r, m') →
  r = Val tt ∨
  r = Stop Check_failed ∨
  (r = Stop Undefined_behaviour ∧
   ∃ param detector_param,
     Platform.GetProtoFromFile (Init_config_file options) = Some param ∧
     detector_param ∈ app.detector_param param ∧
     Platform.GetUndistortCameraModel (app.camera_name detector_param) = None).
Proof.
  apply (wp_run _ (λ r m',
    r = Val tt ∨
    r = Stop Check_failed ∨
    (r = Stop Undefined_behaviour ∧
     ∃ param detector_param,
       Platform.GetProtoFromFile (Init_config_file options) = Some param ∧
       detector_param ∈ app.detector_param param ∧
       Platform.GetUndistortCameraModel (app.camera_name detector_param)
         = None))).
  wp_Init.
  all: try (left; reflexivity).
  all: try (right; left; reflexivity).
  all: right; right; split; [reflexivity|].
  all: Init_config.
  all: try (eexists _, _; split; [reflexivity|]; split; eassumption).
  all: Init_impossible.
Qed.

(** The state a successful [Init] leaves. *)
Lemma Init_success options m m' :
  Init options m = (Val tt, m') →
  ∃ param camera detectors svc,
    Platform.GetProtoFromFile (Init_config_file options) = Some param ∧
    app.detector_param param ≠ [] ∧
    Forall (λ detector_param,
              is_Some (Platform.GetUndistortCameraModel
                         (app.camera_name detector_param)))
           (app.detector_param param) ∧
    last_model (app.detector_param param) None = Some camera ∧
    perception_param_ (this m') = param ∧
    name_intrinsic_map_ (this m') =
      foldl insert_intrinsics (name_intrinsic_map_ (this m))
            (app.detector_param param) ∧
    name_detector_map_ (this m') = detectors ∧
    dom detectors =
      dom (name_detector_map_ (this m))
      ∪ list_to_set (cameras (app.detector_param param)) ∧
    (∀ k, k ∈ cameras (app.detector_param param) →
          ∃ d, detectors !! k = Some (Some d)) ∧
    (∀ k, k ∉ cameras (app.detector_param param) →
          detectors !! k = name_detector_map_ (this m) !! k) ∧
    is_Some (tracker_ (this m')) ∧
    is_Some (transformer_ (this m')) ∧
    is_Some (obstacle_postprocessor_ (this m')) ∧
    is_Some (lane_detector_ (this m')) ∧
    is_Some (lane_postprocessor_ (this m')) ∧
    (is_Some (extractor_ (this m')) ↔ is_Some (app.feature_param param)) ∧
    lane_calibration_working_sensor_name_ (this m') =
      lane_calibration_working_sensor_name options ∧
    calibration_service_ (this m') = Some (fresh (dom (services m))) ∧
    services m' = <[fresh (dom (services m)) := svc]> (services m) ∧
    objects m' = objects m.
Proof.
  cut (∀ r, Init options m = (r, m') → r = Val tt →
  ∃ param camera detectors svc,
    Platform.GetProtoFromFile (Init_config_file options) = Some param ∧
    app.detector_param param ≠ [] ∧
    Forall (λ detector_param,
              is_Some (Platform.GetUndistortCameraModel
                         (app.camera_name detector_param)))
           (app.detector_param param) ∧
    last_model (app.detector_param param) None = Some camera ∧
    perception_param_ (this m') = param ∧
    name_intrinsic_map_ (this m') =
      foldl insert_intrinsics (name_intrinsic_map_ (this m))
            (app.detector_param param) ∧
    name_detector_map_ (this m') = detectors ∧
    dom detectors =
      dom (name_detector_map_ (this m))
      ∪ list_to_set (cameras (app.detector_param param)) ∧
    (∀ k, k ∈ cameras (app.detector_param param) →
          ∃ d, detectors !! k = Some (Some d)) ∧
    (∀ k, k ∉ cameras (app.detector_param param) →
          detectors !! k = name_detector_map_ (this m) !! k) ∧
    is_Some (tracker_ (this m')) ∧
    is_Some (transformer_ (this m')) ∧
    is_Some (obstacle_postprocessor_ (this m')) ∧
    is_Some (lane_detector_ (this m')) ∧
    is_Some (lane_postprocessor_ (this m')) ∧
    (is_Some (extractor_ (this m')) ↔ is_Some (app.feature_param param)) ∧
    lane_calibration_working_sensor_name_ (this m') =
      lane_calibration_working_sensor_name options ∧
    calibration_service_ (this m') = Some (fresh (dom (services m))) ∧
    services m' = <[fresh (dom (services m)) := svc]> (services m) ∧
    objects m' = objects m).
  { intros Hcut Hrun. by apply (Hcut _ Hrun). }
  intros r.
  apply (wp_run _ (λ r m', r = Val tt →
  ∃ param camera detectors svc,
    Platform.GetProtoFromFile (Init_config_file options) = Some param ∧
    app.detector_param param ≠ [] ∧
    Forall (λ detector_param,
              is_Some (Platform.GetUndistortCameraModel
                         (app.camera_name detector_param)))
           (app.detector_param param) ∧
    last_model (app.detector_param param) None = Some camera ∧
    perception_param_ (this m') = param ∧
    name_intrinsic_map_ (this m') =
      foldl insert_intrinsics (name_intrinsic_map_ (this m))
            (app.detector_param param) ∧
    name_detector_map_ (this m') = detectors ∧
    dom detectors =
      dom (name_detector_map_ (this m))
      ∪ list_to_set (cameras (app.detector_param param)) ∧
    (∀ k, k ∈ cameras (app.detector_param param) →
          ∃ d, detectors !! k = Some (Some d)) ∧
    (∀ k, k ∉ cameras (app.detector_param param) →
          detectors !! k = name_detector_map_ (this m) !! k) ∧
    is_Some (tracker_ (this m')) ∧
    is_Some (transformer_ (this m')) ∧
    is_Some (obstacle_postprocessor_ (this m')) ∧
    is_Some (lane_detector_ (this m')) ∧
    is_Some (lane_postprocessor_ (this m')) ∧
    (is_Some (extractor_ (this m')) ↔ is_Some (app.feature_param param)) ∧
    lane_calibration_working_sensor_name_ (this m') =
      lane_calibration_working_sensor_name options ∧
    calibration_service_ (this m') = Some (fresh (dom (services m))) ∧
    services m' = <[fresh (dom (services m)) := svc]> (services m) ∧
    objects m' = objects m)).
  wp_Init.
  all: intros Hval; try discriminate Hval.
  all: wp_simpl_all; try (exfalso; congruence).
  all: rewrite ?Hthis, ?Hservices, ?Hobjects; wp_simpl.
  all: match goal with
       | Hc : bool_decide (is_Some (Platform.GetProtoFromFile _)) = true
         |- _ => apply bool_decide_eq_true in Hc as [param Hparam]
       end.
  all: rewrite Hparam in *; cbn [default from_option id] in *.
  all: match goal with
       | Hl : Some _ = Some ?l |- _ => injection Hl as Hl; subst l
       end.
  all: rewrite ?Hservices, insert_insert_eq.
  all: exists param; eexists _, detectors, _.
  all: split; [reflexivity|].
  all: split;
    [ intros Hnil;
      match goal with
      | Hlen : bool_decide (0 < length _)%nat = true |- _ =>
          rewrite Hnil in Hlen; vm_compute in Hlen; discriminate Hlen
      end |].
  all: split; [exact Hmodels|].
  all: split; [eassumption|].
  all: do 3 (split; [reflexivity|]).
  all: split; [exact Hdom|].
  all: split; [exact Hnew|].
  all: split; [exact Hold|].
  all: do 5 (split; [by eexists|]).
  all: match goal with
       | Hf : app.feature_param _ = _ |- _ => rewrite Hf
       end.
  all: split; [first [done | split; intros _; by eexists]|].
  all: do 3 (split; [reflexivity|]).
  all: reflexivity.
Qed.

(** A successful [Init] leaves a pipeline on which [Perception] can run. *)
Lemma Init_initializes options m m' :
  (∀ sensor, is_Some (name_intrinsic_map_ (this m) !! sensor) →
             ∃ detector,
               name_detector_map_ (this m) !! sensor = Some (Some detector)) →
  Init options m = (Val tt, m') →
  initialized (this m') ∧
  (∃ l, calibration_service_ (this m') = Some l ∧
        services m !! l = None ∧ is_Some (services m' !! l) ∧
        ∀ l', l' ≠ l → services m' !! l' = services m !! l') ∧
  objects m' = objects m.
Proof.
  intros Hbefore Hrun.
  destruct (Init_success _ _ _ Hrun)
    as (param & camera & detectors & svc & Hparam & Hne & Hmodels & Hcamera &
        Hpp & Hintrinsics & Hdetectors & Hdom & Hnew & Hold & Htracker &
        Htransformer & Hpost & Hlane & Hlanepost & Hextractor & Hworking &
        Hservice & Hservices & Hobjects).
  split; [|split; [|done]].
  - do 5 (split; [done|]).
    intros sensor. rewrite Hintrinsics, Hdetectors.
    destruct (decide (sensor ∈ cameras (app.detector_param param)))
      as [Hin|Hout]; [intros _; by apply Hnew|].
    rewrite (insert_intrinsics_other _ _ _ Hout), (Hold _ Hout).
    apply Hbefore.
  - exists (fresh (dom (services m))). split; [done|]. split.
    { apply not_elem_of_dom, is_fresh. }
    rewrite Hservices. split; [rewrite lookup_insert_eq; by eexists|].
    intros l' Hl'. by rewrite lookup_insert_ne.
Qed.


(** Property X13.  [Init] inserts the intrinsics of the configured cameras
    with [std::map::insert]: an entry that was there is kept as it was, a
    configured camera that had none gets the intrinsics of its undistorted
    camera model, the entries of other sensors do not change, and the
    detector map gains exactly the configured cameras. *)
Theorem Init_inserts_intrinsics_without_overwriting options param m m' :
  Platform.GetProtoFromFile (Init_config_file options) = Some param →
  Init options m = (Val tt, m') →
  (∀ sensor intrinsics,
     name_intrinsic_map_ (this m) !! sensor = Some intrinsics →
     name_intrinsic_map_ (this m') !! sensor = Some intrinsics) ∧
  (∀ detector_param, detector_param ∈ app.detector_param param →
     ∃ pinhole,
       Platform.GetUndistortCameraModel (app.camera_name detector_param)
         = Some pinhole ∧
       (name_intrinsic_map_ (this m) !! app.camera_name detector_param = None →
        name_intrinsic_map_ (this m') !! app.camera_name detector_param
          = Some (base.get_intrinsic_params pinhole))) ∧
  (∀ sensor, sensor ∉ cameras (app.detector_param param) →
     name_intrinsic_map_ (this m') !! sensor =
       name_intrinsic_map_ (this m) !! sensor) ∧
  dom (name_detector_map_ (this m')) =
    dom (name_detector_map_ (this m))
    ∪ list_to_set (cameras (app.detector_param param)).
Proof.
  intros Hparam Hrun.
  destruct (Init_success _ _ _ Hrun)
    as (param' & camera & detectors & svc & Hparam' & Hne & Hmodels & _ &
        _ & Hintrinsics & Hdetectors & Hdom & _).
  rewrite Hparam in Hparam'. injection Hparam' as <-.
  rewrite Hintrinsics, Hdetectors.
  split; [intros sensor intrinsics; apply insert_intrinsics_keeps|].
  split; [|split; [intros sensor; apply insert_intrinsics_other|done]].
  intros detector_param Hin.
  destruct (proj1 (Forall_forall _ _) Hmodels _ Hin) as [pinhole Hpinhole].
  exists pinhole. split; [done|]. intros Hnone.
  destruct (insert_intrinsics_new (name_intrinsic_map_ (this m))
              (app.detector_param param) (app.camera_name detector_param)
              Hmodels) as (pinhole' & Hpinhole' & Hlookup); [|done|].
  { by apply (list_elem_of_fmap_2 app.camera_name). }
  congruence.
Qed.

Lemma detector_init_events_components work_root gpu params :
  initialized_by ∘ call <$> (detector_init_event work_root gpu <$> params) =
    Some <$> (the_detector <$> cameras params).
Proof.
  unfold cameras. by rewrite <- !list_fmap_compose.
Qed.

(** Property X14.  An [Init] that returned [true] has initialized, in this
    order and each with success: the device, one detector for each entry of
    [detector_param] in the order of the configuration, the tracker, the
    transformer, the obstacle postprocessor, the feature extractor when the
    configuration has a feature block, the lane detector, the lane
    postprocessor, the calibration service, and the object template manager
    when the configuration has a template block; and nothing else. *)
Theorem successful_Init_initialized_the_components_in_order
    options param m m' :
  Platform.GetProtoFromFile (Init_config_file options) = Some param →
  Init options m = (Val tt, m') →
  initialized_by ∘ call <$> events_since (trace m) (trace m') =
    Some <$> components param ∧
  Forall (λ e, reported e = Some true) (events_since (trace m) (trace m')).
Proof.
  intros Hparam.
  cut (∀ r, Init options m = (r, m') → r = Val tt →
    initialized_by ∘ call <$> events_since (trace m) (trace m') =
      Some <$> components param ∧
    Forall (λ e, reported e = Some true) (events_since (trace m) (trace m'))).
  { intros Hcut Hrun. by apply (Hcut _ Hrun). }
  intros r.
  apply (wp_run _ (λ r m', r = Val tt →
    initialized_by ∘ call <$> events_since (trace m) (trace m') =
      Some <$> components param ∧
    Forall (λ e, reported e = Some true) (events_since (trace m) (trace m')))).
  unfold Init. rewrite Hparam. cbn [default from_option id].
  wp_Init.
  all: intros Hval; try discriminate Hval.
  all: Init_events.
  all: split; [|Init_reports_success].
  all: unfold components.
  all: repeat match goal with
              | Hf : app.feature_param _ = _ |- _ => rewrite Hf; clear Hf
              | Hf : app.object_template_param _ = _ |- _ =>
                  rewrite Hf; clear Hf
              end.
  all: rewrite !fmap_cons, !fmap_app, detector_init_events_components.
  all: reflexivity.
Qed.

(** Without a configuration [Init] stops at its first check. *)
Lemma Init_without_configuration options m :
  Platform.GetProtoFromFile (Init_config_file options) = None →
  Init options m = (Stop Check_failed, m).
Proof. intros Hnone. unfold Init. by rewrite Hnone. Qed.

Lemma last_model_Some params camera :
  params ≠ [] → last_model params None = Some camera →
  ∃ detector_param,
    last params = Some detector_param ∧
    Platform.GetUndistortCameraModel (app.camera_name detector_param)
      = Some camera.
Proof.
  intros Hne Hmodel. destruct (last params) as [detector_param|] eqn:Hlast.
  - exists detector_param. split; [done|].
    by rewrite <- (last_model_last params None).
  - by apply last_None in Hlast.
Qed.

(** Go through the events of a leaf of [Init], for a property of the calls
    of one kind: what is left are the calls of that kind. *)
Ltac Init_each_event :=
  repeat first
    [ apply List.Forall_nil
    | apply List.Forall_cons; [cbn [call]; intros o Ho; try discriminate Ho|]
    | apply Forall_app_2
    | apply Forall_fmap, Forall_true; intros dp o Ho; simpl in Ho;
      discriminate Ho
    | eapply Forall_impl; [eassumption|];
      intros ev Hev o Ho; cbv beta in Hev; rewrite Ho in Hev;
      discriminate Hev ].

(** The checks of a leaf of [Init] on the list of detectors. *)
Ltac Init_last_camera :=
  match goal with
  | Hlen : bool_decide (0 < length ?params)%nat = true,
    Hmodel : last_model ?params None = Some ?camera |- _ =>
      let detector_param := fresh "detector_param" in
      let Hlast := fresh "Hlast" in
      let Hcamera := fresh "Hcamera" in
      destruct (last_model_Some params camera)
        as (detector_param & Hlast & Hcamera);
      [ intros Hnil; rewrite Hnil in Hlen; vm_compute in Hlen;
        discriminate Hlen
      | exact Hmodel
      | ]
  end.

(** The options [Init] hands to the lane detector. *)
Lemma Init_lane_detector_options options param m r m' :
  Platform.GetProtoFromFile (Init_config_file options) = Some param →
  Init options m = (r, m') →
  Forall (λ e, ∀ o, call e = LaneDetector_Init o →
            ∃ lane_param plugin_param detector_param,
              app.lane_param param = Some lane_param ∧
              app.lane_detector_param lane_param = Some plugin_param ∧
              last (app.detector_param param) = Some detector_param ∧
              o = {| LaneDetectorInitOptions.base_options :=
                       plugin_options (Init_work_root options) plugin_param
                                      (app.gpu_id param);
                     LaneDetectorInitOptions.base_camera_model :=
                       Platform.GetUndistortCameraModel
                         (app.camera_name detector_param) |})
         (events_since (trace m) (trace m')).
Proof.
  intros Hparam.
  apply (wp_run _ (λ r m',
    Forall (λ e, ∀ o, call e = LaneDetector_Init o →
              ∃ lane_param plugin_param detector_param,
                app.lane_param param = Some lane_param ∧
                app.lane_detector_param lane_param = Some plugin_param ∧
                last (app.detector_param param) = Some detector_param ∧
                o = {| LaneDetectorInitOptions.base_options :=
                         plugin_options (Init_work_root options) plugin_param
                                        (app.gpu_id param);
                       LaneDetectorInitOptions.base_camera_model :=
                         Platform.GetUndistortCameraModel
                           (app.camera_name detector_param) |})
           (events_since (trace m) (trace m')))).
  unfold Init. rewrite Hparam. cbn [default from_option id].
  wp_Init.
  all: Init_events.
  all: Init_each_event.
  all: injection Ho as <-.
  all: Init_config.
  all: Init_last_camera.
  all: eexists _, _, _.
  all: split; [reflexivity|].
  all: split; [eassumption|].
  all: split; [eassumption|].
  all: by rewrite (last_model_last _ None _ Hlast).
Qed.

(** The options [Init] hands to the lane postprocessor. *)
Lemma Init_lane_postprocessor_options options param m r m' :
  Platform.GetProtoFromFile (Init_config_file options) = Some param →
  Init options m = (r, m') →
  Forall (λ e, ∀ o, call e = LanePostprocessor_Init o →
            ∃ lane_param plugin_param,
              app.lane_param param = Some lane_param ∧
              app.lane_detector_param lane_param = Some plugin_param ∧
              o = {| LanePostprocessorInitOptions.base_options :=
                       plugin_options (Init_work_root options)
                         (default app.PluginParam_default
                            (app.lane_postprocessor_param lane_param))
                         default_gpu_id;
                     LanePostprocessorInitOptions.detect_config_root :=
                       Platform.GetAbsolutePath (Init_work_root options)
                         (app.root_dir plugin_param);
                     LanePostprocessorInitOptions.detect_config_name :=
                       app.config_file plugin_param |})
         (events_since (trace m) (trace m')).
Proof.
  intros Hparam.
  apply (wp_run _ (λ r m',
    Forall (λ e, ∀ o, call e = LanePostprocessor_Init o →
              ∃ lane_param plugin_param,
                app.lane_param param = Some lane_param ∧
                app.lane_detector_param lane_param = Some plugin_param ∧
                o = {| LanePostprocessorInitOptions.base_options :=
                         plugin_options (Init_work_root options)
                           (default app.PluginParam_default
                              (app.lane_postprocessor_param lane_param))
                           default_gpu_id;
                       LanePostprocessorInitOptions.detect_config_root :=
                         Platform.GetAbsolutePath (Init_work_root options)
                           (app.root_dir plugin_param);
                       LanePostprocessorInitOptions.detect_config_name :=
                         app.config_file plugin_param |})
           (events_since (trace m) (trace m')))).
  unfold Init. rewrite Hparam. cbn [default from_option id].
  wp_Init.
  all: Init_events.
  all: Init_each_event.
  all: injection Ho as <-.
  all: Init_config.
  all: eexists _, _.
  all: split; [reflexivity|].
  all: split; [eassumption|].
  all: reflexivity.
Qed.

(** The options [Init] hands to the calibration service. *)
Lemma Init_calibration_service_options options param m r m' :
  Platform.GetProtoFromFile (Init_config_file options) = Some param →
  Init options m = (r, m') →
  Forall (λ e, ∀ o, call e = Calibration_Init o →
            ∃ calibration_service_param detector_param camera,
              app.calibration_service_param param
                = Some calibration_service_param ∧
              last (app.detector_param param) = Some detector_param ∧
              Platform.GetUndistortCameraModel
                (app.camera_name detector_param) = Some camera ∧
              Forall (λ detector_param,
                        is_Some (Platform.GetUndistortCameraModel
                                   (app.camera_name detector_param)))
                     (app.detector_param param) ∧
              name_intrinsic_map_ (this m') =
                CalibrationServiceInitOptions.name_intrinsic_map o ∧
              o = {| CalibrationServiceInitOptions.calibrator_working_sensor_name :=
                       lane_calibration_working_sensor_name options;
                     CalibrationServiceInitOptions.name_intrinsic_map :=
                       foldl insert_intrinsics (name_intrinsic_map_ (this m))
                             (app.detector_param param);
                     CalibrationServiceInitOptions.calibrator_method :=
                       app.calibrator_method calibration_service_param;
                     CalibrationServiceInitOptions.image_height :=
                       base.get_height camera;
                     CalibrationServiceInitOptions.image_width :=
                       base.get_width camera |})
         (events_since (trace m) (trace m')).
Proof.
  intros Hparam.
  apply (wp_run _ (λ r m',
    Forall (λ e, ∀ o, call e = Calibration_Init o →
              ∃ calibration_service_param detector_param camera,
                app.calibration_service_param param
                  = Some calibration_service_param ∧
                last (app.detector_param param) = Some detector_param ∧
                Platform.GetUndistortCameraModel
                  (app.camera_name detector_param) = Some camera ∧
                Forall (λ detector_param,
                          is_Some (Platform.GetUndistortCameraModel
                                     (app.camera_name detector_param)))
                       (app.detector_param param) ∧
                name_intrinsic_map_ (this m') =
                  CalibrationServiceInitOptions.name_intrinsic_map o ∧
                o = {| CalibrationServiceInitOptions.calibrator_working_sensor_name :=
                         lane_calibration_working_sensor_name options;
                       CalibrationServiceInitOptions.name_intrinsic_map :=
                         foldl insert_intrinsics (name_intrinsic_map_ (this m))
                               (app.detector_param param);
                       CalibrationServiceInitOptions.calibrator_method :=
                         app.calibrator_method calibration_service_param;
                       CalibrationServiceInitOptions.image_height :=
                         base.get_height camera;
                       CalibrationServiceInitOptions.image_width :=
                         base.get_width camera |})
           (events_since (trace m) (trace m')))).
  unfold Init. rewrite Hparam. cbn [default from_option id].
  wp_Init.
  all: Init_events.
  all: Init_each_event.
  all: injection Ho as <-.
  all: rewrite ?Hthis in *; wp_simpl_all.
  all: Init_config.
  all: repeat match goal with
              | Ha : last_model ?l None = Some ?a,
                Hb : last_model ?l None = Some ?b |- _ =>
                  rewrite Ha in Hb; injection Hb as <-
              end.
  all: Init_last_camera.
  all: eexists _, _, _.
  all: split; [reflexivity|].
  all: split; [eassumption|].
  all: split; [eassumption|].
  all: split; [eassumption|].
  all: split; reflexivity.
Qed.

Lemma Init_events_without_configuration options m r m' :
  Platform.GetProtoFromFile (Init_config_file options) = None →
  Init options m = (r, m') →
  events_since (trace m) (trace m') = [].
Proof.
  intros Hnone. rewrite (Init_without_configuration _ _ Hnone).
  intros [= _ <-]. apply drop_all.
Qed.

(** Property X15.  [Init] points the lane postprocessor at the
    configuration of the lane detector: the [detect_config_root] and the
    [detect_config_name] it is handed are the root directory and the
    configuration file the lane detector was initialized with; the lane
    postprocessor itself is left on the default device. *)
Theorem lane_postprocessor_reads_the_lane_detector_configuration
    options m r m' e0 o0 e o :
  Init options m = (r, m') →
  e0 ∈ events_since (trace m) (trace m') → call e0 = LaneDetector_Init o0 →
  e ∈ events_since (trace m) (trace m') → call e = LanePostprocessor_Init o →
  LanePostprocessorInitOptions.detect_config_root o =
    root_dir (LaneDetectorInitOptions.base_options o0) ∧
  LanePostprocessorInitOptions.detect_config_name o =
    conf_file (LaneDetectorInitOptions.base_options o0) ∧
  gpu_id (LanePostprocessorInitOptions.base_options o) = default_gpu_id.
Proof.
  intros Hrun He0 Hcall0 He Hcall.
  destruct (Platform.GetProtoFromFile (Init_config_file options))
    as [param|] eqn:Hparam.
  - destruct (proj1 (Forall_forall _ _)
                (Init_lane_detector_options _ _ _ _ _ Hparam Hrun)
                e0 He0 o0 Hcall0)
      as (lane_param & plugin_param & detector_param & Hlane & Hplugin & _ &
          ->).
    destruct (proj1 (Forall_forall _ _)
                (Init_lane_postprocessor_options _ _ _ _ _ Hparam Hrun)
                e He o Hcall)
      as (lane_param' & plugin_param' & Hlane' & Hplugin' & ->).
    rewrite Hlane in Hlane'. injection Hlane' as <-.
    rewrite Hplugin in Hplugin'. injection Hplugin' as <-.
    done.
  - rewrite (Init_events_without_configuration _ _ _ _ Hparam Hrun) in He.
    by apply elem_of_nil in He.
Qed.

(** Property X16.  The lane detector and the calibration service are
    initialized with the camera of the last entry of [detector_param]: the
    lane detector is handed its camera model and the configured device, the
    calibration service its image width and height. *)
Theorem lane_detector_and_calibration_service_see_the_last_camera
    options param detector_param m r m' e :
  Platform.GetProtoFromFile (Init_config_file options) = Some param →
  last (app.detector_param param) = Some detector_param →
  Init options m = (r, m') →
  e ∈ events_since (trace m) (trace m') →
  (∀ o, call e = LaneDetector_Init o →
     LaneDetectorInitOptions.base_camera_model o =
       Platform.GetUndistortCameraModel (app.camera_name detector_param) ∧
     gpu_id (LaneDetectorInitOptions.base_options o) = app.gpu_id param) ∧
  (∀ o, call e = Calibration_Init o →
     ∃ camera,
       Platform.GetUndistortCameraModel (app.camera_name detector_param)
         = Some camera ∧
       CalibrationServiceInitOptions.image_width o = base.get_width camera ∧
       CalibrationServiceInitOptions.image_height o = base.get_height camera).
Proof.
  intros Hparam Hlast Hrun He. split; intros o Hcall.
  - destruct (proj1 (Forall_forall _ _)
                (Init_lane_detector_options _ _ _ _ _ Hparam Hrun)
                e He o Hcall)
      as (lane_param & plugin_param & detector_param' & _ & _ & Hlast' & ->).
    rewrite Hlast in Hlast'. injection Hlast' as <-. done.
  - destruct (proj1 (Forall_forall _ _)
                (Init_calibration_service_options _ _ _ _ _ Hparam Hrun)
                e He o Hcall)
      as (calibration_service_param & detector_param' & camera & _ & Hlast' &
          Hcamera & _ & _ & ->).
    rewrite Hlast in Hlast'. injection Hlast' as <-. by exists camera.
Qed.

(** Property X17.  The calibration service is initialized with the
    calibration working sensor of the options of [Init], with the calibrator
    method of the configuration, and with the map of intrinsics as the
    pipeline holds it at the end of [Init], in which every configured camera
    has an entry. *)
Theorem calibration_service_is_given_the_intrinsics_of_every_camera
    options param m r m' e o :
  Platform.GetProtoFromFile (Init_config_file options) = Some param →
  Init options m = (r, m') →
  e ∈ events_since (trace m) (trace m') → call e = Calibration_Init o →
  CalibrationServiceInitOptions.calibrator_working_sensor_name o =
    lane_calibration_working_sensor_name options ∧
  CalibrationServiceInitOptions.name_intrinsic_map o =
    name_intrinsic_map_ (this m') ∧
  (∀ detector_param, detector_param ∈ app.detector_param param →
     is_Some (CalibrationServiceInitOptions.name_intrinsic_map o
                !! app.camera_name detector_param)) ∧
  (∀ calibration_service_param,
     app.calibration_service_param param = Some calibration_service_param →
     CalibrationServiceInitOptions.calibrator_method o =
       app.calibrator_method calibration_service_param).
Proof.
  intros Hparam Hrun He Hcall.
  destruct (proj1 (Forall_forall _ _)
              (Init_calibration_service_options _ _ _ _ _ Hparam Hrun)
              e He o Hcall)
    as (calibration_service_param & detector_param & camera & Hcal & _ & _ &
        Hmodels & Hmap & Ho).
  split; [by rewrite Ho|]. split; [done|]. split.
  - intros detector_param' Hin. rewrite Ho. simpl.
    apply insert_intrinsics_covers; [done|].
    by apply (list_elem_of_fmap_2 app.camera_name).
  - intros calibration_service_param' Hcal'.
    rewrite Hcal in Hcal'. injection Hcal' as <-. by rewrite Ho.
Qed.

(** Property X18.  [SetCameraHeightAndPitch] fails its [CHECK] and changes
    nothing on a pipeline that has no calibration service, as before [Init];
    after an [Init] that returned [true] it returns, having called the
    pipeline's calibration service once, and leaves the pipeline, the
    objects and the other services as they were. *)
Theorem SetCameraHeightAndPitch_needs_the_calibration_service
    heights pitch_diffs pitch :
  (∀ m, calibration_service_ (this m) = None →
        SetCameraHeightAndPitch heights pitch_diffs pitch m
          = (Stop Check_failed, m)) ∧
  (∀ options m0 m,
     Init options m0 = (Val tt, m) →
     ∃ m' l,
       SetCameraHeightAndPitch heights pitch_diffs pitch m = (Val tt, m') ∧
       calibration_service_ (this m) = Some l ∧
       this m' = this m ∧ objects m' = objects m ∧
       dom (services m') = dom (services m) ∧
       (∀ l', l' ≠ l → services m' !! l' = services m !! l') ∧
       events_since (trace m) (trace m') =
         [{| call := Calibration_SetCameraHeightAndPitch; handed := None;
             reported := None |}]).
Proof.
  split.
  - intros m Hnone. unfold SetCameraHeightAndPitch, bind, get_this, CHECK.
    by rewrite Hnone.
  - intros options m0 m Hrun.
    destruct (Init_success _ _ _ Hrun)
      as (param & camera & detectors & svc & _ & _ & _ & _ & _ & _ & _ & _ &
          _ & _ & _ & _ & _ & _ & _ & _ & _ & Hservice & Hservices & _).
    destruct (SetCameraHeightAndPitch heights pitch_diffs pitch m)
      as [r m'] eqn:Hset.
    exists m', (fresh (dom (services m0))).
    cut (r = Val tt ∧
         this m' = this m ∧ objects m' = objects m ∧
         dom (services m') = dom (services m) ∧
         (∀ l', l' ≠ fresh (dom (services m0)) →
                services m' !! l' = services m !! l') ∧
         events_since (trace m) (trace m') =
           [{| call := Calibration_SetCameraHeightAndPitch; handed := None;
               reported := None |}]).
    { intros (-> & Hthis & Hobjects & Hdom & Hothers & Hevents). done. }
    revert Hset.
    apply (wp_run _ (λ r m',
      r = Val tt ∧
      this m' = this m ∧ objects m' = objects m ∧
      dom (services m') = dom (services m) ∧
      (∀ l', l' ≠ fresh (dom (services m0)) →
             services m' !! l' = services m !! l') ∧
      events_since (trace m) (trace m') =
        [{| call := Calibration_SetCameraHeightAndPitch; handed := None;
            reported := None |}])).
    unfold SetCameraHeightAndPitch. repeat wp_step.
    all: try (exfalso; congruence).
    all: repeat match goal with
                | Hl : calibration_service_ (this _) = Some _ |- _ =>
                    rewrite Hservice in Hl; injection Hl as <-
                end.
    + exfalso.
      match goal with
      | Hc : bool_decide _ = false |- _ =>
          rewrite Hservice in Hc; apply bool_decide_eq_false in Hc;
          apply Hc; by eexists
      end.
    + exfalso.
      match goal with
      | Hnone : services m !! _ = None |- _ =>
          rewrite Hservices, lookup_insert_eq in Hnone; discriminate Hnone
      end.
    + do 3 (split; [done|]).
      split; [|split].
      * apply dom_insert_lookup_L. by eexists.
      * intros l' Hl'. by rewrite lookup_insert_ne.
      * unfold events_since. by rewrite drop_app_length.
Qed.

(** Property X19.  After an [Init] that returned [true], a frame of a
    configured camera that carries the service [GetCalibrationService] hands
    out never makes [Perception] throw or fail a [CHECK]: the run returns
    [true], or returns [false], or dereferences an object pointer of the
    frame that points to no object, in one of the two loops over the objects
    of the frame. *)
Theorem Perception_after_Init
    init_options param detector_param m0 m options frame r m' :
  (∀ sensor, is_Some (name_intrinsic_map_ (this m0) !! sensor) →
             ∃ detector,
               name_detector_map_ (this m0) !! sensor = Some (Some detector)) →
  Platform.GetProtoFromFile (Init_config_file init_options) = Some param →
  Init init_options m0 = (Val tt, m) →
  detector_param ∈ app.detector_param param →
  sensor_name (data_provider frame) = app.camera_name detector_param →
  GetCalibrationService m = (Val (calibration_service frame, true), m) →
  Perception options frame m = (r, m') →
  (∃ frame', r = Val frame') ∨
  r = Stop (Return false) ∨
  (r = Stop Undefined_behaviour ∧
   ∃ e, last (events_since (trace m) (trace m')) = Some e ∧
        before_object_loop (call e) = true).
Proof.
  intros Hbefore Hparam Hinit Hin Hsensor Hservice.
  destruct (Init_initializes _ _ _ Hbefore Hinit)
    as (Hready & (l & Hl & _ & Hlive & _) & _).
  destruct (Init_success _ _ _ Hinit)
    as (param' & camera & detectors & svc & Hparam' & _ & Hmodels & _ & _ &
        Hintrinsics & _).
  rewrite Hparam in Hparam'. injection Hparam' as <-.
  apply Perception_of_an_initialized_pipeline; [done| |].
  - rewrite Hsensor, Hintrinsics. apply insert_intrinsics_covers; [done|].
    by apply (list_elem_of_fmap_2 app.camera_name).
  - exists l. split; [|done].
    unfold GetCalibrationService, bind, get_this, ret in Hservice.
    simpl in Hservice. congruence.
Qed.

(** Property X20.  An [Init] that returned [true] has read its
    configuration file and keeps the configuration; the device could be
    set; the configuration names at least one detector, a tracker, a
    transformer, an obstacle postprocessor, a lane block with a lane
    detector, and a calibration service; and the pipeline has a feature
    extractor exactly when the configuration has a feature block. *)
Theorem successful_Init_read_a_complete_configuration options m m' :
  Init options m = (Val tt, m') →
  ∃ param lane_param,
    Platform.GetProtoFromFile (Init_config_file options) = Some param ∧
    perception_param_ (this m') = param ∧
    Platform.set_device_id (app.gpu_id param) = true ∧
    app.detector_param param ≠ [] ∧
    is_Some (app.tracker_param param) ∧
    is_Some (app.transformer_param param) ∧
    is_Some (app.postprocessor_param param) ∧
    app.lane_param param = Some lane_param ∧
    is_Some (app.lane_detector_param lane_param) ∧
    is_Some (app.calibration_service_param param) ∧
    (is_Some (app.feature_param param) ↔ is_Some (extractor_ (this m'))).
Proof.
  cut (∀ r, Init options m = (r, m') → r = Val tt →
    ∃ param lane_param,
      Platform.GetProtoFromFile (Init_config_file options) = Some param ∧
      perception_param_ (this m') = param ∧
      Platform.set_device_id (app.gpu_id param) = true ∧
      app.detector_param param ≠ [] ∧
      is_Some (app.tracker_param param) ∧
      is_Some (app.transformer_param param) ∧
      is_Some (app.postprocessor_param param) ∧
      app.lane_param param = Some lane_param ∧
      is_Some (app.lane_detector_param lane_param) ∧
      is_Some (app.calibration_service_param param) ∧
      (is_Some (app.feature_param param) ↔ is_Some (extractor_ (this m')))).
  { intros Hcut Hrun. by apply (Hcut _ Hrun). }
  intros r.
  apply (wp_run _ (λ r m', r = Val tt →
    ∃ param lane_param,
      Platform.GetProtoFromFile (Init_config_file options) = Some param ∧
      perception_param_ (this m') = param ∧
      Platform.set_device_id (app.gpu_id param) = true ∧
      app.detector_param param ≠ [] ∧
      is_Some (app.tracker_param param) ∧
      is_Some (app.transformer_param param) ∧
      is_Some (app.postprocessor_param param) ∧
      app.lane_param param = Some lane_param ∧
      is_Some (app.lane_detector_param lane_param) ∧
      is_Some (app.calibration_service_param param) ∧
      (is_Some (app.feature_param param) ↔ is_Some (extractor_ (this m'))))).
  wp_Init.
  all: intros Hval; try discriminate Hval.
  all: wp_simpl_all; try (exfalso; congruence).
  all: rewrite ?Hthis; wp_simpl.
  all: match goal with
       | Hlen : bool_decide (0 < length ?params)%nat = true |- _ =>
           assert (params ≠ [])
             by (intros Hnil; rewrite Hnil in Hlen; vm_compute in Hlen;
                 discriminate Hlen)
       end.
  all: repeat match goal with
              | Hc : bool_decide (is_Some ?x) = true |- _ =>
                  apply bool_decide_eq_true in Hc
              end.
  all: match goal with
       | Hc : is_Some (Platform.GetProtoFromFile _) |- _ =>
           destruct Hc as [param Hparam]
       end.
  all: rewrite Hparam in *; cbn [default from_option id] in *.
  all: match goal with
       | Hc : is_Some (app.lane_param _) |- _ =>
           destruct Hc as [lane_param Hlane]
       end.
  all: rewrite Hlane in *; cbn [default from_option id] in *.
  all: exists param, lane_param.
  all: do 10 (split; [first [reflexivity | assumption]|]).
  all: match goal with
       | Hf : app.feature_param _ = _ |- _ => rewrite Hf
       end.
  all: first [done | split; intros _; by eexists].
Qed.

End init_extra.

(** ** Examples *)

Module Examples.

Import Scenario Cases.

Ltac nth_event n := apply (list_elem_of_lookup_2 _ n); vm_compute; reflexivity.

Lemma Init_succeeds :
  Init options fresh_machine = (Val tt, initialized_machine).
Proof. vm_compute. reflexivity. Qed.

Lemma nothing_configured sensor :
  is_Some (name_intrinsic_map_ (this fresh_machine) !! sensor) →
  ∃ detector,
    name_detector_map_ (this fresh_machine) !! sensor = Some (Some detector).
Proof. intros [v Hv]. simpl in Hv. by rewrite lookup_empty in Hv. Qed.

Lemma ready_is_initialized : initialized (this ready).
Proof.
  destruct (Init_initializes _ _ _ nothing_configured Init_succeeds)
    as [Hready _].
  assert (Heq : this ready = this initialized_machine)
    by (vm_compute; reflexivity).
  rewrite Heq. exact Hready.
Qed.

Lemma Perception_returns_false_exactly_on_stage_failure_witness :
  let run :=
    Perception no_options (frame 1 "front_6mm") failing_lane_detector in
  run.1 = Stop (Return false) ∧
  ∃ e, e ∈ events_since (trace failing_lane_detector) (trace run.2) ∧
       failed e = true.
Proof.
  intros run.
  pose proof (Perception_returns_false_exactly_on_stage_failure no_options
                (frame 1 "front_6mm") failing_lane_detector run.1 run.2
                (surjective_pairing _)) as (Hiff & _).
  assert (Hfalse : run.1 = Stop (Return false)) by (vm_compute; reflexivity).
  split; [exact Hfalse|]. exact (proj1 Hiff Hfalse).
Defined.

Lemma Perception_calls_follow_the_text_witness :
  let run := Perception no_options (frame 1 "front_6mm") ready in
  ∃ e e',
    events_since (trace ready) (trace run.2) !! 1%nat = Some e ∧
    events_since (trace ready) (trace run.2) !! 4%nat = Some e' ∧
    call e = LaneDetector_Detect ∧ call e' = LanePostprocessor_Process3D ∧
    (rank (call e) < rank (call e'))%nat.
Proof.
  intros run. eexists _, _.
  split; [vm_compute; reflexivity|]. split; [vm_compute; reflexivity|].
  split; [reflexivity|]. split; [reflexivity|].
  apply (Perception_calls_follow_the_text no_options (frame 1 "front_6mm")
           ready run.1 run.2 1 4 _ _ (surjective_pairing _)).
  - lia.
  - vm_compute. reflexivity.
  - vm_compute. reflexivity.
Defined.

Lemma accepted_frame_went_through_every_stage_witness :
  let run := Perception no_options (frame 1 "front_6mm") ready in
  List.filter stage_call (call <$> events_since (trace ready) (trace run.2)) =
    stages_of_an_accepted_frame true "front_6mm" false.
Proof.
  intros run.
  eassert (Hrun : Perception no_options (frame 1 "front_6mm") ready =
                    (Val _, run.2)) by (vm_compute; reflexivity).
  pose proof (accepted_frame_went_through_every_stage no_options
                (frame 1 "front_6mm") ready _ run.2 Hrun) as Hstages.
  vm_compute in Hstages. vm_compute. exact Hstages.
Defined.

Lemma frame_without_calibration_service_is_refused_witness :
  (Perception no_options unserviced_frame ready).1 = Stop Check_failed.
Proof.
  refine (proj1 (frame_without_calibration_service_is_refused no_options
                   unserviced_frame ready _ _)).
  - vm_compute. by eexists.
  - reflexivity.
Defined.

Lemma Perception_keeps_the_pipeline_witness :
  let run := Perception no_options (frame 1 "front_6mm") ready in
  calibration_service_ (this run.2) = calibration_service_ (this ready) ∧
  dom (services run.2) = dom (services ready) ∧
  initialized (this run.2).
Proof.
  intros run.
  destruct (Perception_keeps_the_pipeline no_options (frame 1 "front_6mm")
              ready run.1 run.2 (surjective_pairing _))
    as (_ & _ & _ & _ & Hservice & Hservices & Hready).
  split; [exact Hservice|]. split; [exact Hservices|].
  exact (Hready ready_is_initialized).
Defined.

Lemma out_of_range_is_thrown_at_frame_start_only_witness :
  let run := Perception no_options (frame 3 "rear_6mm") ready in
  name_intrinsic_map_ (this ready) !! "rear_6mm" = None ∧
  Forall (λ e, stage_call (call e) = false)
         (events_since (trace ready) (trace run.2)).
Proof.
  intros run.
  apply (out_of_range_is_thrown_at_frame_start_only no_options
           (frame 3 "rear_6mm") ready run.1 run.2).
  - intros sensor Hsensor.
    destruct ready_is_initialized as (_ & _ & _ & _ & _ & Hmap).
    destruct (Hmap _ Hsensor) as [detector ->]. by eexists.
  - apply surjective_pairing.
  - vm_compute. reflexivity.
Defined.

Lemma failure_modes_of_an_initialized_pipeline_witness :
  let run := Perception no_options (frame 1 "front_6mm") ready in
  (∃ frame', run.1 = Val frame') ∨
  run.1 = Stop (Return false) ∨
  (run.1 = Stop Undefined_behaviour ∧
   ∃ e, last (events_since (trace ready) (trace run.2)) = Some e ∧
        before_object_loop (call e) = true).
Proof.
  intros run.
  apply (failure_modes_of_an_initialized_pipeline no_options
           (frame 1 "front_6mm") ready run.1 run.2).
  - exact ready_is_initialized.
  - vm_compute. by eexists.
  - eexists. split; [vm_compute; reflexivity|]. vm_compute. by eexists.
  - apply surjective_pairing.
Defined.

Lemma Init_aborts_at_the_first_failed_initialization_witness :
  let init := Init (H0 := broken_tracker) options fresh_machine in
  init.1 = Stop Check_failed ∧
  ∃ e o, last (events_since (trace fresh_machine) (trace init.2)) = Some e ∧
         call e = Tracker_Init o ∧ reported e = Some false.
Proof.
  intros init.
  cut (∃ e o, e ∈ events_since (trace fresh_machine) (trace init.2) ∧
              call e = Tracker_Init o ∧ reported e = Some false).
  { intros (e & o & He & Hcall & Hfalse).
    destruct (Init_aborts_at_the_first_failed_initialization
                (H0 := broken_tracker) options fresh_machine init.1 init.2 e
                (surjective_pairing _) He Hfalse) as [Hstop Hlast].
    split; [exact Hstop|]. exists e, o.
    split; [exact Hlast|]. split; [exact Hcall|exact Hfalse]. }
  eexists _, _. split; [nth_event 3%nat|]. split; reflexivity.
Defined.

Lemma Init_returns_true_or_does_not_return_witness :
  let init := Init options fresh_machine in
  init.1 = Val tt ∨
  init.1 = Stop Check_failed ∨
  (init.1 = Stop Undefined_behaviour ∧
   ∃ param detector_param,
     Platform.GetProtoFromFile (Init_config_file options) = Some param ∧
     detector_param ∈ app.detector_param param ∧
     Platform.GetUndistortCameraModel (app.camera_name detector_param) = None).
Proof.
  intros init.
  exact (Init_returns_true_or_does_not_return options fresh_machine
           init.1 init.2 (surjective_pairing _)).
Defined.


Lemma Init_inserts_intrinsics_without_overwriting_witness :
  ∃ pinhole,
    Platform.GetUndistortCameraModel "front_12mm" = Some pinhole ∧
    name_intrinsic_map_ (this initialized_machine) !! "front_12mm" =
      Some (base.get_intrinsic_params pinhole).
Proof.
  destruct (Init_inserts_intrinsics_without_overwriting options
              perception_param fresh_machine initialized_machine)
    as (_ & Hnew & _).
  - vm_compute. reflexivity.
  - vm_compute. reflexivity.
  - destruct (Hnew {| app.plugin_param := plugin "YoloObstacleDetector";
                      app.camera_name := "front_12mm" |})
      as (pinhole & Hpinhole & Hintrinsics).
    + apply list_elem_of_further, list_elem_of_here.
    + exists pinhole. split; [exact Hpinhole|].
      apply Hintrinsics. apply lookup_empty.
Defined.

Lemma successful_Init_initialized_the_components_in_order_witness :
  initialized_by ∘ call
    <$> events_since (trace fresh_machine) (trace initialized_machine) =
  Some <$> [the_device; the_detector "front_6mm"; the_detector "front_12mm";
            the_tracker; the_transformer; the_postprocessor;
            the_lane_detector; the_lane_postprocessor;
            the_calibration_service].
Proof.
  refine (proj1 (successful_Init_initialized_the_components_in_order options
                   perception_param fresh_machine initialized_machine _ _)).
  - vm_compute. reflexivity.
  - vm_compute. reflexivity.
Defined.

Lemma lane_postprocessor_reads_the_lane_detector_configuration_witness :
  let init := Init options fresh_machine in
  ∃ e0 o0 e o,
    e0 ∈ events_since (trace fresh_machine) (trace init.2) ∧
    call e0 = LaneDetector_Init o0 ∧
    e ∈ events_since (trace fresh_machine) (trace init.2) ∧
    call e = LanePostprocessor_Init o ∧
    LanePostprocessorInitOptions.detect_config_root o =
      root_dir (LaneDetectorInitOptions.base_options o0) ∧
    LanePostprocessorInitOptions.detect_config_name o =
      conf_file (LaneDetectorInitOptions.base_options o0).
Proof.
  intros init.
  cut (∃ e0 o0 e o,
         e0 ∈ events_since (trace fresh_machine) (trace init.2) ∧
         call e0 = LaneDetector_Init o0 ∧
         e ∈ events_since (trace fresh_machine) (trace init.2) ∧
         call e = LanePostprocessor_Init o).
  { intros (e0 & o0 & e & o & He0 & Hcall0 & He & Hcall).
    destruct (lane_postprocessor_reads_the_lane_detector_configuration
                options fresh_machine init.1 init.2 e0 o0 e o
                (surjective_pairing _) He0 Hcall0 He Hcall)
      as (Hroot & Hname & _).
    exists e0, o0, e, o. split; [exact He0|]. split; [exact Hcall0|].
    split; [exact He|]. split; [exact Hcall|].
    split; [exact Hroot|exact Hname]. }
  eexists _, _, _, _. split; [nth_event 6%nat|]. split; [reflexivity|].
  split; [nth_event 7%nat|reflexivity].
Defined.

Lemma lane_detector_and_calibration_service_see_the_last_camera_witness :
  let init := Init options fresh_machine in
  ∃ e o,
    e ∈ events_since (trace fresh_machine) (trace init.2) ∧
    call e = Calibration_Init o ∧
    CalibrationServiceInitOptions.image_width o = 1280%Z ∧
    CalibrationServiceInitOptions.image_height o = 720%Z.
Proof.
  intros init.
  cut (∃ e o, e ∈ events_since (trace fresh_machine) (trace init.2) ∧
              call e = Calibration_Init o).
  { intros (e & o & He & Hcall).
    assert (Hparam : Platform.GetProtoFromFile (Init_config_file options) =
                       Some perception_param) by (vm_compute; reflexivity).
    destruct (proj2 (lane_detector_and_calibration_service_see_the_last_camera
                       options perception_param
                       {| app.plugin_param := plugin "YoloObstacleDetector";
                          app.camera_name := "front_12mm" |}
                       fresh_machine init.1 init.2 e Hparam eq_refl
                       (surjective_pairing _) He) o Hcall)
      as (camera & Hcamera & Hwidth & Hheight).
    vm_compute in Hcamera. injection Hcamera as <-.
    exists e, o. split; [exact He|]. split; [exact Hcall|].
    split; [exact Hwidth|exact Hheight]. }
  eexists _, _. split; [nth_event 8%nat|reflexivity].
Defined.

Lemma calibration_service_is_given_the_intrinsics_of_every_camera_witness :
  let init := Init options fresh_machine in
  ∃ e o,
    e ∈ events_since (trace fresh_machine) (trace init.2) ∧
    call e = Calibration_Init o ∧
    CalibrationServiceInitOptions.calibrator_working_sensor_name o =
      "front_6mm" ∧
    is_Some (CalibrationServiceInitOptions.name_intrinsic_map o
               !! "front_12mm").
Proof.
  intros init.
  cut (∃ e o, e ∈ events_since (trace fresh_machine) (trace init.2) ∧
              call e = Calibration_Init o).
  { intros (e & o & He & Hcall).
    assert (Hparam : Platform.GetProtoFromFile (Init_config_file options) =
                       Some perception_param) by (vm_compute; reflexivity).
    destruct (calibration_service_is_given_the_intrinsics_of_every_camera
                options perception_param fresh_machine init.1 init.2 e o
                Hparam (surjective_pairing _) He Hcall)
      as (Hworking & _ & Hcovers & _).
    exists e, o. split; [exact He|]. split; [exact Hcall|].
    split; [exact Hworking|].
    apply (Hcovers {| app.plugin_param := plugin "YoloObstacleDetector";
                      app.camera_name := "front_12mm" |}).
    apply list_elem_of_further, list_elem_of_here. }
  eexists _, _. split; [nth_event 8%nat|reflexivity].
Defined.

Lemma SetCameraHeightAndPitch_needs_the_calibration_service_witness :
  SetCameraHeightAndPitch ∅ ∅ 5%Z fresh_machine
    = (Stop Check_failed, fresh_machine) ∧
  ∃ m', SetCameraHeightAndPitch ∅ ∅ 5%Z initialized_machine = (Val tt, m') ∧
        this m' = this initialized_machine.
Proof.
  destruct (@SetCameraHeightAndPitch_needs_the_calibration_service
              Script Script Script Script Script Script Script
              _ _ _ _ _ _ _ _ _ ∅ ∅ 5%Z) as [Hbefore Hafter].
  split; [apply Hbefore; reflexivity|].
  destruct (Hafter options fresh_machine initialized_machine)
    as (m' & l & Hrun & _ & Hthis & _).
  - vm_compute. reflexivity.
  - exists m'. split; [exact Hrun|exact Hthis].
Defined.

Lemma Perception_after_Init_witness :
  let run := Perception no_options (frame 1 "front_6mm") initialized_machine in
  (∃ frame', run.1 = Val frame') ∨
  run.1 = Stop (Return false) ∨
  (run.1 = Stop Undefined_behaviour ∧
   ∃ e, last (events_since (trace initialized_machine) (trace run.2)) = Some e ∧
        before_object_loop (call e) = true).
Proof.
  intros run.
  apply (Perception_after_Init options perception_param
           {| app.plugin_param := plugin "YoloObstacleDetector";
              app.camera_name := "front_6mm" |}
           fresh_machine initialized_machine no_options
           (frame 1 "front_6mm") run.1 run.2).
  - intros sensor [v Hv]. simpl in Hv. by rewrite lookup_empty in Hv.
  - vm_compute. reflexivity.
  - vm_compute. reflexivity.
  - apply list_elem_of_here.
  - reflexivity.
  - vm_compute. reflexivity.
  - apply surjective_pairing.
Defined.

Lemma Perception_touches_only_what_the_frame_names_witness :
  let run := Perception no_options (frame 1 "front_6mm") ready in
  name_detector_map_ (this run.2) !! "front_12mm" =
    name_detector_map_ (this ready) !! "front_12mm".
Proof.
  intros run.
  apply (proj1 (Perception_touches_only_what_the_frame_names no_options
                  (frame 1 "front_6mm") ready run.1 run.2
                  (surjective_pairing _))).
  simpl. discriminate.
Defined.

Lemma without_a_debug_block_no_file_is_written_witness :
  let run := Perception no_options (frame 1 "front_6mm") ready in
  ∃ e enabled path,
    e ∈ events_since (trace ready) (trace run.2) ∧
    call e = WriteLanelines enabled path ∧
    writes_a_file (call e) = false.
Proof.
  intros run.
  cut (∃ e enabled path,
         e ∈ events_since (trace ready) (trace run.2) ∧
         call e = WriteLanelines enabled path).
  { intros (e & enabled & path & He & Hcall). exists e, enabled, path.
    split; [exact He|]. split; [exact Hcall|].
    apply (without_a_debug_block_no_file_is_written no_options
             (frame 1 "front_6mm") ready run.1 run.2 e).
    - vm_compute. reflexivity.
    - apply surjective_pairing.
    - exact He. }
  eexists _, _, _. split; [nth_event 5%nat|reflexivity].
Defined.

Lemma successful_Init_read_a_complete_configuration_witness :
  ∃ param lane_param,
    Platform.GetProtoFromFile (Init_config_file options) = Some param ∧
    perception_param_ (this initialized_machine) = param ∧
    Platform.set_device_id (app.gpu_id param) = true ∧
    app.detector_param param ≠ [] ∧
    is_Some (app.tracker_param param) ∧
    is_Some (app.transformer_param param) ∧
    is_Some (app.postprocessor_param param) ∧
    app.lane_param param = Some lane_param ∧
    is_Some (app.lane_detector_param lane_param) ∧
    is_Some (app.calibration_service_param param) ∧
    (is_Some (app.feature_param param) ↔
     is_Some (extractor_ (this initialized_machine))).
Proof.
  apply (successful_Init_read_a_complete_configuration options fresh_machine
           initialized_machine).
  vm_compute. reflexivity.
Defined.

End Examples.
